(** * NetworkAnalyzerSuite: packet classifier, ARP scan and topology builder

    A shallow embedding of the three Python modules

      - [sniffer/packet_sniffer.py]       (class [PacketSniffer]),
      - [scanner/network_scanner.py]      ([perform_arp_scan]),
      - [visualizer/topology_visualizer.py] (class [TopologyVisualizer]),

    together with the properties their design document states about them,
    and of the rest of these modules, of [utils/helpers.py] and of
    [scan_network] of [main.py], with further properties read off the
    code.

    Python values are modelled as follows.  A [str] is the list of its
    Unicode code points; a [bytes] object is a [list byte]; an [int] is a
    [Z]; a [dict] that is printed in insertion order is an association
    list ([pydict]); the dictionaries of the graph library, which are only
    ever queried, are finite maps.  Code that can raise runs in the
    [result] monad, and [try ... except Exception] is [try_except]. *)

From Stdlib Require Import ZArith NArith QArith List.
From Stdlib Require Import Strings.Ascii Strings.String Strings.Byte.
From Stdlib Require Import Decimal DecimalString Lia Sorting.Sorted.
From stdpp Require Import gmap list.

Local Open Scope Z_scope.

(* ===================================================================== *)
(** * Python strings                                                      *)
(* ===================================================================== *)

Module PyStr.

(** A Python [str]: a sequence of code points. *)
Abbreviation pystr := (list N).

(** A literal of the source, turned into its code points. *)
Definition py (s : string) : pystr :=
  List.map N_of_ascii (list_ascii_of_string s).

(** [str(i)] and [f"{i}"] for an [int]. *)
Definition str_of_int (i : Z) : pystr :=
  py (NilZero.string_of_int (Z.to_int i)).

(** [s.startswith(pre)]. *)
Fixpoint startswith (pre s : pystr) : bool :=
  match pre, s with
  | [], _ => true
  | _ :: _, [] => false
  | p :: pre', c :: s' => (p =? c)%N && startswith pre' s'
  end.

(** [sub in s]: [sub] occurs in [s] at some offset. *)
Fixpoint contains (sub s : pystr) : bool :=
  startswith sub s ||
  match s with
  | [] => false
  | _ :: s' => contains sub s'
  end.

(** The line boundaries of [str.splitlines]:
    LF, VT, FF, CR, FS, GS, RS, NEL, LS and PS. *)
Definition is_linebreak (c : N) : bool :=
  ((10 <=? c) && (c <=? 13) || (28 <=? c) && (c <=? 30)
   || (c =? 133) || (c =? 8232) || (c =? 8233))%N.

(** [s.splitlines()]: the lines of [s] without their terminators; CR LF is
    one terminator, and a terminator at the very end opens no new line. *)
Fixpoint splitlines (s : pystr) : list pystr :=
  match s with
  | [] => []
  | c :: s' =>
      if is_linebreak c then
        [] :: match s' with
              | c' :: s'' =>
                  if ((c =? 13) && (c' =? 10))%N then splitlines s''
                  else splitlines s'
              | [] => []
              end
      else
        match splitlines s' with
        | [] => [[c]]
        | line :: lines => (c :: line) :: lines
        end
  end.

(** [s.split(sep)] for a separator of one character, as every call of the
    source has it: one piece more than there are separators. *)
Fixpoint split (sep : N) (s : pystr) : list pystr :=
  match s with
  | [] => [[]]
  | c :: s' =>
      if (c =? sep)%N then [] :: split sep s'
      else
        match split sep s' with
        | [] => [[c]]
        | piece :: pieces => (c :: piece) :: pieces
        end
  end.

(** [sep.join(pieces)]. *)
Fixpoint join (sep : pystr) (pieces : list pystr) : pystr :=
  match pieces with
  | [] => []
  | [piece] => piece
  | piece :: pieces' => piece ++ sep ++ join sep pieces'
  end.

(** Unicode white space, as [str.strip()] removes it. *)
Definition is_space (c : N) : bool :=
  ((9 <=? c) && (c <=? 13) || (28 <=? c) && (c <=? 32)
   || (c =? 133) || (c =? 160) || (c =? 5760)
   || (8192 <=? c) && (c <=? 8202)
   || (c =? 8232) || (c =? 8233) || (c =? 8239) || (c =? 8287)
   || (c =? 12288))%N.

Fixpoint lstrip (s : pystr) : pystr :=
  match s with
  | c :: s' => if is_space c then lstrip s' else s
  | [] => []
  end.

(** [s.strip()]. *)
Definition strip (s : pystr) : pystr :=
  rev (lstrip (rev (lstrip s))).

(** ** [bytes.decode(errors='ignore')]

    The default codec is UTF-8.  With [errors='ignore'] the decoder drops
    what it cannot decode and goes on: one byte for an invalid start byte,
    the bytes read so far when a continuation byte is wrong (decoding
    resumes at the offending byte), and the whole rest when the data ends
    inside a sequence.  Overlong forms, surrogates and code points above
    U+10FFFF are invalid. *)

Definition is_continuation (b : N) : bool := ((128 <=? b) && (b <? 192))%N.

(** Is [b2] an acceptable second byte after the start byte [b1] of a
    three-byte sequence?  (E0 needs A0..BF, ED needs 80..9F.) *)
Definition second_of_three (b1 b2 : N) : bool :=
  (is_continuation b2 &&
   negb (if b2 <? 160 then b1 =? 224 else b1 =? 237))%N.

(** The same for a four-byte sequence (F0 needs 90..BF, F4 needs 80..8F). *)
Definition second_of_four (b1 b2 : N) : bool :=
  (is_continuation b2 &&
   negb (if b2 <? 144 then b1 =? 240 else b1 =? 244))%N.

Fixpoint utf8_ignore (s : list N) : pystr :=
  match s with
  | [] => []
  | b1 :: s1 =>
      if (b1 <? 128)%N then b1 :: utf8_ignore s1
      else if (b1 <? 194)%N then utf8_ignore s1
      else if (b1 <? 224)%N then
        match s1 with
        | [] => []
        | b2 :: s2 =>
            if is_continuation b2
            then ((b1 - 192) * 64 + (b2 - 128))%N :: utf8_ignore s2
            else utf8_ignore s1
        end
      else if (b1 <? 240)%N then
        match s1 with
        | [] => []
        | b2 :: s2 =>
            if second_of_three b1 b2 then
              match s2 with
              | [] => []
              | b3 :: s3 =>
                  if is_continuation b3
                  then ((b1 - 224) * 4096 + (b2 - 128) * 64
                        + (b3 - 128))%N :: utf8_ignore s3
                  else utf8_ignore s2
              end
            else utf8_ignore s1
        end
      else if (b1 <? 245)%N then
        match s1 with
        | [] => []
        | b2 :: s2 =>
            if second_of_four b1 b2 then
              match s2 with
              | [] => []
              | b3 :: s3 =>
                  if is_continuation b3 then
                    match s3 with
                    | [] => []
                    | b4 :: s4 =>
                        if is_continuation b4
                        then ((b1 - 240) * 262144 + (b2 - 128) * 4096
                              + (b3 - 128) * 64 + (b4 - 128))%N
                             :: utf8_ignore s4
                        else utf8_ignore s3
                    end
                  else utf8_ignore s2
              end
            else utf8_ignore s1
        end
      else utf8_ignore s1
  end.

(** [load.decode(errors='ignore')] for a [bytes] object [load]. *)
Definition decode_ignore (load : list byte) : pystr :=
  utf8_ignore (List.map Byte.to_N load).

(** A [bytes] literal. *)
Definition bytes_of (s : string) : list byte := list_byte_of_string s.

End PyStr.
Import PyStr.

#[global] Arguments py : simpl never.
#[global] Arguments str_of_int : simpl never.
#[global] Arguments decode_ignore : simpl never.

(* ===================================================================== *)
(** * Exceptions                                                          *)
(* ===================================================================== *)

Module PyExn.

(** The exceptions the modelled code can meet. *)
Inductive exn : Type :=
  | KeyError (key : pystr)
  | IndexError
  | ZeroDivisionError
  | ValueError (msg : pystr)
  | LibraryError (what : pystr)
  | KeyboardInterrupt.

(** All of them but [KeyboardInterrupt] are subclasses of [Exception]. *)
Definition is_Exception (e : exn) : bool :=
  match e with KeyboardInterrupt => false | _ => true end.

Inductive result (A : Type) : Type :=
  | Ok (a : A)
  | Raise (e : exn).
Arguments Ok {A} a.
Arguments Raise {A} e.

Definition bind {A B} (r : result A) (k : A -> result B) : result B :=
  match r with
  | Ok a => k a
  | Raise e => Raise e
  end.

(** [try: body  except Exception: handler]. *)
Definition try_except {A} (body : result A) (handler : exn -> result A)
  : result A :=
  match body with
  | Ok a => Ok a
  | Raise e => if is_Exception e then handler e else Raise e
  end.

(** [l[i]] on a list, for [i >= 0]. *)
Definition index {A} (l : list A) (i : nat) : result A :=
  match nth_error l i with
  | Some a => Ok a
  | None => Raise IndexError
  end.

End PyExn.
Import PyExn.

#[global] Instance result_ret : MRet result := @Ok.
#[global] Instance result_bind : MBind result := fun A B k r => bind r k.

(* ===================================================================== *)
(** * Insertion-ordered dictionaries                                      *)
(* ===================================================================== *)

Module PyDict.

(** A [dict] with [str] keys, in insertion order (the order [items()] and
    [values()] iterate in). *)
Definition pydict (V : Type) : Type := list (pystr * V).

(** [d.get(key)] as an option. *)
Fixpoint find {V} (key : pystr) (d : pydict V) : option V :=
  match d with
  | [] => None
  | (k, v) :: d' => if decide (k = key) then Some v else find key d'
  end.

(** [d[key]]. *)
Definition getitem {V} (key : pystr) (d : pydict V) : result V :=
  match find key d with
  | Some v => Ok v
  | None => Raise (KeyError key)
  end.

(** [d[key] = v]: an existing key keeps its place, a new one goes last. *)
Fixpoint setitem {V} (key : pystr) (v : V) (d : pydict V) : pydict V :=
  match d with
  | [] => [(key, v)]
  | (k, w) :: d' =>
      if decide (k = key) then (k, v) :: d' else (k, w) :: setitem key v d'
  end.

Definition keys {V} (d : pydict V) : list pystr := List.map fst d.
Definition values {V} (d : pydict V) : list V := List.map snd d.
Definition items {V} (d : pydict V) : list (pystr * V) := d.

(** [sum(d.values())] (integer addition, so in either direction). *)
Definition sum_values (d : pydict Z) : Z := fold_right Z.add 0 (values d).

End PyDict.

(* ===================================================================== *)
(** * Methods: state and exceptions                                       *)
(* ===================================================================== *)

Module PyMethod.

(** A method of an object of class [S]: it takes the object, and leaves it
    changed whether it returns or raises. *)
Definition Method (S A : Type) : Type := S -> result A * S.

#[global] Instance method_ret {S} : MRet (Method S) :=
  fun A a self => (Ok a, self).
#[global] Instance method_bind {S} : MBind (Method S) :=
  fun A B k m self =>
    match m self with
    | (Ok a, self') => k a self'
    | (Raise e, self') => (Raise e, self')
    end.

Definition lift {S A} (r : result A) : Method S A := fun self => (r, self).
Definition attr {S A} (field : S -> A) : Method S A :=
  fun self => (Ok (field self), self).
Definition assign {S} (update : S -> S) : Method S unit :=
  fun self => (Ok tt, update self).

(** [for x in xs: body(x)]. *)
Fixpoint for_each {S A} (xs : list A) (body : A -> Method S unit)
  : Method S unit :=
  match xs with
  | [] => mret tt
  | x :: xs' => _ ← body x; for_each xs' body
  end.

(** [try: body  except ...: handler]; the handler re-raises what it does
    not catch. *)
Definition catch {S A} (body : Method S A) (handler : exn -> Method S A)
  : Method S A :=
  fun self =>
    match body self with
    | (Raise e, self') => handler e self'
    | returned => returned
    end.

(** [try: body  finally: cleanup]. *)
Definition finally {S A} (body : Method S A) (cleanup : Method S unit)
  : Method S A :=
  fun self =>
    let '(r, self') := body self in
    match cleanup self' with
    | (Ok _, self'') => (r, self'')
    | (Raise e, self'') => (Raise e, self'')
    end.

End PyMethod.
Import PyMethod.

(* ===================================================================== *)
(** * Decoded frames                                                      *)
(* ===================================================================== *)

Module Scapy.

(** One layer of a dissected packet, with the fields the handler reads. *)
Inductive layer : Type :=
  | Ether
  | IP (src dst : pystr)
  | TCP (sport dport : Z)
  | UDP (sport dport : Z)
  | ICMP (type : Z)
  | DNS
  | Raw (load : list byte)
  | Layer (name : pystr).

(** A packet is its stack of layers, outermost first; [wire_len] is
    [len(packet)], the length of the frame in bytes. *)
Record Packet : Type := { layers : list layer; wire_len : Z }.

(** A layer class is given by the selector that recognises its instances
    and projects their fields. *)
Definition as_IP (l : layer) : option (pystr * pystr) :=
  match l with IP src dst => Some (src, dst) | _ => None end.
Definition as_TCP (l : layer) : option (Z * Z) :=
  match l with TCP sport dport => Some (sport, dport) | _ => None end.
Definition as_UDP (l : layer) : option (Z * Z) :=
  match l with UDP sport dport => Some (sport, dport) | _ => None end.
Definition as_ICMP (l : layer) : option Z :=
  match l with ICMP type => Some type | _ => None end.
Definition as_DNS (l : layer) : option unit :=
  match l with DNS => Some tt | _ => None end.
Definition as_Raw (l : layer) : option (list byte) :=
  match l with Raw load => Some load | _ => None end.

Fixpoint first_layer {A} (cls : layer -> option A) (ls : list layer)
  : option A :=
  match ls with
  | [] => None
  | l :: ls' =>
      match cls l with
      | Some a => Some a
      | None => first_layer cls ls'
      end
  end.

(** [packet.haslayer(cls)]. *)
Definition haslayer {A} (cls : layer -> option A) (packet : Packet) : bool :=
  match first_layer cls (layers packet) with
  | Some _ => true
  | None => false
  end.

(** [packet[cls]]: the first layer of that class; [IndexError] when the
    packet has none. *)
Definition getlayer {A} (cls : layer -> option A) (packet : Packet)
  : result A :=
  match first_layer cls (layers packet) with
  | Some a => Ok a
  | None => Raise IndexError
  end.

(** How a capture ended: the count or the timeout was reached, the user
    interrupted it ([KeyboardInterrupt]), or the capture layer failed. *)
Inductive ending : Type :=
  | Finished
  | Interrupted
  | Failed (e : exn).

(** What [scapy.sniff] delivers during one call: the frames passed to the
    callback, in order, and how the capture ended. *)
Record Capture : Type := { frames : list Packet; ended : ending }.

End Scapy.
Import Scapy.

(* ===================================================================== *)
(** * sniffer/packet_sniffer.py                                           *)
(* ===================================================================== *)

Module Sniffer.
Import PyDict.

(** What a session writes, in order: records of [self.logger] and lines of
    standard output.  A statistics line keeps its percentage as the exact
    quotient; the rounding of Python's floats and of the [.1f] format is
    not modelled. *)
Inductive event : Type :=
  | LogInfo (msg : pystr)
  | LogInfoStat (protocol : pystr) (count : Z) (pc : Q)
  | LogError (msg : pystr) (e : exn)
  | Stdout (msg : pystr)
  | StdoutStat (proto : pystr) (count : Z) (pc : Q)
  | StdoutFailure (msg : pystr) (e : exn).

(** The attributes of a [PacketSniffer] object, and [emitted], everything
    it has logged and printed so far. *)
Record PacketSniffer : Type := {
  interface : option pystr;
  log_file : pystr;
  packet_count : Z;
  running : bool;
  protocol_stats : pydict Z;
  captured_packets : list Packet;
  emitted : list event
}.

Definition set_packet_count (v : Z) (s : PacketSniffer) :=
  {| interface := interface s; log_file := log_file s;
     packet_count := v; running := running s;
     protocol_stats := protocol_stats s;
     captured_packets := captured_packets s; emitted := emitted s |}.
Definition set_running (v : bool) (s : PacketSniffer) :=
  {| interface := interface s; log_file := log_file s;
     packet_count := packet_count s; running := v;
     protocol_stats := protocol_stats s;
     captured_packets := captured_packets s; emitted := emitted s |}.
Definition set_protocol_stats (v : pydict Z) (s : PacketSniffer) :=
  {| interface := interface s; log_file := log_file s;
     packet_count := packet_count s; running := running s;
     protocol_stats := v;
     captured_packets := captured_packets s; emitted := emitted s |}.
Definition set_captured_packets (v : list Packet) (s : PacketSniffer) :=
  {| interface := interface s; log_file := log_file s;
     packet_count := packet_count s; running := running s;
     protocol_stats := protocol_stats s;
     captured_packets := v; emitted := emitted s |}.
Definition set_emitted (v : list event) (s : PacketSniffer) :=
  {| interface := interface s; log_file := log_file s;
     packet_count := packet_count s; running := running s;
     protocol_stats := protocol_stats s;
     captured_packets := captured_packets s; emitted := v |}.

Abbreviation Method := (PyMethod.Method PacketSniffer).

Definition emit (e : event) : Method unit :=
  assign (fun self => set_emitted (emitted self ++ [e]) self).

(** The dictionary literal of [__init__] and of [start_sniffing]. *)
Definition fresh_stats : pydict Z :=
  [(py "TCP", 0); (py "UDP", 0); (py "ICMP", 0); (py "Other", 0)].

(** [__init__] (without the set-up of the logging handlers). *)
Definition init (interface : option pystr) (log_file : pystr)
  : PacketSniffer :=
  {| interface := interface; log_file := log_file;
     packet_count := 0; running := false;
     protocol_stats := fresh_stats;
     captured_packets := []; emitted := [] |}.

(** [a / b] on two [int]s: the quotient, exact; [ZeroDivisionError] when
    [b] is zero.  (The [OverflowError] of a quotient beyond the range of
    a float is left out.) *)
Definition truediv (a b : Z) : result Q :=
  if b =? 0 then Raise ZeroDivisionError
  else Ok (inject_Z a / inject_Z b)%Q.

(** [s * n]. *)
Definition times (s : pystr) (n : nat) : pystr :=
  List.concat (List.repeat s n).

(** [x or default] for an optional [str]: [None] and [''] are false. *)
Definition str_or (x : option pystr) (default : pystr) : pystr :=
  match x with
  | Some (c :: s) => c :: s
  | _ => default
  end.

(** [x or default] for an optional [int], inside an f-string. *)
Definition int_or (x : option Z) (default : pystr) : pystr :=
  match x with
  | Some i => if i =? 0 then default else str_of_int i
  | None => default
  end.

Definition print_stats : Method unit :=
  n ← attr packet_count;
  _ ← emit (Stdout ([10%N] ++ py "Packet Statistics (Total: "
                   ++ str_of_int n ++ py ")"));
  _ ← emit (Stdout (times (py "-") 40));
  let total := if n >? 0 then n else 1 in
  stats ← attr protocol_stats;
  _ ← for_each (items stats) (fun '(proto, count) =>
        q ← lift (truediv count total);
        let pc := (q * 100)%Q in
        emit (StdoutStat proto count pc));
  emit (Stdout (times (py "-") 40)).

(** [self.protocol_stats[key] += 1]. *)
Definition count_protocol (key : pystr) : Method unit :=
  stats ← attr protocol_stats;
  count ← lift (getitem key stats);
  assign (set_protocol_stats (setitem key (count + 1) stats)).

Definition icmp_types : gmap Z pystr :=
  {[ 0 := py "Echo Reply"; 3 := py "Dest Unreachable";
     8 := py "Echo Request"; 11 := py "Time Exceeded" ]}.

(** The body of the [try] of the handler: the summary with the first line
    of the payload appended when the payload names an HTTP method. *)
Definition http_request_line (packet : Packet) (summary : pystr)
  : result pystr :=
  load ← getlayer as_Raw packet;
  let data := decode_ignore load in
  if existsb (fun method => contains method data)
       [py "GET"; py "POST"; py "HTTP"]
  then line ← index (splitlines data) 0;
       mret (summary ++ py " [HTTP] " ++ line)
  else mret summary.

(** The branches of the handler that set [proto] and [summary] and count
    the protocol. *)
Definition classify (packet : Packet) : Method (pystr * pystr) :=
  let proto := py "Other" in
  let summary : pystr := [] in
  if haslayer as_IP packet then
    '(src_ip, dst_ip) ← lift (getlayer as_IP packet);
    if haslayer as_TCP packet then
      let proto := py "TCP" in
      _ ← count_protocol (py "TCP");
      '(sport, dport) ← lift (getlayer as_TCP packet);
      let summary := py "TCP " ++ src_ip ++ py ":" ++ str_of_int sport
                     ++ py " -> " ++ dst_ip ++ py ":" ++ str_of_int dport in
      summary ←
        (if (dport =? 80) || (sport =? 80) then
           if haslayer as_Raw packet then
             lift (try_except (http_request_line packet summary)
                              (fun _ => Ok summary))
           else mret summary
         else mret summary);
      let summary :=
        if (dport =? 443) || (sport =? 443)
        then summary ++ py " [HTTPS]" else summary in
      mret (proto, summary)
    else if haslayer as_UDP packet then
      let proto := py "UDP" in
      _ ← count_protocol (py "UDP");
      '(sport, dport) ← lift (getlayer as_UDP packet);
      let summary := py "UDP " ++ src_ip ++ py ":" ++ str_of_int sport
                     ++ py " -> " ++ dst_ip ++ py ":" ++ str_of_int dport in
      let summary :=
        if haslayer as_DNS packet
        then summary ++ py " [DNS Query]" else summary in
      mret (proto, summary)
    else if haslayer as_ICMP packet then
      let proto := py "ICMP" in
      _ ← count_protocol (py "ICMP");
      type ← lift (getlayer as_ICMP packet);
      let summary := py "ICMP " ++ src_ip ++ py " -> " ++ dst_ip
                     ++ py " Type: " ++ str_of_int type ++ py " ("
                     ++ default [] (icmp_types !! type) ++ py ")" in
      mret (proto, summary)
    else
      _ ← count_protocol (py "Other");
      let summary := src_ip ++ py " -> " ++ dst_ip
                     ++ py " (Other Protocol)" in
      mret (proto, summary)
  else
    _ ← count_protocol (py "Other");
    let summary := py "Unknown Packet (" ++ str_of_int (wire_len packet)
                   ++ py " bytes)" in
    mret (proto, summary).

(** [packet_handler].  The method returns nothing; the model returns the
    final values of its locals [proto] and [summary]. *)
Definition packet_handler (packet : Packet) : Method (pystr * pystr) :=
  _ ← assign (fun self => set_packet_count (packet_count self + 1) self);
  '(proto, summary) ← classify packet;
  n ← attr packet_count;
  _ ← emit (LogInfo (py "Packet #" ++ str_of_int n ++ py ": " ++ summary));
  _ ← assign (fun self =>
         set_captured_packets (captured_packets self ++ [packet]) self);
  _ ← (if n `mod` 10 =? 0 then print_stats else mret tt);
  mret (proto, summary).

(** ** The session *)

(** The callback applied to each delivered frame in turn; an exception of
    the callback ends the capture and propagates. *)
Fixpoint deliver (packets : list Packet) : Method unit :=
  match packets with
  | [] => mret tt
  | packet :: packets' => _ ← packet_handler packet; deliver packets'
  end.

(** [scapy.sniff(prn=self.packet_handler, count=count, store=False)] on
    the capture [capture]: with a positive [count] it returns after that
    many frames.  The capture ends between two calls of the callback; a
    capture that Ctrl-C ends inside the callback is [Interrupt.sniff_cut]
    below. *)
Definition sniff (count : Z) (capture : Capture) : Method unit :=
  if (0 <? count) && (count <=? Z.of_nat (length (frames capture))) then
    deliver (take (Z.to_nat count) (frames capture))
  else
    _ ← deliver (frames capture);
    match ended capture with
    | Finished => mret tt
    | Interrupted => lift (Raise KeyboardInterrupt)
    | Failed e => lift (Raise e)
    end.

(** The statements of [start_sniffing] before its [try]: the counters are
    reset and the session is announced. *)
Definition begin_session (count : Z) (timeout : option Z)
    (filter_str : option pystr) : Method unit :=
  _ ← assign (set_running true);
  _ ← assign (set_packet_count 0);
  _ ← assign (set_protocol_stats fresh_stats);
  _ ← assign (set_captured_packets []);
  iface ← attr interface;
  _ ← emit (LogInfo (times (py "=") 50));
  _ ← emit (LogInfo (py "PACKET SNIFFING STARTED"));
  _ ← emit (LogInfo (py "Interface: " ++ str_or iface (py "Default")));
  _ ← emit (LogInfo (py "Filter: " ++ str_or filter_str (py "None")));
  _ ← emit (LogInfo (py "Count: " ++ int_or (Some count) (py "Unlimited")));
  _ ← emit (LogInfo (py "Timeout: " ++ int_or timeout (py "None")));
  _ ← emit (LogInfo (times (py "=") 50));
  _ ← emit (Stdout (py "Started sniffing on interface: "
                    ++ str_or iface (py "default")));
  _ ← match filter_str with
      | Some (c :: f) => emit (Stdout (py "Filter: " ++ c :: f))
      | _ => mret tt
      end;
  emit (Stdout (py "Capturing packets... Press Ctrl+C to stop")).

Section Session.

(** [datetime.now().strftime('%Y%m%d_%H%M%S')], and scapy's [wrpcap]. *)
Variable now : pystr.
Variable wrpcap : pystr -> list Packet -> result unit.

Definition save_to_pcap : Method unit :=
  let pcap_file := py "output/sniffed_" ++ now ++ py ".pcap" in
  packets ← attr captured_packets;
  match wrpcap pcap_file packets with
  | Ok _ => emit (Stdout (py "Captured packets saved to " ++ pcap_file))
  | Raise e =>
      if is_Exception e
      then emit (StdoutFailure (py "Could not save .pcap: ") e)
      else lift (Raise e)
  end.

Definition stop_sniffing (save_pcap : bool) : Method unit :=
  _ ← assign (set_running false);
  _ ← emit (LogInfo (times (py "=") 50));
  _ ← emit (LogInfo (py "PACKET SNIFFING STOPPED"));
  n ← attr packet_count;
  _ ← emit (LogInfo (py "Total packets captured: " ++ str_of_int n));
  stats ← attr protocol_stats;
  _ ← for_each (items stats) (fun '(protocol, count) =>
        pc ← (if negb (n =? 0)
              then q ← lift (truediv count n); mret (q * 100)%Q
              else mret (inject_Z 0));
        emit (LogInfoStat protocol count pc));
  _ ← emit (LogInfo (times (py "=") 50));
  _ ← emit (Stdout ([10%N] ++ py "Sniffing session ended"));
  _ ← print_stats;
  file ← attr log_file;
  _ ← emit (Stdout (py "Logs saved to: " ++ file));
  packets ← attr captured_packets;
  if save_pcap && negb (bool_decide (packets = []))
  then save_to_pcap else mret tt.

Definition start_sniffing (count : Z) (timeout : option Z)
    (filter_str : option pystr) (save_pcap : bool) (capture : Capture)
  : Method unit :=
  _ ← begin_session count timeout filter_str;
  finally
    (catch (sniff (if 0 <? count then count else 0) capture)
       (fun e =>
          match e with
          | KeyboardInterrupt =>
              emit (Stdout ([10%N] ++ py "Sniffing stopped by user"))
          | _ => emit (LogError (py "Error during packet sniffing: ") e)
          end))
    (stop_sniffing save_pcap).

End Session.

(** The protocol tags, in the order of the dictionary literal. *)
Definition tags : list pystr := [py "TCP"; py "UDP"; py "ICMP"; py "Other"].

(** The four counters are there: the state [__init__] and
    [start_sniffing] establish and the handler preserves. *)
Definition well_formed (self : PacketSniffer) : Prop :=
  keys (protocol_stats self) = tags.

(** The object with the lines [out] logged or printed. *)
Definition emits (out : list event) (self : PacketSniffer) : PacketSniffer :=
  set_emitted (emitted self ++ out) self.

(** The object with the counter of [key] one higher. *)
Definition counted (key : pystr) (self : PacketSniffer) : PacketSniffer :=
  let stats := protocol_stats self in
  set_protocol_stats (setitem key (default 0 (find key stats) + 1) stats) self.

End Sniffer.


(* ===================================================================== *)
(** * Devices                                                             *)
(* ===================================================================== *)

(** One entry of a scan result: the dictionary [{'ip': ..., 'mac': ...}],
    which may carry a ['vendor'] as well. *)
Record Device : Type := { ip : pystr; mac : pystr; vendor : option pystr }.

(* ===================================================================== *)
(** * scanner/network_scanner.py                                          *)
(* ===================================================================== *)

Module Scanner.

(** The fields of an ARP reply the scan reads. *)
Record ARP : Type := { psrc : pystr; hwsrc : pystr }.

Section Scan.

(** [srp(Ether(dst=broadcast)/ARP(pdst=subnet), timeout, retry)[0]]: the
    answered probes, each a pair of the probed address and the reply. *)
Variable srp : pystr -> Z -> Z -> list (pystr * ARP).

(** The function returns the list it builds; the line it prints first is
    left out. *)
Definition perform_arp_scan (subnet : pystr) : list Device :=
  let result := srp subnet 3 1 in
  fold_left
    (fun devices '(sent, received) =>
       devices ++ [{| ip := psrc received; mac := hwsrc received;
                      vendor := None |}])
    result [].

End Scan.

End Scanner.

(** ** The answers [srp] collects

    [srp] is called without [multi].  Scapy then sends one probe to each
    address of the target and keeps the probes that wait for an answer; a
    reply that arrives answers the waiting probe for its source address,
    which from then on waits no longer, and a reply no probe waits for is
    no answer.  The answers are listed as they arrive. *)

Module Srp.
Import Scanner.

(** The waiting probes without the one for [sent]. *)
Fixpoint take_out (sent : pystr) (pending : list pystr) : list pystr :=
  match pending with
  | [] => []
  | probe :: pending' =>
      if decide (probe = sent) then pending'
      else probe :: take_out sent pending'
  end.

(** The answers to the probes [pending] when the replies [arrivals] come
    in, in this order. *)
Fixpoint answered (pending : list pystr) (arrivals : list ARP)
  : list (pystr * ARP) :=
  match arrivals with
  | [] => []
  | reply :: arrivals' =>
      if bool_decide (psrc reply ∈ pending)
      then (psrc reply, reply)
           :: answered (take_out (psrc reply) pending) arrivals'
      else answered pending arrivals'
  end.

End Srp.

(* ===================================================================== *)
(** * networkx.Graph                                                      *)
(* ===================================================================== *)

Module Networkx.

(** An undirected graph without parallel edges: the attributes of each
    node, and the neighbours of each node.  The edges carry no data. *)
Record Graph : Type := {
  _node : gmap pystr (gmap pystr pystr);
  _adj : gmap pystr (gset pystr)
}.

(** [nx.Graph()]. *)
Definition empty : Graph := {| _node := ∅; _adj := ∅ |}.

(** [G.add_node(n, **attrs)]: a new node gets the attributes, a known one
    has them updated. *)
Definition add_node (n : pystr) (attrs : gmap pystr pystr) (G : Graph)
  : Graph :=
  match _node G !! n with
  | None => {| _node := <[n := attrs]> (_node G);
               _adj := <[n := ∅]> (_adj G) |}
  | Some old => {| _node := <[n := attrs ∪ old]> (_node G);
                   _adj := _adj G |}
  end.

(** The start of [add_edge]: an end point that is no node yet becomes one,
    without attributes. *)
Definition touch (n : pystr) (G : Graph) : Graph :=
  match _node G !! n with
  | None => {| _node := <[n := ∅]> (_node G); _adj := <[n := ∅]> (_adj G) |}
  | Some _ => G
  end.

Definition neighbours (G : Graph) (n : pystr) : gset pystr :=
  default ∅ (_adj G !! n).

(** [G.add_edge(u, v)]: each end point becomes a neighbour of the other. *)
Definition add_edge (u v : pystr) (G : Graph) : Graph :=
  let G := touch v (touch u G) in
  let adj := <[u := {[v]} ∪ neighbours G u]> (_adj G) in
  let adj := <[v := {[u]} ∪ default ∅ (adj !! v)]> adj in
  {| _node := _node G; _adj := adj |}.

(** [G.has_edge(u, v)]. *)
Definition has_edge (G : Graph) (u v : pystr) : bool :=
  bool_decide (v ∈ neighbours G u).

(** [n in G]. *)
Definition has_node (G : Graph) (n : pystr) : bool :=
  bool_decide (is_Some (_node G !! n)).

(** [G.nodes[n].get(key)]. *)
Definition node_attr (G : Graph) (n key : pystr) : option pystr :=
  attrs ← _node G !! n; attrs !! key.

(** Only nodes have neighbours: what the methods above keep true of the
    two dictionaries of a graph. *)
Definition consistent (G : Graph) : Prop :=
  forall n, _node G !! n = None -> _adj G !! n = None.

End Networkx.

(* ===================================================================== *)
(** * visualizer/topology_visualizer.py                                   *)
(* ===================================================================== *)

Module Topology.
Import Networkx.

(** The attributes of a [TopologyVisualizer] the modelled methods use, and
    [printed], the lines it has written to standard output. *)
Record TopologyVisualizer : Type := {
  graph : option Graph;
  output_dir : pystr;
  printed : list pystr
}.

(** [__init__]. *)
Definition init : TopologyVisualizer :=
  {| graph := None; output_dir := py "output"; printed := [] |}.

Definition set_graph (G : Graph) (self : TopologyVisualizer) :=
  {| graph := Some G; output_dir := output_dir self;
     printed := printed self |}.

Definition print (line : pystr) : Method TopologyVisualizer unit :=
  assign (fun self =>
            {| graph := graph self; output_dir := output_dir self;
               printed := printed self ++ [line] |}).

Definition detect_gateway (scan_data : list Device) : result pystr :=
  if bool_decide (scan_data <> []) then
    d ← index scan_data 0;
    let first := ip d in
    let base := join (py ".") (take 3 (split 46 first)) in
    let candidate := base ++ py ".1" in
    let all_ips := List.map ip scan_data in
    if bool_decide (candidate ∈ all_ips) then mret candidate
    else index all_ips 0
  else mret (py "192.168.1.1").

Section Builder.

(** The environment: [str.lower], the addresses [detect_local_ips] finds
    for this host, the time stamp [datetime.now().strftime(...)], and the
    plotting library, which draws and saves the figures of a graph or
    fails with some description. *)
Variable lower : pystr -> pystr.
Variable local_ips : list pystr.
Variable now : pystr.
Variable pyplot : Graph -> pystr -> bool -> bool -> pystr -> option pystr.

Definition classify_device (ip mac vendor gateway_ip : pystr)
    (local_ips : list pystr) : pystr :=
  if bool_decide (ip = gateway_ip) then py "gateway"
  else if bool_decide (ip ∈ local_ips) then py "local"
  else
    let vm_keywords := [py "vmware"; py "virtualbox"; py "hyper-v"] in
    if existsb (fun vm_kw => contains vm_kw (lower vendor)) vm_keywords
    then py "vm"
    else
      let known_vendors := [py "apple"; py "samsung"; py "google";
                            py "intel"; py "hp"; py "dell"] in
      if existsb (fun v => contains v (lower vendor)) known_vendors
      then py "device"
      else py "unknown".

(** The body of the loop of [create_graph_from_scan_data]. *)
Definition add_device (gateway_ip : pystr) (G : Graph) (device : Device)
  : Graph :=
  let ip := ip device in
  let mac := mac device in
  let vendor := default (py "Unknown") (vendor device) in
  let node_type := classify_device ip mac vendor gateway_ip local_ips in
  let label := strip (ip ++ [10%N] ++ vendor ++ [10%N] ++ take 8 mac
                      ++ py "...") in
  let G := add_node ip (list_to_map [(py "ip", ip); (py "mac", mac);
                                     (py "vendor", vendor);
                                     (py "node_type", node_type);
                                     (py "label", label)]) G in
  add_edge gateway_ip ip G.

Definition create_graph_from_scan_data (scan_data : list Device)
  : result Graph :=
  let G := Networkx.empty in
  gateway_ip ← detect_gateway scan_data;
  let G := add_node gateway_ip
             (list_to_map [(py "node_type", py "gateway");
                           (py "ip", gateway_ip); (py "mac", py "Gateway");
                           (py "label", py "Gateway" ++ [10%N] ++ gateway_ip)])
             G in
  mret (fold_left (add_device gateway_ip) scan_data G).

(** [os.path.join(a, b)] for a directory name [a] without a final slash. *)
Definition path_join (a b : pystr) : pystr :=
  if startswith (py "/") b then b else a ++ py "/" ++ b.

(** [draw_network_topology]: the figures are the plotting library's; the
    method returns the path of the PNG file. *)
Definition draw_network_topology (G : Graph) (output_filename : pystr)
    (export_svg export_pdf : bool) (theme : pystr)
  : Method TopologyVisualizer pystr :=
  dir ← attr output_dir;
  match pyplot G output_filename export_svg export_pdf theme with
  | Some failure => lift (Raise (LibraryError failure))
  | None => mret (path_join dir output_filename)
  end.

Definition create_topology (scan_data : list Device)
    (output_filename : option pystr) (export_svg export_pdf : bool)
    (theme : pystr) : Method TopologyVisualizer pystr :=
  if bool_decide (scan_data = [])
  then lift (Raise (ValueError (py "No scan data provided!")))
  else
    let output_filename :=
      match output_filename with
      | Some (c :: name) => c :: name
      | _ => py "network_topology_" ++ now ++ py ".png"
      end in
    _ ← print (py "Creating network topology for "
               ++ str_of_int (Z.of_nat (length scan_data))
               ++ py " devices...");
    G ← lift (create_graph_from_scan_data scan_data);
    _ ← assign (set_graph G);
    output_path ← draw_network_topology G output_filename
                    export_svg export_pdf theme;
    _ ← print (py "Network topology saved as: " ++ output_path);
    mret output_path.

End Builder.

End Topology.

(* ===================================================================== *)
(** * Example inputs                                                      *)
(* ===================================================================== *)

Module Scenario.

(** A sniffer as the suite creates it. *)
Definition sniffer : Sniffer.PacketSniffer :=
  Sniffer.init None (py "output/sniff_logs.txt").

(** An HTTP request: 10.0.0.5:51000 -> 10.0.0.1:80, payload [GET / ...]. *)
Definition http_get : Packet :=
  {| layers := [Ether; IP (py "10.0.0.5") (py "10.0.0.1"); TCP 51000 80;
                Raw (bytes_of "GET / HTTP/1.1")];
     wire_len := 68 |}.

(** A frame without an IP header whose other layers look like that
    request. *)
Definition no_ip : Packet :=
  {| layers := [Ether; TCP 51000 80; Raw (bytes_of "GET / HTTP/1.1")];
     wire_len := 48 |}.

(** An HTTP response on port 80 whose payload stops inside a UTF-8
    sequence. *)
Definition truncated : Packet :=
  {| layers := [Ether; IP (py "10.0.0.1") (py "10.0.0.5"); TCP 80 51000;
                Raw (bytes_of "HTTP/1.1 200 OK" ++ [Byte.xe2; Byte.x82])];
     wire_len := 71 |}.

(** An echo request: 10.0.0.2 -> 8.8.8.8, ICMP type 8. *)
Definition ping : Packet :=
  {| layers := [Ether; IP (py "10.0.0.2") (py "8.8.8.8"); ICMP 8];
     wire_len := 98 |}.

(** Two devices, the first at the [.1] address of their subnet. *)
Definition devices : list Device :=
  [ {| ip := py "192.168.1.1"; mac := py "11:22:33:44:55:66";
       vendor := None |};
    {| ip := py "192.168.1.50"; mac := py "00:11:22:33:44:55";
       vendor := None |} ].

(** Two hosts that both claim [192.168.1.7] reply to its probe, and the
    router replies to its own. *)
Definition contended_replies : list Scanner.ARP :=
  [ {| Scanner.psrc := py "192.168.1.7";
       Scanner.hwsrc := py "aa:aa:aa:aa:aa:aa" |};
    {| Scanner.psrc := py "192.168.1.7";
       Scanner.hwsrc := py "bb:bb:bb:bb:bb:bb" |};
    {| Scanner.psrc := py "192.168.1.1";
       Scanner.hwsrc := py "11:22:33:44:55:66" |} ].

(** Two answers of a scan that carry the same source address. *)
Definition repeated_answers : list (pystr * Scanner.ARP) :=
  [ (py "192.168.1.7",
     {| Scanner.psrc := py "192.168.1.7";
        Scanner.hwsrc := py "aa:aa:aa:aa:aa:aa" |});
    (py "192.168.1.7",
     {| Scanner.psrc := py "192.168.1.7";
        Scanner.hwsrc := py "bb:bb:bb:bb:bb:bb" |}) ].

End Scenario.

(* ===================================================================== *)
(** * The colours, the statistics and the report of the visualizer        *)
(* ===================================================================== *)

Module Report.
Import PyDict Networkx Topology.

(** [self.node_colors], as [__init__] fills it. *)
Definition node_colors : pydict pystr :=
  [(py "gateway", py "#D7263D"); (py "local", py "#1B9AAA");
   (py "device", py "#4472CA"); (py "vm", py "#F29E4C");
   (py "unknown", py "#7C7C7C")].

(** The colour [draw_network_topology] gives the node [n] of [G]:
    [self.node_colors.get(G.nodes[n].get('node_type', 'unknown'), '#888')]. *)
Definition node_color (G : Graph) (n : pystr) : pystr :=
  let node_type := default (py "unknown") (node_attr G n (py "node_type")) in
  default (py "#888") (find node_type node_colors).

(** The size it gives the node:
    [2600 if G.nodes[n].get('node_type') == 'gateway' else 1500]. *)
Definition node_size (G : Graph) (n : pystr) : Z :=
  if bool_decide (node_attr G n (py "node_type") = Some (py "gateway"))
  then 2600 else 1500.

(** [a < b] on [str]: by code points, a proper prefix first. *)
Fixpoint str_lt (a b : pystr) : bool :=
  match a, b with
  | _, [] => false
  | [], _ :: _ => true
  | x :: a', y :: b' => (x <? y)%N || (x =? y)%N && str_lt a' b'
  end.

(** [sorted(l)] for a list of [str]: ascending, and stable (an element
    goes behind the earlier ones it is not less than). *)
Fixpoint insort (x : pystr) (l : list pystr) : list pystr :=
  match l with
  | [] => [x]
  | y :: l' => if str_lt x y then x :: l else y :: insort x l'
  end.

Definition sorted (l : list pystr) : list pystr :=
  fold_left (fun done x => insort x done) l [].

(** The dictionary [generate_network_stats] returns when the scan is not
    empty, by its three keys. *)
Record NetworkStats : Type := {
  total_devices : Z;
  vendor_distribution : pydict Z;
  ip_range : pydict pystr
}.

(** The body of the loop over the devices. *)
Definition count_vendor (vendor_count : pydict Z) (device : Device)
  : pydict Z :=
  let vendor := default (py "Unknown") (vendor device) in
  setitem vendor (default 0 (find vendor vendor_count) + 1) vendor_count.

(** [None] stands for the empty dictionary [{}] the method returns for an
    empty scan. *)
Definition generate_network_stats (scan_data : list Device)
  : option NetworkStats :=
  if bool_decide (scan_data = []) then None
  else
    let vendor_count := fold_left count_vendor scan_data [] in
    let ips := sorted (List.map ip scan_data) in
    Some {| total_devices := Z.of_nat (length scan_data);
            vendor_distribution := vendor_count;
            ip_range :=
              match ips with
              | first :: _ =>
                  [(py "first", first); (py "last", List.last ips first)]
              | [] => []
              end |}.

(** [stats[key]] for one of the three keys: the empty dictionary has
    none of them. *)
Definition stats_item {A} (key : pystr) (field : NetworkStats -> A)
    (stats : option NetworkStats) : result A :=
  match stats with
  | Some s => Ok (field s)
  | None => Raise (KeyError key)
  end.

(** What a call of [create_detailed_report] leaves behind: the strings
    written to the report file, in order, and the lines printed. *)
Record Output : Type := { written : list pystr; stdout : list pystr }.

Definition write (text : pystr) : Method Output unit :=
  assign (fun out => {| written := written out ++ [text];
                        stdout := stdout out |}).

Definition say (line : pystr) : Method Output unit :=
  assign (fun out => {| written := written out;
                        stdout := stdout out ++ [line] |}).

Section Reporting.

(** [datetime.now().strftime("%Y%m%d_%H%M%S")], [str(datetime.now())],
    and [open(file, 'w')], which may fail. *)
Variable now : pystr.
Variable today : pystr.
Variable open : pystr -> result unit.

(** The values of [extra_stats] are taken as [f"{val}"] formats them. *)
Definition create_detailed_report (self : TopologyVisualizer)
    (scan_data : list Device) (extra_stats : option (pydict pystr))
  : Method Output pystr :=
  let stats := generate_network_stats scan_data in
  let timestamp := now in
  let report_file :=
    path_join (output_dir self)
      (py "network_report_" ++ timestamp ++ py ".txt") in
  _ ← lift (open report_file);
  _ ← write (py "NETWORK TOPOLOGY REPORT" ++ [10%N] ++ Sniffer.times (py "=") 27
             ++ [10%N]);
  _ ← write (py "Generated: " ++ today ++ [10%N]);
  total ← lift (stats_item (py "total_devices") total_devices stats);
  _ ← write (py "Total Devices: " ++ str_of_int total ++ [10%N]);
  _ ← match stats with
      | Some _ =>
          range ← lift (stats_item (py "ip_range") ip_range stats);
          write (py "IP Range: " ++ default [] (find (py "first") range)
                 ++ py " - " ++ default [] (find (py "last") range)
                 ++ [10%N])
      | None => mret tt
      end;
  _ ← write ([10%N] ++ py "DEVICE DETAILS:" ++ [10%N]
             ++ Sniffer.times (py "-") 17 ++ [10%N]);
  _ ← for_each scan_data (fun d =>
        write (py "IP: " ++ ip d ++ py " | MAC: " ++ mac d ++ py " | Vendor: "
               ++ default (py "Unknown") (vendor d) ++ [10%N]));
  distribution ← lift (stats_item (py "vendor_distribution")
                         vendor_distribution stats);
  _ ← write ([10%N] ++ py "VENDOR DISTRIBUTION:" ++ [10%N]
             ++ Sniffer.times (py "-") 22 ++ [10%N]);
  _ ← for_each (items distribution) (fun '(v, c) =>
        write (v ++ py ": " ++ str_of_int c ++ py " device(s)" ++ [10%N]));
  _ ← match extra_stats with
      | Some ((k, val) :: rest) =>
          _ ← write ([10%N] ++ py "EXTRA STATS:" ++ [10%N]
                     ++ Sniffer.times (py "-") 15 ++ [10%N]);
          for_each ((k, val) :: rest) (fun '(k, val) =>
            write (k ++ py ": " ++ val ++ [10%N]))
      | _ => mret tt
      end;
  _ ← say (py "Detailed report saved as: " ++ report_file);
  mret report_file.

End Reporting.

End Report.

(* ===================================================================== *)
(** * An interrupt inside the callback                                    *)
(* ===================================================================== *)

Module Interrupt.
Import PyDict Sniffer.

(** Ctrl-C raises [KeyboardInterrupt] between two instructions, wherever
    the program is.  Inside [packet_handler] some of the statements that
    change the object or write a line have then run and the others have
    not.  The places that differ in this, in the order of the source:
    before line 59; after [self.packet_count += 1]; after the counter of
    the protocol went up (lines 69 to 99); after the record of line 102;
    after line 106; and inside [print_stats], some of its lines
    printed. *)
Inductive point : Type :=
  | Entered
  | Counted
  | Classified
  | Logged
  | Stored
  | Printing (lines : nat).

(** [print_stats] does nothing but print: cut after [lines] lines, the
    object has the first [lines] of them. *)
Definition cut_print (lines : nat) : Method unit :=
  fun self =>
    match print_stats self with
    | (Ok _, self') =>
        (Ok tt,
         set_emitted (take (length (emitted self) + lines) (emitted self'))
           self')
    | raised => raised
    end.

(** [packet_handler] as far as the place where the interrupt arrives. *)
Definition cut_handler (place : point) (packet : Packet) : Method unit :=
  match place with
  | Entered => lift (Raise KeyboardInterrupt)
  | Counted =>
      _ ← assign (fun self => set_packet_count (packet_count self + 1) self);
      lift (Raise KeyboardInterrupt)
  | Classified =>
      _ ← assign (fun self => set_packet_count (packet_count self + 1) self);
      _ ← classify packet;
      lift (Raise KeyboardInterrupt)
  | Logged =>
      _ ← assign (fun self => set_packet_count (packet_count self + 1) self);
      '(proto, summary) ← classify packet;
      n ← attr packet_count;
      _ ← emit (LogInfo (py "Packet #" ++ str_of_int n ++ py ": "
                         ++ summary));
      lift (Raise KeyboardInterrupt)
  | Stored =>
      _ ← assign (fun self => set_packet_count (packet_count self + 1) self);
      '(proto, summary) ← classify packet;
      n ← attr packet_count;
      _ ← emit (LogInfo (py "Packet #" ++ str_of_int n ++ py ": "
                         ++ summary));
      _ ← assign (fun self =>
             set_captured_packets (captured_packets self ++ [packet]) self);
      lift (Raise KeyboardInterrupt)
  | Printing lines =>
      _ ← assign (fun self => set_packet_count (packet_count self + 1) self);
      '(proto, summary) ← classify packet;
      n ← attr packet_count;
      _ ← emit (LogInfo (py "Packet #" ++ str_of_int n ++ py ": "
                         ++ summary));
      _ ← assign (fun self =>
             set_captured_packets (captured_packets self ++ [packet]) self);
      _ ← (if n `mod` 10 =? 0 then cut_print lines else mret tt);
      lift (Raise KeyboardInterrupt)
  end.

(** A capture that Ctrl-C ends inside the callback: the frames handled
    before, the frame in hand, the place, and whether [scapy.sniff] lets
    the exception through to its caller or returns as it does when a
    capture is stopped. *)
Record Cut : Type := {
  handled : list Packet;
  in_hand : Packet;
  place : point;
  passed_on : bool
}.

Definition sniff_cut (cut : Cut) : Method unit :=
  _ ← deliver (handled cut);
  catch (cut_handler (place cut) (in_hand cut))
    (fun e =>
       match e with
       | KeyboardInterrupt =>
           if passed_on cut then lift (Raise e) else mret tt
       | _ => lift (Raise e)
       end).

Section Session.

Variable now : pystr.
Variable wrpcap : pystr -> list Packet -> result unit.

(** [start_sniffing] around a call of [scapy.sniff] that goes as
    [capture] says. *)
Definition start_sniffing_on (count : Z) (timeout : option Z)
    (filter_str : option pystr) (save_pcap : bool) (capture : Method unit)
  : Method unit :=
  _ ← begin_session count timeout filter_str;
  finally
    (catch capture
       (fun e =>
          match e with
          | KeyboardInterrupt =>
              emit (Stdout ([10%N] ++ py "Sniffing stopped by user"))
          | _ => emit (LogError (py "Error during packet sniffing: ") e)
          end))
    (stop_sniffing now wrpcap save_pcap).

End Session.

End Interrupt.

(* ===================================================================== *)
(** * The summary of a sniffing session                                   *)
(* ===================================================================== *)

Module Summary.
Import PyDict Sniffer.

(** The dictionary [save_session_summary] writes, by its keys. *)
Record SessionInfo : Type := {
  timestamp : pystr;
  interface : pystr;
  total_packets : Z;
  log_file : pystr
}.

Record SessionSummary : Type := {
  session_info : SessionInfo;
  protocol_statistics : pydict Z
}.

Section Saving.

(** [datetime.now().strftime("%Y%m%d_%H%M%S")],
    [datetime.now().isoformat()], and
    [json.dump(summary, open(file, 'w'), indent=2)]. *)
Variable now : pystr.
Variable isoformat : pystr.
Variable dump : pystr -> SessionSummary -> result unit.

(** The dictionary literal of the method. *)
Definition summary_of (self : PacketSniffer) : SessionSummary :=
  {| session_info :=
       {| timestamp := isoformat;
          interface := str_or (Sniffer.interface self) (py "default");
          total_packets := packet_count self;
          log_file := Sniffer.log_file self |};
     protocol_statistics := protocol_stats self |}.

Definition save_session_summary : Method (option pystr) :=
  let timestamp := now in
  let summary_file := py "output/sniff_summary_" ++ timestamp ++ py ".json" in
  summary ← attr summary_of;
  match dump summary_file summary with
  | Ok _ =>
      _ ← emit (Stdout (py "Session summary saved to: " ++ summary_file));
      mret (Some summary_file)
  | Raise e =>
      if is_Exception e then
        _ ← emit (LogError (py "Error saving session summary: ") e);
        mret None
      else lift (Raise e)
  end.

End Saving.

End Summary.

(* ===================================================================== *)
(** * The scan menu of the scanner and of the suite                       *)
(* ===================================================================== *)

Module ScanMenu.
Import Scanner.

(** [bin(n).count('1')]: the ones among the binary digits of [n], whose
    sign [bin] writes in front. *)
Fixpoint ones (p : positive) : Z :=
  match p with
  | xH => 1
  | xO p' => ones p'
  | xI p' => 1 + ones p'
  end.

Definition bit_count (n : Z) : Z :=
  match n with
  | Z0 => 0
  | Zpos p | Zneg p => ones p
  end.

(** [s.rsplit(sep, 1)] for a separator of one character: the text before
    the last separator and the text behind it, or [s] alone. *)
Fixpoint rsplit_at (sep : N) (s : pystr) : option (pystr * pystr) :=
  match s with
  | [] => None
  | c :: s' =>
      match rsplit_at sep s' with
      | Some (before, behind) => Some (c :: before, behind)
      | None => if (c =? sep)%N then Some ([], s') else None
      end
  end.

Definition rsplit_once (sep : N) (s : pystr) : list pystr :=
  match rsplit_at sep s with
  | Some (before, behind) => [before; behind]
  | None => [s]
  end.

(** One of the dictionaries [netifaces.ifaddresses] lists for an address
    family, by the two keys that are read. *)
Record Address : Type := { addr : option pystr; netmask : option pystr }.

(** Standard input and output, and the files written:
    what the menu reads and what it leaves behind. *)
Record Console : Type := {
  stdin : list pystr;
  stdout : list pystr;
  files : list (pystr * list Device)
}.

(** [print(line)]. *)
Definition print (line : pystr) : Method Console unit :=
  assign (fun console =>
            {| stdin := stdin console; stdout := stdout console ++ [line];
               files := files console |}).

(** [input(prompt)]: the prompt is written and a line is read;
    [EOFError] when there is none. *)
Definition input (prompt : pystr) : Method Console pystr :=
  fun console =>
    let shown := {| stdin := stdin console;
                    stdout := stdout console ++ [prompt];
                    files := files console |} in
    match stdin console with
    | line :: rest =>
        (Ok line, {| stdin := rest; stdout := stdout shown;
                     files := files shown |})
    | [] => (Raise (LibraryError (py "EOFError")), shown)
    end.

Section Host.

(** The host: [int] on a [str]; [netifaces.gateways()['default']] at
    [AF_INET], a pair of the gateway and the interface, when there is
    one; [netifaces.ifaddresses(iface).get(AF_INET)]; the list of
    addresses [socket.gethostbyname_ex] gives as the third component of
    its result; [srp]; the time stamp; and
    [json.dump(devices, open(file, 'w'))]. *)
Variable int : pystr -> result Z.
Variable gateways : option (pystr * pystr).
Variable ifaddresses : pystr -> result (option (list Address)).
Variable gethostbyname_ex : pystr -> result (list pystr).
Variable srp : pystr -> Z -> Z -> list (pystr * ARP).
Variable now : pystr.
Variable dump : pystr -> list Device -> result unit.

Definition get_default_gateway_subnet : result (option pystr) :=
  match gateways with
  | None => mret None
  | Some default_iface =>
      let iface_name := snd default_iface in
      families ← ifaddresses iface_name;
      ip_info ← index (default [{| addr := None; netmask := None |}]
                         families) 0;
      match addr ip_info, netmask ip_info with
      | Some (c :: ip'), Some (m :: netmask') =>
          let ip := c :: ip' in
          let netmask := m :: netmask' in
          counts ← mapM (fun x => n ← int x; mret (bit_count n))
                     (split 46 netmask);
          let mask := fold_right Z.add 0 counts in
          let subnet := ip ++ py "/" ++ str_of_int mask in
          piece ← index (rsplit_once 46 subnet) 0;
          mret (Some (piece ++ py ".0/" ++ str_of_int mask))
      | _, _ => mret None
      end
  end.

Definition resolve_domain_to_ips (domain : pystr) : result (list pystr) :=
  try_except (gethostbyname_ex domain) (fun _ => Ok []).

(** A call of [perform_arp_scan] from the menu, with the line it
    prints. *)
Definition scan (subnet : pystr) : Method Console (list Device) :=
  _ ← print (py "Scanning subnet: " ++ subnet);
  mret (perform_arp_scan srp subnet).

(** The loop over the targets. *)
Fixpoint scan_all (scan_targets : list pystr) (all_devices : list Device)
  : Method Console (list Device) :=
  match scan_targets with
  | [] => mret all_devices
  | target :: scan_targets' =>
      devices ← (if contains (py "/") target then scan target
                 else scan (target ++ py "/32"));
      scan_all scan_targets' (all_devices ++ devices)
  end.

(** [with open(file, 'w') as f: json.dump(devices, f, indent=2)]. *)
Definition save (file : pystr) (devices : list Device)
  : Method Console unit :=
  _ ← lift (dump file devices);
  assign (fun console =>
            {| stdin := stdin console; stdout := stdout console;
               files := files console ++ [(file, devices)] |}).

(** The first half of [scan_network_menu]: the targets chosen, or [None]
    where the function returns early. *)
Definition choose_targets : Method Console (option (list pystr)) :=
  _ ← print (py "Scan Mode:");
  _ ← print (py "1. Auto-detect local network");
  _ ← print (py "2. Enter IP range/subnet manually");
  _ ← print (py "3. Enter domain name to scan");
  answer ← input (py "Choice (1-3): ");
  let choice := strip answer in
  if bool_decide (choice = py "1") then
    subnet ← lift get_default_gateway_subnet;
    match subnet with
    | Some (c :: subnet') => mret (Some [c :: subnet'])
    | _ =>
        _ ← print (py "Could not detect local network. Try manual input.");
        mret None
    end
  else if bool_decide (choice = py "2") then
    answer ← input (py "Enter subnet/IP range (e.g. 192.168.1.0/24): ");
    let manual := strip answer in
    mret (Some [manual])
  else if bool_decide (choice = py "3") then
    answer ← input (py "Enter domain name (e.g. example.com): ");
    let domain := strip answer in
    ips ← lift (resolve_domain_to_ips domain);
    match ips with
    | [] => _ ← print (py "Domain not resolved or invalid."); mret None
    | _ =>
        _ ← print (py "Resolved IP(s): " ++ join (py ", ") ips);
        mret (Some ips)
    end
  else
    _ ← print (py "Invalid choice.");
    mret None.

(** The function has no [return] with a value: whatever it does, it
    returns [None]. *)
Definition scan_network_menu : Method Console (option (list Device)) :=
  chosen ← choose_targets;
  match chosen with
  | None => mret None
  | Some scan_targets =>
      all_devices ← scan_all scan_targets [];
      let ts := now in
      let result_file := py "output/scan_results_" ++ ts ++ py ".json" in
      _ ← save result_file all_devices;
      _ ← print (py "Scan completed. "
                 ++ str_of_int (Z.of_nat (length all_devices))
                 ++ py " device(s) found.");
      _ ← print (py "Results saved to " ++ result_file);
      mret None
  end.

(** ** [NetworkAnalyzerSuite.scan_network] of [main.py] *)

(** The colour codes of [colorama], and [str(e)] for an exception. *)
Variables CYAN RED LIGHTRED_EX LIGHTGREEN_EX LIGHTWHITE_EX BRIGHT : pystr.
Variable describe : exn -> pystr.

Definition scan_network : Method Console pystr :=
  _ ← print (CYAN ++ BRIGHT ++ [10%N]
             ++ py "[SCANNER] Network scanning started...");
  catch
    (results ← scan_network_menu;
     match results with
     | Some (device :: devices) =>
         let results := device :: devices in
         let timestamp := now in
         let filename := py "output/scan_results_" ++ timestamp
                         ++ py ".json" in
         _ ← save filename results;
         _ ← print (LIGHTGREEN_EX ++ BRIGHT ++ [9989%N]
                    ++ py " Scan completed! "
                    ++ str_of_int (Z.of_nat (length results))
                    ++ py " device(s) saved to " ++ filename);
         _ ← for_each results (fun device =>
               print (LIGHTWHITE_EX ++ py "  " ++ ip device ++ py " - "
                      ++ mac device));
         mret (py "Network scan ("
               ++ str_of_int (Z.of_nat (length results)) ++ py " found)")
     | _ =>
         _ ← print (LIGHTRED_EX ++ BRIGHT ++ [10060%N]
                    ++ py " No devices discovered or scan aborted."
                    ++ [10%N]);
         mret (py "Scan aborted")
     end)
    (fun e =>
       if is_Exception e then
         _ ← print (RED ++ BRIGHT ++ py "Error during scanning: "
                    ++ describe e ++ [10%N]);
         mret (py "Scan error")
       else lift (Raise e)).

End Host.

End ScanMenu.

(* ===================================================================== *)
(** * utils/helpers.py                                                    *)
(* ===================================================================== *)

Module Helpers.

(** [s * n] for an [int] [n]: nothing when [n] is not positive. *)
Definition repeated (s : pystr) (n : Z) : pystr :=
  Sniffer.times s (Z.to_nat n).

(** The line [print_separator] prints. *)
Definition print_separator (title char : pystr) (width : Z) : pystr :=
  match title with
  | _ :: _ =>
      let title_with_spaces := py " " ++ title ++ py " " in
      let padding :=
        (width - Z.of_nat (length title_with_spaces)) `div` 2 in
      let line := repeated char padding ++ title_with_spaces
                  ++ repeated char padding in
      if Z.of_nat (length line) <? width
      then line ++ repeated char (width - Z.of_nat (length line))
      else line
  | [] => repeated char width
  end.

(** [s.replace(c, '')] for a character [c]. *)
Definition without (c : N) (s : pystr) : pystr :=
  List.filter (fun x => negb (x =? c)%N) s.

(** [range(start, stop)]. *)
Definition range (start stop : Z) : list Z := seqZ start (stop - start).

Section Host.

(** [str.upper]; [socket.inet_aton], which returns or raises; the
    exceptions that are a [socket.error], that is, an [OSError]; [int]
    on a [str]; and the making of a socket and its [bind((host, port))],
    which return or raise. *)
Variable upper : pystr -> pystr.
Variable inet_aton : pystr -> result unit.
Variable is_socket_error : exn -> bool.
Variable int : pystr -> result Z.
Variable bind : pystr -> Z -> result unit.

Definition format_mac_address (mac : pystr) : pystr :=
  let mac_clean := upper (without 46 (without 45 (without 58 mac))) in
  if bool_decide (length mac_clean = 12%nat) then
    join (py ":")
      (List.map (fun i => take 2 (drop i mac_clean)) [0; 2; 4; 6; 8; 10]%nat)
  else mac.

Definition validate_ip_address (ip : pystr) : result bool :=
  match inet_aton ip with
  | Ok _ => Ok true
  | Raise e => if is_socket_error e then Ok false else Raise e
  end.

(** The body of the [try] of [validate_network_range]. *)
Definition network_range_checks (network : pystr) : result bool :=
  if negb (contains (py "/") network) then Ok false
  else
    match split 47 network with
    | [ip; prefix] =>
        valid ← validate_ip_address ip;
        if negb valid then Ok false
        else
          prefix ← int prefix;
          if negb ((0 <=? prefix) && (prefix <=? 32)) then Ok false
          else Ok true
    | _ => Raise (ValueError (py "wrong number of values to unpack"))
    end.

(** The bare [except:] turns every exception into [False]. *)
Definition validate_network_range (network : pystr) : result bool :=
  match network_range_checks network with
  | Ok valid => Ok valid
  | Raise _ => Ok false
  end.

(** The loop of [get_available_ports] from some port on: an [OSError]
    goes on to the next port, any other exception leaves the function. *)
Fixpoint probe (host : pystr) (ports : list Z) (available_ports : list Z)
  : result (list Z) :=
  match ports with
  | [] => Ok available_ports
  | port :: ports' =>
      match bind host port with
      | Ok _ =>
          let available_ports := available_ports ++ [port] in
          if 10 <=? Z.of_nat (length available_ports) then Ok available_ports
          else probe host ports' available_ports
      | Raise e =>
          if is_socket_error e then probe host ports' available_ports
          else Raise e
      end
  end.

Definition get_available_ports (start_port end_port : Z) (host : pystr)
  : result (list Z) :=
  probe host (range start_port (Z.min (start_port + 100) end_port)) [].

End Host.

End Helpers.

(* ===================================================================== *)
(** * More example inputs                                                 *)
(* ===================================================================== *)

Module Sample.

(** A TCP segment carried in a UDP tunnel: both transports are layers of
    the frame. *)
Definition tunnelled : Packet :=
  {| layers := [Ether; IP (py "10.0.0.5") (py "10.0.0.9"); UDP 4789 4789;
                Layer (py "VXLAN"); Ether;
                IP (py "172.16.0.1") (py "172.16.0.2"); TCP 51000 22];
     wire_len := 124 |}.

(** A TLS segment: 10.0.0.5:51000 -> 93.184.216.34:443. *)
Definition https : Packet :=
  {| layers := [Ether; IP (py "10.0.0.5") (py "93.184.216.34");
                TCP 51000 443; Raw (bytes_of "GET is not to be seen")];
     wire_len := 75 |}.

(** A DNS query: 10.0.0.5:53000 -> 8.8.8.8:53. *)
Definition dns_query : Packet :=
  {| layers := [Ether; IP (py "10.0.0.5") (py "8.8.8.8"); UDP 53000 53; DNS];
     wire_len := 70 |}.

(** An ICMP timestamp request (type 13), which the table does not name. *)
Definition timestamp_request : Packet :=
  {| layers := [Ether; IP (py "10.0.0.2") (py "10.0.0.1"); ICMP 13];
     wire_len := 54 |}.

(** A GRE packet: an IP layer and no transport the handler knows. *)
Definition gre : Packet :=
  {| layers := [Ether; IP (py "10.0.0.2") (py "10.0.0.1"); Layer (py "GRE")];
     wire_len := 60 |}.

(** Ctrl-C while the fourth echo request is in hand, its count taken and
    its protocol not yet counted. *)
Definition cut_after_count : Interrupt.Cut :=
  {| Interrupt.handled := List.repeat Scenario.ping 3;
     Interrupt.in_hand := Scenario.ping;
     Interrupt.place := Interrupt.Counted;
     Interrupt.passed_on := false |}.

(** A sniffer that has handled nine echo requests. *)
Definition after_nine : Sniffer.PacketSniffer :=
  snd (Sniffer.deliver (List.repeat Scenario.ping 9) Scenario.sniffer).

(** Two devices whose addresses end in 9 and in 10. *)
Definition numbered : list Device :=
  [ {| ip := py "192.168.1.9"; mac := py "00:11:22:33:44:55";
       vendor := Some (py "Apple") |};
    {| ip := py "192.168.1.10"; mac := py "00:aa:bb:cc:dd:ee";
       vendor := Some (py "Apple") |} ].

(** A host on which every port can be bound; [bind] refuses a port
    outside 0..65535 with an [OverflowError], which is no [OSError]. *)
Definition bind_any (host : pystr) (port : Z) : result unit :=
  if (0 <=? port) && (port <=? 65535) then Ok tt
  else Raise (LibraryError (py "OverflowError")).

Definition is_OSError (e : exn) : bool :=
  match e with
  | LibraryError what => bool_decide (what = py "OSError")
  | _ => false
  end.

(** The console of a user who asks for the scan of a domain. *)
Definition asks_for_domain : ScanMenu.Console :=
  {| ScanMenu.stdin := [py " 3"; py "example.com "];
     ScanMenu.stdout := []; ScanMenu.files := [] |}.

(** [int] on a string of the digits 0 to 9, as far as this model of it
    goes: other strings are refused. *)
Definition int_of_digits (s : pystr) : result Z :=
  match s with
  | [] => Raise (ValueError (py "invalid literal for int()"))
  | _ =>
      fold_left
        (fun r c =>
           n ← r;
           if ((48 <=? c) && (c <=? 57))%N
           then Ok (10 * n + (Z.of_N c - 48))
           else Raise (ValueError (py "invalid literal for int()")))
        s (Ok 0)
  end.

(** A scan in which the address [192.168.1.7] answers twice, with two
    hardware addresses. *)
Definition readdressed : list Device :=
  [ {| ip := py "192.168.1.1"; mac := py "11:22:33:44:55:66";
       vendor := Some (py "Cisco") |};
    {| ip := py "192.168.1.7"; mac := py "aa:aa:aa:aa:aa:aa";
       vendor := Some (py "Dell") |};
    {| ip := py "192.168.1.7"; mac := py "bb:bb:bb:bb:bb:bb";
       vendor := None |} ].

End Sample.

(* ===================================================================== *)
(** * Facts about strings                                                 *)
(* ===================================================================== *)

Section StringFacts.

Lemma startswith_app (pre rest : pystr) : startswith pre (pre ++ rest) = true.
Proof.
  induction pre as [|c pre IH]; simpl; [done|].
  by rewrite N.eqb_refl.
Qed.

Lemma contains_startswith (sub s : pystr) :
  startswith sub s = true -> contains sub s = true.
Proof. destruct s; simpl; intros ->; done. Qed.

(** [sub in (before + sub + after)]. *)
Lemma contains_app (sub before after : pystr) :
  contains sub (before ++ sub ++ after) = true.
Proof.
  induction before as [|c before IH]; simpl.
  - apply contains_startswith, startswith_app.
  - rewrite IH. apply orb_true_r.
Qed.

(** Conversely, an occurrence splits the string around it. *)
Lemma startswith_inv (pre s : pystr) :
  startswith pre s = true -> exists rest, s = pre ++ rest.
Proof.
  revert s; induction pre as [|p pre IH]; intros s; simpl.
  - by exists s.
  - destruct s as [|c s]; [done|].
    intros [Hc Hs]%andb_true_iff. apply N.eqb_eq in Hc as ->.
    destruct (IH _ Hs) as [rest ->]. by exists rest.
Qed.

Lemma contains_inv (sub s : pystr) :
  contains sub s = true -> exists before after, s = before ++ sub ++ after.
Proof.
  induction s as [|c s IH]; simpl.
  - rewrite orb_false_r. intros [rest ->]%startswith_inv. by exists [], rest.
  - intros [H|H]%orb_true_iff.
    + destruct (startswith_inv _ _ H) as [rest ->]. by exists [], rest.
    + destruct (IH H) as (before & after & ->). by exists (c :: before), after.
Qed.

(** A string in which a non-empty token occurs has a first line. *)
Lemma splitlines_nonempty (s : pystr) : s <> [] -> splitlines s <> [].
Proof.
  destruct s as [|c s]; [done|]. intros _. simpl.
  destruct (is_linebreak c); [done|]. by destruct (splitlines s).
Qed.

(** The first line of a string that begins with characters none of which
    ends a line begins with those characters. *)
Lemma splitlines_head_app (pre rest : pystr) :
  forallb (fun c => negb (is_linebreak c)) pre = true ->
  pre <> [] ->
  exists line lines tail,
    splitlines (pre ++ rest) = line :: lines /\ line = pre ++ tail.
Proof.
  induction pre as [|c pre IH]; [done|].
  intros [Hc Hpre]%andb_true_iff _. apply negb_true_iff in Hc.
  simpl. rewrite Hc.
  destruct pre as [|c' pre'].
  - simpl. destruct (splitlines rest) as [|line lines].
    + by exists [c], [], [].
    + by exists (c :: line), lines, line.
  - destruct (IH Hpre) as (line & lines & tail & -> & ->); [done|].
    by exists (c :: (c' :: pre') ++ tail), lines, tail.
Qed.

(** ASCII bytes decode to themselves. *)
Lemma utf8_ignore_ascii (pre rest : list N) :
  forallb (fun b => (b <? 128)%N) pre = true ->
  utf8_ignore (pre ++ rest) = pre ++ utf8_ignore rest.
Proof.
  induction pre as [|b pre IH]; [done|].
  intros [Hb Hpre]%andb_true_iff. simpl. rewrite Hb. by rewrite IH.
Qed.

End StringFacts.

(** ** The library functions on examples *)

Example str_of_int_ex : str_of_int 51000 = py "51000" /\ str_of_int 0 = py "0"
                        /\ str_of_int (-7) = py "-7".
Proof. repeat split; reflexivity. Qed.

Example splitlines_ex :
  splitlines (py "GET / HTTP/1.1" ++ [13; 10] ++ py "Host: a" ++ [10])%N
  = [py "GET / HTTP/1.1"; py "Host: a"]
  /\ splitlines [10%N] = [[]] /\ splitlines [] = [].
Proof. repeat split; reflexivity. Qed.

Example split_ex :
  split 46 (py "192.168.1.50") = [py "192"; py "168"; py "1"; py "50"]
  /\ split 46 (py "a..") = [py "a"; []; []].
Proof. repeat split; reflexivity. Qed.

Example decode_ex :
  decode_ignore (bytes_of "GET /") = py "GET /"
  /\ utf8_ignore [71; 255; 69; 194; 84; 226; 128; 168; 224; 128; 65; 240]%N
     = [71; 69; 84; 8232; 65]%N.
Proof. repeat split; reflexivity. Qed.

Example echo_request_summary :
  fst (Sniffer.packet_handler Scenario.ping Scenario.sniffer)
  = Ok (py "ICMP", py "ICMP 10.0.0.2 -> 8.8.8.8 Type: 8 (Echo Request)").
Proof. vm_compute. reflexivity. Qed.

(* ===================================================================== *)
(** * Facts about dictionaries                                            *)
(* ===================================================================== *)

Section DictFacts.
Import PyDict.
Context {V : Type}.
Implicit Types (d : pydict V) (key : pystr).

Lemma find_setitem_eq key (v : V) d : find key (setitem key v d) = Some v.
Proof.
  induction d as [|[k w] d IH]; simpl.
  - by rewrite decide_True.
  - destruct (decide (k = key)) as [->|Hne]; simpl.
    + by rewrite decide_True.
    + by rewrite decide_False.
Qed.

Lemma find_setitem_ne key key' (v : V) d :
  key <> key' -> find key' (setitem key v d) = find key' d.
Proof.
  intros Hne. induction d as [|[k w] d IH]; simpl.
  - by rewrite decide_False.
  - destruct (decide (k = key)) as [->|Hk]; simpl.
    + by rewrite !decide_False.
    + destruct (decide (k = key')); [done | apply IH].
Qed.

(** Assigning to a key that is there adds no key and moves none. *)
Lemma keys_setitem key (v : V) d :
  is_Some (find key d) -> keys (setitem key v d) = keys d.
Proof.
  induction d as [|[k w] d IH]; simpl.
  - by intros [? ?].
  - destruct (decide (k = key)) as [->|Hk]; simpl; [done|].
    intros H. unfold keys in *. simpl. f_equal. by apply IH.
Qed.

Lemma find_is_Some key d : key ∈ keys d -> is_Some (find key d).
Proof.
  induction d as [|[k w] d IH]; simpl.
  - by intros ?%elem_of_nil.
  - destruct (decide (k = key)) as [->|Hk]; [by eexists|].
    intros [?|?]%elem_of_cons; [congruence | by apply IH].
Qed.

End DictFacts.

Section SumFacts.
Import PyDict.

(** Assigning to a key changes the sum of the values by the difference. *)
Lemma sum_values_setitem key (v w : Z) (d : pydict Z) :
  find key d = Some w ->
  sum_values (setitem key v d) = sum_values d - w + v.
Proof.
  unfold sum_values, values.
  induction d as [|[k u] d IH]; simpl; [done|].
  destruct (decide (k = key)) as [->|Hk]; simpl.
  - intros [= ->]. lia.
  - intros H. rewrite (IH H). lia.
Qed.

End SumFacts.

(* ===================================================================== *)
(** * Facts about the sniffer                                             *)
(* ===================================================================== *)

Section SnifferFacts.
Import Sniffer PyDict.
Implicit Types (self : PacketSniffer) (packet : Packet) (key : pystr).

Lemma bind_run {S A B} (m : PyMethod.Method S A) (k : A -> PyMethod.Method S B)
    (self : S) :
  (m ≫= k) self = match m self with
                  | (Ok a, self') => k a self'
                  | (Raise e, self') => (Raise e, self')
                  end.
Proof. reflexivity. Qed.

Lemma emits_nil self : emits [] self = self.
Proof. destruct self. unfold emits, set_emitted. simpl. by rewrite app_nil_r. Qed.

Lemma emits_emits (a b : list event) self :
  emits b (emits a self) = emits (a ++ b) self.
Proof. unfold emits, set_emitted. simpl. by rewrite app_assoc. Qed.

Lemma set_running_emits (b : bool) (out : list event) self :
  set_running b (emits out self) = emits out (set_running b self).
Proof. reflexivity. Qed.

Lemma emit_run (e : event) self : emit e self = (Ok tt, emits [e] self).
Proof. reflexivity. Qed.

Lemma tags_elem key :
  key ∈ tags <->
  key = py "TCP" \/ key = py "UDP" \/ key = py "ICMP" \/ key = py "Other".
Proof. unfold tags. rewrite !elem_of_cons, elem_of_nil. tauto. Qed.

(** ** Counting a protocol *)

Lemma count_protocol_run key self :
  well_formed self -> key ∈ tags ->
  count_protocol key self = (Ok tt, counted key self).
Proof.
  intros Hwf Hkey.
  destruct (find_is_Some key (protocol_stats self)) as [c Hc].
  { by rewrite Hwf. }
  unfold count_protocol, counted. rewrite !bind_run. simpl.
  unfold getitem. by rewrite Hc.
Qed.

Lemma counted_well_formed key self :
  well_formed self -> key ∈ tags -> well_formed (counted key self).
Proof.
  unfold well_formed, counted. intros Hwf Hkey. simpl.
  rewrite keys_setitem; [done|]. apply find_is_Some. by rewrite Hwf.
Qed.

Lemma counted_find key key' self :
  well_formed self -> key ∈ tags ->
  find key' (protocol_stats (counted key self))
  = (fun c => if decide (key' = key) then c + 1 else c)
      <$> find key' (protocol_stats self).
Proof.
  intros Hwf Hkey. unfold counted. simpl.
  destruct (find_is_Some key (protocol_stats self)) as [c Hc].
  { by rewrite Hwf. }
  destruct (decide (key' = key)) as [->|Hne].
  - by rewrite find_setitem_eq, Hc.
  - rewrite find_setitem_ne by done.
    by destruct (find key' _).
Qed.

Lemma counted_sum key self :
  well_formed self -> key ∈ tags ->
  sum_values (protocol_stats (counted key self))
  = sum_values (protocol_stats self) + 1.
Proof.
  intros Hwf Hkey. unfold counted. simpl.
  destruct (find_is_Some key (protocol_stats self)) as [c Hc].
  { by rewrite Hwf. }
  rewrite (sum_values_setitem _ _ c) by done. rewrite Hc. simpl. lia.
Qed.

(** ** Layers *)

Lemma haslayer_getlayer {A} (cls : layer -> option A) packet :
  haslayer cls packet = true ->
  exists a, first_layer cls (layers packet) = Some a
            /\ getlayer cls packet = Ok a.
Proof.
  unfold haslayer, getlayer.
  destruct (first_layer cls (layers packet)) as [a|]; [|done].
  intros _. by exists a.
Qed.

Lemma haslayer_first {A} (cls : layer -> option A) packet (a : A) :
  first_layer cls (layers packet) = Some a ->
  haslayer cls packet = true /\ getlayer cls packet = Ok a.
Proof. unfold haslayer, getlayer. by intros ->. Qed.

(** ** The guarded HTTP sub-parse *)

(** Whatever the body of the [try] does, the guarded statement leaves a
    summary: the one it had, or that one with the tag and a line. *)
Lemma http_guard packet (summary : pystr) :
  exists summary',
    try_except (http_request_line packet summary) (fun _ => Ok summary)
    = Ok summary'
    /\ (summary' = summary
        \/ exists line, summary' = summary ++ py " [HTTP] " ++ line).
Proof.
  unfold http_request_line.
  destruct (getlayer as_Raw packet) as [load|e] eqn:Hload; simpl.
  - match goal with |- context [try_except (if ?b then _ else _)] =>
      destruct b end; simpl.
    + unfold index. destruct (nth_error _ 0) as [line|]; simpl.
      * eexists; split; [done|]. right. by exists line.
      * eexists; split; [done|]. by left.
    + eexists; split; [done|]. by left.
  - unfold getlayer in Hload.
    destruct (first_layer _ _); [done|]. injection Hload as <-. simpl.
    eexists; split; [done|]. by left.
Qed.

(** ** The classifier *)

Ltac run_method :=
  repeat first
    [ rewrite bind_run
    | rewrite count_protocol_run by (done || (apply tags_elem; tauto))
    | progress unfold lift, attr, assign, mret, method_ret
    | progress cbn beta iota ].

Lemma classify_run packet :
  exists proto summary,
    proto ∈ tags /\
    forall self, well_formed self ->
      classify packet self = (Ok (proto, summary), counted proto self).
Proof.
  unfold classify.
  destruct (haslayer as_IP packet) eqn:Hip.
  - destruct (haslayer_getlayer _ _ Hip) as ([src dst] & _ & ->).
    destruct (haslayer as_TCP packet) eqn:Htcp;
      [|destruct (haslayer as_UDP packet) eqn:Hudp;
        [|destruct (haslayer as_ICMP packet) eqn:Hicmp]].
    + destruct (haslayer_getlayer _ _ Htcp) as ([sport dport] & _ & ->).
      destruct (http_guard packet
                  (py "TCP " ++ src ++ py ":" ++ str_of_int sport
                   ++ py " -> " ++ dst ++ py ":" ++ str_of_int dport))
        as (summary' & Hguard & _).
      destruct ((dport =? 80) || (sport =? 80)) eqn:H80,
               (haslayer as_Raw packet) eqn:Hraw;
        (exists (py "TCP"); eexists; split; [apply tags_elem; tauto|];
         intros self Hwf; run_method; rewrite H80; run_method;
         rewrite ?Hguard; run_method; reflexivity).
    + destruct (haslayer_getlayer _ _ Hudp) as ([sport dport] & _ & ->).
      exists (py "UDP"). eexists. split; [apply tags_elem; tauto|].
      intros self Hwf. run_method. reflexivity.
    + destruct (haslayer_getlayer _ _ Hicmp) as (type & _ & ->).
      exists (py "ICMP"). eexists. split; [apply tags_elem; tauto|].
      intros self Hwf. run_method. reflexivity.
    + exists (py "Other"). eexists. split; [apply tags_elem; tauto|].
      intros self Hwf. run_method. reflexivity.
  - exists (py "Other"). eexists. split; [apply tags_elem; tauto|].
    intros self Hwf. run_method. reflexivity.
Qed.

(** ** Statistics *)

Lemma for_each_emit {A} (xs : list A) (row : A -> event)
    (body : A -> Method unit) self :
  (forall x self', body x self' = (Ok tt, emits [row x] self')) ->
  for_each xs body self = (Ok tt, emits (List.map row xs) self).
Proof.
  intros Hbody. revert self.
  induction xs as [|x xs IH]; intros self; simpl.
  - by rewrite emits_nil.
  - rewrite bind_run, Hbody, IH. by rewrite emits_emits.
Qed.

(** The denominator [print_stats] divides by. *)
Lemma snapshot_total_nonzero (n : Z) : (if n >? 0 then n else 1) <> 0.
Proof. destruct (Z.gtb_spec n 0); lia. Qed.

Lemma truediv_nonzero (a b : Z) :
  b <> 0 -> truediv a b = Ok (inject_Z a / inject_Z b)%Q.
Proof. unfold truediv. intros Hb. by apply Z.eqb_neq in Hb as ->. Qed.

Lemma print_stats_run self :
  let n := packet_count self in
  let total := if n >? 0 then n else 1 in
  print_stats self
  = (Ok tt,
     emits ([Stdout ([10%N] ++ py "Packet Statistics (Total: "
                     ++ str_of_int n ++ py ")");
             Stdout (times (py "-") 40)]
            ++ List.map (fun '(proto, count) =>
                           StdoutStat proto count
                             (inject_Z count / inject_Z total * 100)%Q)
                        (protocol_stats self)
            ++ [Stdout (times (py "-") 40)]) self).
Proof.
  intros n total. unfold print_stats. run_method.
  rewrite !emit_run. run_method. rewrite emit_run. run_method.
  rewrite (for_each_emit _
             (fun '(proto, count) =>
                StdoutStat proto count
                  (inject_Z count / inject_Z total * 100)%Q)).
  - rewrite emit_run, !emits_emits. reflexivity.
  - intros [proto count] self'. run_method.
    rewrite truediv_nonzero by apply snapshot_total_nonzero.
    by rewrite emit_run.
Qed.

(** ** The handler around the classifier *)

(** What the handler logs, and prints on every tenth packet. *)
Lemma packet_handler_run packet self proto summary self1 :
  classify packet (set_packet_count (packet_count self + 1) self)
  = (Ok (proto, summary), self1) ->
  exists out,
    packet_handler packet self
    = (Ok (proto, summary),
       emits out
         (set_captured_packets (captured_packets self1 ++ [packet])
            (emits [LogInfo (py "Packet #" ++ str_of_int (packet_count self1)
                             ++ py ": " ++ summary)] self1))).
Proof.
  intros Hclassify. unfold packet_handler. run_method.
  rewrite Hclassify. run_method. rewrite emit_run. run_method.
  destruct (packet_count self1 `mod` 10 =? 0).
  - rewrite print_stats_run. eexists. reflexivity.
  - exists []. by rewrite emits_nil.
Qed.

(** The handler on a well-formed object: it returns, one counter and the
    total are one higher, and nothing else of the statistics changes.  The
    tag and the summary depend on the packet alone. *)
Lemma packet_handler_total packet :
  exists proto summary,
    proto ∈ tags /\
    forall self, well_formed self ->
      exists self',
        packet_handler packet self = (Ok (proto, summary), self')
        /\ well_formed self'
        /\ packet_count self' = packet_count self + 1
        /\ protocol_stats self' = protocol_stats (counted proto self).
Proof.
  destruct (classify_run packet) as (proto & summary & Htag & Hrun).
  exists proto, summary. split; [done|]. intros self Hwf.
  assert (well_formed (set_packet_count (packet_count self + 1) self))
    as Hwf' by done.
  destruct (packet_handler_run packet self proto summary _
              (Hrun _ Hwf')) as [out ->].
  eexists. split; [reflexivity|]. split; [|done].
  by apply (counted_well_formed proto
              (set_packet_count (packet_count self + 1) self)).
Qed.

(** ** The session *)

Lemma begin_session_run (count : Z) (timeout : option Z)
    (filter_str : option pystr) self :
  exists out,
    begin_session count timeout filter_str self
    = (Ok tt,
       emits out
         (set_captured_packets []
            (set_protocol_stats fresh_stats
               (set_packet_count 0 (set_running true self))))).
Proof.
  unfold begin_session. run_method.
  repeat (rewrite emit_run; run_method).
  destruct filter_str as [[|c f]|]; run_method;
    repeat (rewrite emit_run; run_method);
    rewrite !emits_emits; eexists; reflexivity.
Qed.


(** ** The counters and the total *)


(** ** Frames without an IP header *)

(** Claim C5.  A frame without an IP layer is tagged [Other], whatever
    else it contains: the handler returns with [proto = "Other"], the
    summary is ["Unknown Packet (<n> bytes)"] for the length [n] of the
    frame, and the counter of [Other] is the one that goes up. *)
Theorem frame_without_ip_is_other packet self :
  well_formed self ->
  haslayer as_IP packet = false ->
  exists self',
    packet_handler packet self
    = (Ok (py "Other",
           py "Unknown Packet (" ++ str_of_int (wire_len packet)
           ++ py " bytes)"), self')
    /\ forall key,
         find key (protocol_stats self')
         = (fun c => if decide (key = py "Other") then c + 1 else c)
             <$> find key (protocol_stats self).
Proof.
  intros Hwf Hip.
  assert (Hother : py "Other" ∈ tags) by (apply tags_elem; tauto).
  destruct (packet_handler_run packet self (py "Other")
              (py "Unknown Packet (" ++ str_of_int (wire_len packet)
               ++ py " bytes)")
              (counted (py "Other")
                 (set_packet_count (packet_count self + 1) self)))
    as [out ->].
  { unfold classify. rewrite Hip. by run_method. }
  eexists. split; [reflexivity|].
  intros key.
  exact (counted_find (py "Other") key
           (set_packet_count (packet_count self + 1) self) Hwf Hother).
Qed.

Lemma frame_without_ip_is_other_witness :
  well_formed Scenario.sniffer
  /\ haslayer as_IP Scenario.no_ip = false
  /\ exists self',
       packet_handler Scenario.no_ip Scenario.sniffer
       = (Ok (py "Other", py "Unknown Packet (48 bytes)"), self')
       /\ forall key,
            find key (protocol_stats self')
            = (fun c => if decide (key = py "Other") then c + 1 else c)
                <$> find key (protocol_stats Scenario.sniffer).
Proof.
  split; [reflexivity|]. split; [reflexivity|].
  apply (frame_without_ip_is_other Scenario.no_ip Scenario.sniffer);
    reflexivity.
Defined.

(** ** Nothing escapes the classifier *)

(** Claim C6.  On every frame, whatever its layers and whatever the bytes
    of its payload, the handler returns, with one of the four tags and a
    summary: no exception of the HTTP or DNS sub-parse leaves it.  The
    guarded HTTP sub-parse in particular always yields a summary, namely
    the summary it was given, with or without the [[HTTP]] tag and a
    line. *)
Theorem subparse_failures_are_swallowed packet self :
  well_formed self ->
  (exists proto summary self',
     packet_handler packet self = (Ok (proto, summary), self')
     /\ proto ∈ tags)
  /\ (forall summary : pystr,
        exists summary',
          try_except (http_request_line packet summary)
                     (fun _ => Ok summary) = Ok summary'
          /\ (summary' = summary
               \/ exists line, summary' = summary ++ py " [HTTP] " ++ line)).
Proof.
  intros Hwf. split.
  - destruct (packet_handler_total packet)
      as (proto & summary & Htag & Hrun).
    destruct (Hrun self Hwf) as (self' & Hhandler & _).
    by exists proto, summary, self'.
  - intros summary. apply http_guard.
Qed.

Lemma subparse_failures_are_swallowed_witness :
  well_formed Scenario.sniffer
  /\ (exists proto summary self',
        packet_handler Scenario.truncated Scenario.sniffer
        = (Ok (proto, summary), self')
        /\ proto ∈ tags)
  /\ (forall summary : pystr,
        exists summary',
          try_except (http_request_line Scenario.truncated summary)
                     (fun _ => Ok summary) = Ok summary'
          /\ (summary' = summary
               \/ exists line, summary' = summary ++ py " [HTTP] " ++ line)).
Proof.
  split; [reflexivity|].
  apply (subparse_failures_are_swallowed Scenario.truncated Scenario.sniffer).
  reflexivity.
Defined.

(** The truncated payload of the example is classified all the same, with
    the bytes that do not decode left out. *)
Example truncated_payload_classified :
  fst (packet_handler Scenario.truncated Scenario.sniffer)
  = Ok (py "TCP",
        py "TCP 10.0.0.1:80 -> 10.0.0.5:51000 [HTTP] HTTP/1.1 200 OK").
Proof. vm_compute. reflexivity. Qed.

(** The body of the [try] on a frame without a payload raises
    [IndexError]; guarded, it leaves the summary as it was. *)
Example missing_payload_swallowed :
  http_request_line Scenario.ping (py "TCP") = Raise IndexError
  /\ try_except (http_request_line Scenario.ping (py "TCP"))
                (fun _ => Ok (py "TCP")) = Ok (py "TCP").
Proof. split; reflexivity. Qed.

(** ** Determinism *)

(** Claim C9.  The tag and the summary of a frame depend on the frame
    alone: handling it twice in a row gives the same tag and the same
    summary both times, and so does handling it from any other state of
    the counters, the log and the buffer. *)
Theorem classification_is_deterministic packet self other :
  well_formed self ->
  well_formed other ->
  exists proto summary self' self'' other',
    packet_handler packet self = (Ok (proto, summary), self')
    /\ packet_handler packet self' = (Ok (proto, summary), self'')
    /\ packet_handler packet other = (Ok (proto, summary), other').
Proof.
  intros Hwf Hother.
  destruct (packet_handler_total packet) as (proto & summary & _ & Hrun).
  destruct (Hrun self Hwf) as (self' & Hfirst & Hwf' & _).
  destruct (Hrun self' Hwf') as (self'' & Hsecond & _).
  destruct (Hrun other Hother) as (other' & Hthird & _).
  by exists proto, summary, self', self'', other'.
Qed.

Lemma classification_is_deterministic_witness :
  well_formed Scenario.sniffer
  /\ well_formed (snd (packet_handler Scenario.ping Scenario.sniffer))
  /\ exists proto summary self' self'' other',
       packet_handler Scenario.http_get Scenario.sniffer
       = (Ok (proto, summary), self')
       /\ packet_handler Scenario.http_get self'
          = (Ok (proto, summary), self'')
       /\ packet_handler Scenario.http_get
            (snd (packet_handler Scenario.ping Scenario.sniffer))
          = (Ok (proto, summary), other').
Proof.
  split; [reflexivity|]. split; [reflexivity|].
  apply (classification_is_deterministic Scenario.http_get Scenario.sniffer
           (snd (packet_handler Scenario.ping Scenario.sniffer)));
    reflexivity.
Defined.

(** ** HTTP requests on port 80 *)

(** A payload that names a method is not empty, so it has a first line. *)
Lemma token_first_line (data : pystr) :
  existsb (fun method => contains method data)
    [py "GET"; py "POST"; py "HTTP"] = true ->
  exists line lines, splitlines data = line :: lines.
Proof.
  intros Htoken.
  destruct (splitlines data) as [|line lines] eqn:Hlines; [|by eauto].
  exfalso. apply (splitlines_nonempty data); [|done].
  intros ->. by vm_compute in Htoken.
Qed.

Lemma http_request_line_run packet (summary : pystr) load line lines :
  first_layer as_Raw (layers packet) = Some load ->
  existsb (fun method => contains method (decode_ignore load))
    [py "GET"; py "POST"; py "HTTP"] = true ->
  splitlines (decode_ignore load) = line :: lines ->
  http_request_line packet summary = Ok (summary ++ py " [HTTP] " ++ line).
Proof.
  intros Hraw Htoken Hlines. unfold http_request_line.
  destruct (haslayer_first _ _ _ Hraw) as [_ ->].
  unfold mbind, result_bind, bind at 1. cbn beta iota.
  rewrite Htoken, Hlines. reflexivity.
Qed.

(** The classifier on a TCP segment to or from port 80 whose payload
    names a method. *)
Lemma classify_http packet self (src_ip dst_ip : pystr) (sport dport : Z)
    load line lines :
  well_formed self ->
  first_layer as_IP (layers packet) = Some (src_ip, dst_ip) ->
  first_layer as_TCP (layers packet) = Some (sport, dport) ->
  (dport =? 80) || (sport =? 80) = true ->
  first_layer as_Raw (layers packet) = Some load ->
  existsb (fun method => contains method (decode_ignore load))
    [py "GET"; py "POST"; py "HTTP"] = true ->
  splitlines (decode_ignore load) = line :: lines ->
  classify packet self
  = (Ok (py "TCP",
         let summary :=
           (py "TCP " ++ src_ip ++ py ":" ++ str_of_int sport ++ py " -> "
            ++ dst_ip ++ py ":" ++ str_of_int dport)
           ++ py " [HTTP] " ++ line in
         if (dport =? 443) || (sport =? 443)
         then summary ++ py " [HTTPS]" else summary),
     counted (py "TCP") self).
Proof.
  intros Hwf Hip Htcp H80 Hraw Htoken Hlines. unfold classify.
  destruct (haslayer_first _ _ _ Hip) as [-> ->].
  destruct (haslayer_first _ _ _ Htcp) as [-> ->].
  run_method. rewrite H80.
  destruct (haslayer_first _ _ _ Hraw) as [-> _].
  rewrite (http_request_line_run packet _ load line lines) by done.
  by run_method.
Qed.

(** A payload that begins with [GET /] decodes to a text that begins with
    it, names a method, and has a first line that begins with it. *)
Lemma get_payload (rest : list byte) :
  let data := decode_ignore (bytes_of "GET /" ++ rest) in
  existsb (fun method => contains method data)
    [py "GET"; py "POST"; py "HTTP"] = true
  /\ exists lines tail, splitlines data = (py "GET /" ++ tail) :: lines.
Proof.
  intros data.
  assert (data = py "GET /" ++ decode_ignore rest) as Hdata.
  { unfold data, decode_ignore. rewrite List.map_app.
    change (List.map Byte.to_N (bytes_of "GET /")) with (py "GET /").
    by apply utf8_ignore_ascii. }
  rewrite Hdata. split.
  - change (existsb _ _) with
      (contains (py "GET") ([] ++ py "GET" ++ py " /" ++ decode_ignore rest)
       || (contains (py "POST") (py "GET /" ++ decode_ignore rest)
           || (contains (py "HTTP") (py "GET /" ++ decode_ignore rest)
               || false))).
    by rewrite contains_app.
  - destruct (splitlines_head_app (py "GET /") (decode_ignore rest) eq_refl)
      as (line & lines & tail & Hlines & ->); [done|].
    rewrite Hlines. by exists lines, tail.
Qed.

(** Claim C4.  For a frame with an IP layer and a TCP layer one of whose
    ports is 80, and with a payload whose text, decoded with errors
    ignored, contains [GET], [POST] or [HTTP], the handler yields the tag
    [TCP] and the summary
    ["TCP <src>:<sport> -> <dst>:<dport> [HTTP] <first line of the text>"]
    (followed by [" [HTTPS]"] when the other port is 443).  In particular,
    when the destination port is 80 and the payload begins with [GET /],
    the tag is [TCP] and the summary contains ["[HTTP] GET /"]. *)
Theorem http_request_line_in_summary :
  (forall packet self (src_ip dst_ip : pystr) (sport dport : Z) load,
     well_formed self ->
     first_layer as_IP (layers packet) = Some (src_ip, dst_ip) ->
     first_layer as_TCP (layers packet) = Some (sport, dport) ->
     sport = 80 \/ dport = 80 ->
     first_layer as_Raw (layers packet) = Some load ->
     contains (py "GET") (decode_ignore load) = true
     \/ contains (py "POST") (decode_ignore load) = true
     \/ contains (py "HTTP") (decode_ignore load) = true ->
     exists line lines self',
       splitlines (decode_ignore load) = line :: lines
       /\ packet_handler packet self
          = (Ok (py "TCP",
                 py "TCP " ++ src_ip ++ py ":" ++ str_of_int sport
                 ++ py " -> " ++ dst_ip ++ py ":" ++ str_of_int dport
                 ++ py " [HTTP] " ++ line
                 ++ (if (dport =? 443) || (sport =? 443)
                     then py " [HTTPS]" else [])),
             self'))
  /\ (forall packet self (src_ip dst_ip : pystr) (sport : Z) rest,
        well_formed self ->
        first_layer as_IP (layers packet) = Some (src_ip, dst_ip) ->
        first_layer as_TCP (layers packet) = Some (sport, 80) ->
        first_layer as_Raw (layers packet)
        = Some (bytes_of "GET /" ++ rest) ->
        exists summary self',
          packet_handler packet self = (Ok (py "TCP", summary), self')
          /\ contains (py "[HTTP] GET /") summary = true).
Proof.
  split.
  - intros packet self src_ip dst_ip sport dport load
      Hwf Hip Htcp Hport Hraw Htoken.
    assert (existsb (fun method => contains method (decode_ignore load))
              [py "GET"; py "POST"; py "HTTP"] = true) as Hany.
    { cbn [existsb]. destruct Htoken as [-> | [-> | ->]];
        rewrite ?orb_true_r; done. }
    assert ((dport =? 80) || (sport =? 80) = true) as H80.
    { destruct Hport as [-> | ->]; rewrite ?orb_true_r; done. }
    destruct (token_first_line _ Hany) as (line & lines & Hlines).
    destruct (packet_handler_run packet self _ _ _
                (classify_http packet
                   (set_packet_count (packet_count self + 1) self)
                   src_ip dst_ip sport dport load
                   line lines Hwf Hip Htcp H80 Hraw Hany Hlines))
      as [out ->].
    exists line, lines. eexists. split; [done|].
    f_equal. f_equal. f_equal. cbn zeta.
    destruct ((dport =? 443) || (sport =? 443));
      rewrite <- ?app_assoc, ?app_nil_r; reflexivity.
  - intros packet self src_ip dst_ip sport rest Hwf Hip Htcp Hraw.
    destruct (get_payload rest) as [Hany (lines & tail & Hlines)].
    destruct (packet_handler_run packet self _ _ _
                (classify_http packet
                   (set_packet_count (packet_count self + 1) self)
                   src_ip dst_ip sport 80 _
                   _ lines Hwf Hip Htcp eq_refl Hraw Hany Hlines))
      as [out ->].
    eexists _, _. split; [reflexivity|]. cbn zeta.
    set (base := py "TCP " ++ src_ip ++ py ":" ++ str_of_int sport
                 ++ py " -> " ++ dst_ip ++ py ":" ++ str_of_int 80).
    destruct ((80 =? 443) || (sport =? 443)).
    + replace ((base ++ py " [HTTP] " ++ py "GET /" ++ tail) ++ py " [HTTPS]")
        with ((base ++ py " ") ++ py "[HTTP] GET /"
              ++ (tail ++ py " [HTTPS]")).
      * apply contains_app.
      * rewrite <- !app_assoc. reflexivity.
    + replace (base ++ py " [HTTP] " ++ py "GET /" ++ tail)
        with ((base ++ py " ") ++ py "[HTTP] GET /" ++ tail).
      * apply contains_app.
      * rewrite <- !app_assoc. reflexivity.
Qed.

(** The request of the example: 10.0.0.5:51000 -> 10.0.0.1:80 with a
    payload that begins with [GET /]. *)
Lemma http_request_line_in_summary_witness :
  well_formed Scenario.sniffer
  /\ exists summary self',
       packet_handler Scenario.http_get Scenario.sniffer
       = (Ok (py "TCP", summary), self')
       /\ contains (py "[HTTP] GET /") summary = true.
Proof.
  split; [reflexivity|].
  apply (proj2 http_request_line_in_summary Scenario.http_get
           Scenario.sniffer (py "10.0.0.5") (py "10.0.0.1") 51000
           (bytes_of " HTTP/1.1")); reflexivity.
Defined.

Example http_get_summary :
  fst (packet_handler Scenario.http_get Scenario.sniffer)
  = Ok (py "TCP",
        py "TCP 10.0.0.5:51000 -> 10.0.0.1:80 [HTTP] GET / HTTP/1.1").
Proof. vm_compute. reflexivity. Qed.

(** ** The statistics reports *)

Lemma stop_sniffing_run (now : pystr)
    (wrpcap : pystr -> list Packet -> result unit) (save_pcap : bool) self :
  let n := packet_count self in
  exists r tail,
    stop_sniffing now wrpcap save_pcap self
    = (r,
       emits ([LogInfo (times (py "=") 50);
               LogInfo (py "PACKET SNIFFING STOPPED");
               LogInfo (py "Total packets captured: " ++ str_of_int n)]
              ++ List.map (fun '(protocol, count) =>
                             LogInfoStat protocol count
                               (if n =? 0 then inject_Z 0
                                else inject_Z count / inject_Z n * 100)%Q)
                          (protocol_stats self)
              ++ tail)
         (set_running false self))
    /\ r <> Raise ZeroDivisionError
    /\ (save_pcap = false \/ captured_packets self = [] -> r = Ok tt).
Proof.
  intros n. subst n. unfold stop_sniffing. run_method.
  repeat (rewrite emit_run; run_method).
  cbn [packet_count protocol_stats emits set_emitted set_running].
  rewrite (for_each_emit _
             (fun '(protocol, count) =>
                LogInfoStat protocol count
                  (if packet_count self =? 0 then inject_Z 0
                   else inject_Z count / inject_Z (packet_count self) * 100)%Q)).
  2:{ intros [protocol count] self'.
      destruct (Z.eqb_spec (packet_count self) 0) as [Hn|Hn];
        cbn [negb]; run_method.
      - by rewrite emit_run.
      - rewrite truediv_nonzero by done. run_method. by rewrite emit_run. }
  run_method. repeat (rewrite emit_run; run_method).
  rewrite print_stats_run. run_method. rewrite emit_run. run_method.
  rewrite !emits_emits.
  cbn [captured_packets emits set_emitted set_running].
  destruct (save_pcap && negb (bool_decide (_ = []))) eqn:Hsave.
  - assert (~ (save_pcap = false \/ captured_packets self = [])) as Hno.
    { apply andb_true_iff in Hsave as [-> Hpackets].
      apply negb_true_iff, bool_decide_eq_false in Hpackets.
      by intros [?|?]. }
    unfold save_to_pcap. run_method.
    destruct (wrpcap _ _) as [[]|e].
    + rewrite emit_run, emits_emits. eexists _, _.
      split; [rewrite <- !app_assoc; reflexivity|]. done.
    + destruct (is_Exception e) eqn:He.
      * rewrite emit_run, emits_emits. eexists _, _.
        split; [rewrite <- !app_assoc; reflexivity|]. done.
      * unfold lift. eexists _, _.
        split; [rewrite <- !app_assoc; reflexivity|].
        split; [by intros [= ->]|done].
  - run_method. eexists _, _.
    split; [rewrite <- !app_assoc; reflexivity|]. done.
Qed.

(** A capture that delivers no frame: the session starts, stops and
    reports, however the capture ended. *)
Lemma start_sniffing_idle (now : pystr)
    (wrpcap : pystr -> list Packet -> result unit)
    (count : Z) (timeout : option Z) (filter_str : option pystr)
    (save_pcap : bool) (how : ending) self :
  exists before after,
    start_sniffing now wrpcap count timeout filter_str save_pcap
      {| frames := []; ended := how |} self
    = (Ok tt,
       emits (before
              ++ List.map (fun '(protocol, count) =>
                             LogInfoStat protocol count (inject_Z 0))
                          fresh_stats
              ++ after)
         (set_running false
            (set_captured_packets []
               (set_protocol_stats fresh_stats
                  (set_packet_count 0 (set_running true self)))))).
Proof.
  unfold start_sniffing. rewrite bind_run.
  destruct (begin_session_run count timeout filter_str self) as [out ->].
  cbn beta iota. unfold finally, catch, sniff.
  replace ((0 <? (if 0 <? count then count else 0))
           && ((if 0 <? count then count else 0)
               <=? Z.of_nat (length (frames {| frames := []; ended := how |}))))
    with false.
  2:{ cbn [frames length Z.of_nat]. destruct (Z.ltb_spec 0 count); [|done].
      symmetry. apply andb_false_iff. right. by apply Z.leb_gt. }
  rewrite bind_run. cbn [frames ended deliver]. run_method.
  assert (forall caught,
            exists before after,
              (let '(r, self') :=
                 stop_sniffing now wrpcap save_pcap
                   (emits caught (emits out
                      (set_captured_packets []
                         (set_protocol_stats fresh_stats
                            (set_packet_count 0 (set_running true self)))))) in
               match r with
               | Ok _ => (Ok tt, self')
               | Raise e => (Raise e, self')
               end)
              = (Ok tt,
                 emits (before
                        ++ List.map (fun '(protocol, count) =>
                                       LogInfoStat protocol count (inject_Z 0))
                                    fresh_stats
                        ++ after)
                   (set_running false
                      (set_captured_packets []
                         (set_protocol_stats fresh_stats
                            (set_packet_count 0 (set_running true self)))))))
    as Hstop.
  { intros caught.
    match goal with |- context [stop_sniffing _ _ _ ?s] =>
      destruct (stop_sniffing_run now wrpcap save_pcap s)
        as (r & tail & -> & _ & Hok) end.
    rewrite Hok by (by right).
    exists (out ++ caught
            ++ [LogInfo (times (py "=") 50);
                LogInfo (py "PACKET SNIFFING STOPPED");
                LogInfo (py "Total packets captured: " ++ str_of_int 0)]),
           tail.
    f_equal. rewrite !set_running_emits, !emits_emits.
    cbn [packet_count protocol_stats emits set_emitted set_running
         set_captured_packets set_protocol_stats set_packet_count].
    change (0 =? 0) with true. cbn iota.
    rewrite <- !app_assoc. reflexivity. }
  destruct how as [| |e].
  - rewrite <- (emits_nil (emits out _)). exact (Hstop []).
  - rewrite emit_run. exact (Hstop _).
  - destruct e; rewrite emit_run; exact (Hstop _).
Qed.

(** Claim C10.  Neither statistics report divides by zero.  On every
    object [print_stats] returns, having printed for each protocol its
    count divided by the packet count, or by 1 when the packet count is
    not positive; and [stop_sniffing] logs for each protocol its count
    divided by the packet count, or 0 when the packet count is zero, and
    never raises [ZeroDivisionError].  At a packet count of zero the
    snapshot divides by 1 and the final report logs 0 for every protocol,
    and a session whose capture delivers no frame returns with that final
    report written. *)
Theorem stats_reports_never_divide_by_zero (now : pystr)
    (wrpcap : pystr -> list Packet -> result unit) (save_pcap : bool)
    (count : Z) (timeout : option Z) (filter_str : option pystr)
    (how : ending) self :
  let n := packet_count self in
  let idle := set_packet_count 0 self in
  print_stats self
  = (Ok tt,
     emits ([Stdout ([10%N] ++ py "Packet Statistics (Total: "
                     ++ str_of_int n ++ py ")");
             Stdout (times (py "-") 40)]
            ++ List.map (fun '(proto, count) =>
                           StdoutStat proto count
                             (inject_Z count
                              / inject_Z (if n >? 0 then n else 1) * 100)%Q)
                        (protocol_stats self)
            ++ [Stdout (times (py "-") 40)]) self)
  /\ print_stats idle
     = (Ok tt,
        emits ([Stdout ([10%N] ++ py "Packet Statistics (Total: 0)");
                Stdout (times (py "-") 40)]
               ++ List.map (fun '(proto, count) =>
                              StdoutStat proto count
                                (inject_Z count / inject_Z 1 * 100)%Q)
                           (protocol_stats self)
               ++ [Stdout (times (py "-") 40)]) idle)
  /\ (exists r tail,
        stop_sniffing now wrpcap save_pcap self
        = (r,
           emits ([LogInfo (times (py "=") 50);
                   LogInfo (py "PACKET SNIFFING STOPPED");
                   LogInfo (py "Total packets captured: " ++ str_of_int n)]
                  ++ List.map (fun '(protocol, count) =>
                                 LogInfoStat protocol count
                                   (if n =? 0 then inject_Z 0
                                    else inject_Z count / inject_Z n * 100)%Q)
                              (protocol_stats self)
                  ++ tail)
             (set_running false self))
        /\ r <> Raise ZeroDivisionError)
  /\ (exists r tail,
        stop_sniffing now wrpcap save_pcap idle
        = (r,
           emits ([LogInfo (times (py "=") 50);
                   LogInfo (py "PACKET SNIFFING STOPPED");
                   LogInfo (py "Total packets captured: 0")]
                  ++ List.map (fun '(protocol, count) =>
                                 LogInfoStat protocol count (inject_Z 0))
                              (protocol_stats self)
                  ++ tail)
             (set_running false idle))
        /\ r <> Raise ZeroDivisionError)
  /\ (exists before after,
        start_sniffing now wrpcap count timeout filter_str save_pcap
          {| frames := []; ended := how |} self
        = (Ok tt,
           emits (before
                  ++ [LogInfoStat (py "TCP") 0 (inject_Z 0);
                      LogInfoStat (py "UDP") 0 (inject_Z 0);
                      LogInfoStat (py "ICMP") 0 (inject_Z 0);
                      LogInfoStat (py "Other") 0 (inject_Z 0)]
                  ++ after)
             (set_running false
                (set_captured_packets []
                   (set_protocol_stats fresh_stats
                      (set_packet_count 0 (set_running true self))))))).
Proof.
  intros n idle. split; [apply print_stats_run|].
  split; [apply (print_stats_run idle)|].
  split.
  { destruct (stop_sniffing_run now wrpcap save_pcap self)
      as (r & tail & Hrun & Hr & _).
    by exists r, tail. }
  split.
  { destruct (stop_sniffing_run now wrpcap save_pcap idle)
      as (r & tail & Hrun & Hr & _).
    by exists r, tail. }
  apply start_sniffing_idle.
Qed.

End SnifferFacts.

(* ===================================================================== *)
(** * Facts about the scanner                                             *)
(* ===================================================================== *)

Lemma elem_of_map {A B} (f : A -> B) (x : A) (l : list A) :
  x ∈ l -> f x ∈ List.map f l.
Proof.
  induction l as [|y l IH]; [by intros ?%elem_of_nil|].
  cbn [List.map]. intros [->|Hx]%elem_of_cons; apply elem_of_cons;
    [by left|right; by apply IH].
Qed.

Section ScannerFacts.
Import Scanner.

(** The device made from one answered probe. *)
Lemma perform_arp_scan_map (srp : pystr -> Z -> Z -> list (pystr * ARP))
    (subnet : pystr) :
  perform_arp_scan srp subnet
  = List.map (fun answer =>
                {| ip := psrc (snd answer); mac := hwsrc (snd answer);
                   vendor := None |})
             (srp subnet 3 1).
Proof.
  unfold perform_arp_scan.
  generalize (srp subnet 3 1). intros answers.
  assert (forall devices : list Device,
            fold_left
              (fun devices '(sent, received) =>
                 devices ++ [{| ip := psrc received; mac := hwsrc received;
                                vendor := None |}])
              answers devices
            = devices
              ++ List.map (fun answer =>
                             {| ip := psrc (snd answer);
                                mac := hwsrc (snd answer); vendor := None |})
                          answers) as Hloop.
  { induction answers as [|[sent received] answers IH]; intros devices.
    - by rewrite app_nil_r.
    - cbn [fold_left List.map]. rewrite IH. by rewrite <- app_assoc. }
  by rewrite Hloop.
Qed.

(** The scan itself merges nothing: one device for every answer it is
    handed, in the order of the answers. *)
Lemma perform_arp_scan_one_device_per_answer
    (srp : pystr -> Z -> Z -> list (pystr * ARP)) (subnet : pystr) :
  let answers := srp subnet 3 1 in
  let devices := perform_arp_scan srp subnet in
  List.map ip devices = List.map (fun answer => psrc (snd answer)) answers
  /\ List.map mac devices = List.map (fun answer => hwsrc (snd answer)) answers
  /\ (NoDup (List.map ip devices)
      <-> NoDup (List.map (fun answer => psrc (snd answer)) answers)).
Proof.
  intros answers devices.
  assert (List.map ip devices
          = List.map (fun answer => psrc (snd answer)) answers) as Hips.
  { unfold devices. rewrite perform_arp_scan_map, List.map_map. reflexivity. }
  split; [done|]. split.
  - unfold devices. rewrite perform_arp_scan_map, List.map_map. reflexivity.
  - by rewrite Hips.
Qed.

(** ** The probes and their answers *)

Lemma take_out_elem (sent probe : pystr) (pending : list pystr) :
  probe ∈ pending -> probe <> sent -> probe ∈ Srp.take_out sent pending.
Proof.
  induction pending as [|first pending IH]; cbn [Srp.take_out]; [done|].
  intros [->|Hin]%elem_of_cons Hne.
  - rewrite decide_False by done. apply elem_of_cons. by left.
  - destruct (decide (first = sent)); [done|].
    apply elem_of_cons. right. by apply IH.
Qed.

Lemma take_out_sub (sent probe : pystr) (pending : list pystr) :
  probe ∈ Srp.take_out sent pending -> probe ∈ pending.
Proof.
  induction pending as [|first pending IH]; cbn [Srp.take_out]; [done|].
  destruct (decide (first = sent)).
  - intros Hin. apply elem_of_cons. by right.
  - intros [->|Hin]%elem_of_cons; apply elem_of_cons; [by left|].
    right. by apply IH.
Qed.

Lemma take_out_nodup (sent : pystr) (pending : list pystr) :
  NoDup pending ->
  NoDup (Srp.take_out sent pending) /\ sent ∉ Srp.take_out sent pending.
Proof.
  induction pending as [|first pending IH]; cbn [Srp.take_out].
  - intros _. split; [constructor|apply not_elem_of_nil].
  - intros [Hfirst Hpending]%NoDup_cons.
    destruct (decide (first = sent)) as [->|Hne]; [done|].
    destruct (IH Hpending) as [Hnodup Hsent]. split.
    + apply NoDup_cons. split; [|done].
      intros Hin. by apply Hfirst, (take_out_sub sent).
    + apply not_elem_of_cons. by split.
Qed.

(** An answer pairs a probe that was waiting with a reply from its
    address. *)
Lemma answered_sent (pending : list pystr) (arrivals : list ARP)
    (sent : pystr) (reply : ARP) :
  (sent, reply) ∈ Srp.answered pending arrivals ->
  sent = psrc reply /\ sent ∈ pending.
Proof.
  revert pending.
  induction arrivals as [|first arrivals IH]; intros pending;
    cbn [Srp.answered]; [by intros ?%elem_of_nil|].
  case_bool_decide as Hwaiting.
  - intros [[= -> ->]|Hin]%elem_of_cons; [done|].
    destruct (IH _ Hin) as [Hsent Hpending]. split; [done|].
    by apply (take_out_sub (psrc first)).
  - apply IH.
Qed.

(** No probe is answered twice. *)
Lemma answered_nodup (pending : list pystr) (arrivals : list ARP) :
  NoDup pending -> NoDup (List.map fst (Srp.answered pending arrivals)).
Proof.
  revert pending.
  induction arrivals as [|first arrivals IH]; intros pending Hpending;
    cbn [Srp.answered]; [constructor|].
  case_bool_decide as Hwaiting; [|by apply IH].
  destruct (take_out_nodup (psrc first) pending Hpending) as [Hnodup Hsent].
  cbn [List.map fst]. apply NoDup_cons. split; [|by apply IH].
  intros Hin. apply Hsent.
  assert (exists reply,
            (psrc first, reply)
            ∈ Srp.answered (Srp.take_out (psrc first) pending) arrivals)
    as [reply Hreply].
  { revert Hin. generalize (Srp.answered (Srp.take_out (psrc first) pending)
                              arrivals).
    intros answers. induction answers as [|[sent reply] answers IHa];
      cbn [List.map fst]; [by intros ?%elem_of_nil|].
    intros [->|Hin]%elem_of_cons.
    - exists reply. apply elem_of_cons. by left.
    - destruct (IHa Hin) as [reply' Hreply']. exists reply'.
      apply elem_of_cons. by right. }
  by destruct (answered_sent _ _ _ _ Hreply) as [_ ?].
Qed.

(** The answers are the first replies from the probed addresses. *)
Lemma answered_first (pending : list pystr) (arrivals : list ARP)
    (sent : pystr) (reply : ARP) :
  NoDup pending ->
  (sent, reply) ∈ Srp.answered pending arrivals
  <-> sent = psrc reply
      /\ exists before after,
           arrivals = before ++ reply :: after
           /\ psrc reply ∈ pending
           /\ psrc reply ∉ List.map psrc before.
Proof.
  revert pending.
  induction arrivals as [|first arrivals IH]; intros pending Hpending;
    cbn [Srp.answered].
  { split; [by intros ?%elem_of_nil|].
    intros (_ & before & after & Harrivals & _). by destruct before. }
  destruct (take_out_nodup (psrc first) pending Hpending) as [Hnodup Hsent].
  case_bool_decide as Hwaiting.
  - rewrite elem_of_cons, (IH _ Hnodup). split.
    + intros [[= -> ->]|(-> & before & after & -> & Hin & Hnew)].
      * split; [done|]. exists [], arrivals.
        split; [done|]. split; [done|]. apply not_elem_of_nil.
      * split; [done|]. exists (first :: before), after.
        split; [done|]. split; [by apply (take_out_sub (psrc first))|].
        cbn [List.map]. apply not_elem_of_cons. split; [|done].
        intros Heq. apply Hsent. by rewrite Heq in Hin.
    + intros (-> & [|other before] & after & Harrivals & Hin & Hnew).
      * left. by injection Harrivals as <- <-.
      * right. injection Harrivals as <- ->. split; [done|].
        cbn [List.map] in Hnew. apply not_elem_of_cons in Hnew as [Hne Hnew].
        exists before, after. split; [done|]. split; [|done].
        by apply take_out_elem.
  - rewrite (IH _ Hpending). split.
    + intros (-> & before & after & -> & Hin & Hnew).
      split; [done|]. exists (first :: before), after.
      split; [done|]. split; [done|].
      cbn [List.map]. apply not_elem_of_cons. split; [|done].
      intros Heq. apply Hwaiting. by rewrite <- Heq.
    + intros (-> & [|other before] & after & Harrivals & Hin & Hnew).
      * injection Harrivals as <- <-. done.
      * injection Harrivals as <- ->. split; [done|].
        cbn [List.map] in Hnew. apply not_elem_of_cons in Hnew as [Hne Hnew].
        by exists before, after.
Qed.

(** Claim C2, as the code has it.  The result of a scan has no two
    entries with the same IP, and nothing is overwritten to get there:
    [srp] answers each probed address at most once, with the first reply
    that arrives from that address, and the scan turns every answer into
    one entry.  So an entry of the result is a reply from a probed
    address before which no reply came from that address: when several
    replies arrive from one source the first is the one that is kept. *)
Theorem scan_keeps_first_reply_per_address
    (srp : pystr -> Z -> Z -> list (pystr * ARP)) (subnet : pystr)
    (probes : list pystr) (arrivals : list ARP) :
  NoDup probes ->
  srp subnet 3 1 = Srp.answered probes arrivals ->
  let devices := perform_arp_scan srp subnet in
  NoDup (List.map ip devices)
  /\ forall device,
       device ∈ devices
       <-> exists before reply after,
             arrivals = before ++ reply :: after
             /\ psrc reply ∈ probes
             /\ (psrc reply ∉ List.map psrc before)
             /\ device = {| ip := psrc reply; mac := hwsrc reply;
                            vendor := None |}.
Proof.
  intros Hprobes Hsrp devices. unfold devices.
  rewrite perform_arp_scan_map, Hsrp. split.
  - rewrite List.map_map. cbn [ip].
    assert (List.map (fun answer => psrc (snd answer))
              (Srp.answered probes arrivals)
            = List.map fst (Srp.answered probes arrivals)) as ->.
    { pose proof (answered_sent probes arrivals) as Hsent.
      revert Hsent. generalize (Srp.answered probes arrivals).
      intros answers Hsent.
      induction answers as [|[sent reply] answers IH]; [done|].
      cbn [List.map fst snd]. f_equal.
      - symmetry. apply (Hsent sent reply). apply elem_of_cons. by left.
      - apply IH. intros sent' reply' Hin. apply Hsent.
        apply elem_of_cons. by right. }
    by apply answered_nodup.
  - intros device. split.
    + intros Hdevice.
      assert (exists answer,
                answer ∈ Srp.answered probes arrivals
                /\ device = {| ip := psrc (snd answer);
                               mac := hwsrc (snd answer); vendor := None |})
        as ([sent reply] & Hanswer & ->).
      { revert Hdevice. generalize (Srp.answered probes arrivals).
        intros answers. induction answers as [|answer answers IH];
          cbn [List.map]; [by intros ?%elem_of_nil|].
        intros [->|Hin]%elem_of_cons.
        - exists answer. split; [apply elem_of_cons; by left|done].
        - destruct (IH Hin) as (answer' & Hin' & ->). exists answer'.
          split; [apply elem_of_cons; by right|done]. }
      apply (answered_first probes arrivals sent reply Hprobes) in Hanswer
        as (_ & before & after & Harrivals & Hin & Hnew).
      by exists before, reply, after.
    + intros (before & reply & after & Harrivals & Hin & Hnew & ->).
      assert ((psrc reply, reply) ∈ Srp.answered probes arrivals) as Hanswer.
      { apply (answered_first probes arrivals _ reply Hprobes).
        split; [done|]. by exists before, after. }
      by apply (elem_of_map
                  (fun answer => {| ip := psrc (snd answer);
                                    mac := hwsrc (snd answer);
                                    vendor := None |})) in Hanswer.
Qed.

(** The addresses [192.168.1.1] and [192.168.1.7] probed, three replies. *)
Lemma scan_keeps_first_reply_per_address_witness :
  NoDup [py "192.168.1.1"; py "192.168.1.7"]
  /\ NoDup (List.map ip
              (perform_arp_scan
                 (fun _ _ _ =>
                    Srp.answered [py "192.168.1.1"; py "192.168.1.7"]
                      Scenario.contended_replies)
                 (py "192.168.1.0/24"))).
Proof.
  assert (NoDup [py "192.168.1.1"; py "192.168.1.7"]) as Hprobes.
  { apply (bool_decide_unpack _). by vm_compute. }
  split; [exact Hprobes|].
  exact (proj1 (scan_keeps_first_reply_per_address
                  (fun _ _ _ =>
                     Srp.answered [py "192.168.1.1"; py "192.168.1.7"]
                       Scenario.contended_replies)
                  (py "192.168.1.0/24")
                  [py "192.168.1.1"; py "192.168.1.7"]
                  Scenario.contended_replies Hprobes eq_refl)).
Defined.

(** Two replies arrive from [192.168.1.7]: the entry of that address has
    the hardware address of the first of them, and the later reply
    replaces nothing. *)
Lemma scan_keeps_the_earlier_reply :
  let devices :=
    perform_arp_scan
      (fun _ _ _ =>
         Srp.answered [py "192.168.1.1"; py "192.168.1.7"]
           Scenario.contended_replies)
      (py "192.168.1.0/24") in
  devices
  = [ {| ip := py "192.168.1.7"; mac := py "aa:aa:aa:aa:aa:aa";
         vendor := None |};
      {| ip := py "192.168.1.1"; mac := py "11:22:33:44:55:66";
         vendor := None |} ]
  /\ py "bb:bb:bb:bb:bb:bb" ∉ List.map mac devices.
Proof.
  split; [by vm_compute|].
  apply (bool_decide_unpack _). by vm_compute.
Qed.

End ScannerFacts.

(* ===================================================================== *)
(** * Facts about the topology builder                                    *)
(* ===================================================================== *)

Section GatewayFacts.
Import Topology.

Lemma split_app_sep (sep : N) (piece rest : pystr) :
  sep ∉ piece ->
  split sep (piece ++ sep :: rest) = piece :: split sep rest.
Proof.
  induction piece as [|c piece IH]; intros Hsep; simpl.
  - by rewrite N.eqb_refl.
  - apply not_elem_of_cons in Hsep as [Hc Hpiece].
    destruct (N.eqb_spec c sep) as [->|_]; [done|].
    by rewrite IH.
Qed.

Lemma split_cons (sep : N) (s : pystr) :
  exists piece pieces, split sep s = piece :: pieces.
Proof.
  destruct s as [|c s]; simpl; [by eauto|].
  destruct (c =? sep)%N; [by eauto|].
  destruct (split sep s); by eauto.
Qed.

(** The gateway of a list that is not empty: no exception, and the
    candidate or the first address. *)
Lemma detect_gateway_run (first : Device) (others : list Device) :
  let candidate :=
    join (py ".") (take 3 (split 46 (ip first))) ++ py ".1" in
  detect_gateway (first :: others)
  = Ok (if bool_decide (candidate ∈ List.map ip (first :: others))
        then candidate else ip first).
Proof.
  intros candidate. unfold detect_gateway.
  rewrite bool_decide_eq_true_2 by done.
  unfold index. cbn [nth_error]. unfold mbind, result_bind, bind.
  fold candidate. by destruct (bool_decide _).
Qed.

(** The gateway is the address of one of the devices. *)
Lemma detect_gateway_elem (first : Device) (others : list Device) :
  exists gateway_ip,
    detect_gateway (first :: others) = Ok gateway_ip
    /\ gateway_ip ∈ List.map ip (first :: others).
Proof.
  rewrite detect_gateway_run. eexists. split; [reflexivity|].
  case_bool_decide as Hin; [done|]. by left.
Qed.

(** Claim C7.  For a list of devices that is not empty and whose first
    address is [a.b.c.d] (the three pieces [a], [b] and [c] without a
    dot), gateway detection returns [a.b.c.1] when that address is the
    address of one of the devices, and the address of the first device
    otherwise. *)
Theorem detect_gateway_candidate_or_first (first : Device)
    (others : list Device) (a b c d : pystr) :
  46%N ∉ a -> 46%N ∉ b -> 46%N ∉ c ->
  ip first = a ++ py "." ++ b ++ py "." ++ c ++ py "." ++ d ->
  detect_gateway (first :: others)
  = Ok (if bool_decide (a ++ py "." ++ b ++ py "." ++ c ++ py ".1"
                        ∈ List.map ip (first :: others))
        then a ++ py "." ++ b ++ py "." ++ c ++ py ".1"
        else ip first).
Proof.
  intros Ha Hb Hc Hfirst. rewrite detect_gateway_run.
  replace (join (py ".") (take 3 (split 46 (ip first))) ++ py ".1")
    with (a ++ py "." ++ b ++ py "." ++ c ++ py ".1"); [done|].
  rewrite Hfirst. change (py ".") with [46%N]. cbn [app].
  rewrite !split_app_sep by done.
  destruct (split_cons 46 d) as (piece & pieces & ->).
  cbn [take firstn join]. by rewrite <- !app_assoc.
Qed.

(** The two devices of the example, [192.168.1.1] and [192.168.1.50]:
    the gateway is [192.168.1.1]. *)
Lemma detect_gateway_candidate_or_first_witness :
  (46%N ∉ py "192") /\ (46%N ∉ py "168") /\ (46%N ∉ py "1")
  /\ py "192.168.1.1" = py "192" ++ py "." ++ py "168" ++ py "." ++ py "1"
                        ++ py "." ++ py "1"
  /\ detect_gateway Scenario.devices = Ok (py "192.168.1.1").
Proof.
  assert (forall s : pystr, bool_decide (46%N ∉ s) = true -> 46%N ∉ s)
    as Hdot by (intros s; apply bool_decide_eq_true_1).
  repeat (split; [by (apply Hdot || reflexivity)|]).
  apply (detect_gateway_candidate_or_first
           {| ip := py "192.168.1.1"; mac := py "11:22:33:44:55:66";
              vendor := None |}
           [ {| ip := py "192.168.1.50"; mac := py "00:11:22:33:44:55";
                vendor := None |} ]
           (py "192") (py "168") (py "1") (py "1"));
    by (apply Hdot || reflexivity).
Defined.

End GatewayFacts.

(** Equations between finite sets built with union, by cases. *)
Ltac set_cases :=
  set_unfold; intros;
  rewrite ?elem_of_union, ?elem_of_singleton, ?elem_of_empty;
  tauto.

Section GraphFacts.
Import Networkx.
Implicit Types (G : Graph) (n u v w : pystr).

Lemma consistent_empty : consistent Networkx.empty.
Proof. intros n _. apply lookup_empty. Qed.

Lemma add_node_consistent n (attrs : gmap pystr pystr) G :
  consistent G -> consistent (add_node n attrs G).
Proof.
  intros HG m. unfold add_node.
  destruct (_node G !! n) eqn:Hn; simpl.
  - destruct (decide (n = m)) as [->|Hne].
    + by rewrite lookup_insert_eq.
    + rewrite lookup_insert_ne by done. apply HG.
  - destruct (decide (n = m)) as [->|Hne].
    + by rewrite lookup_insert_eq.
    + rewrite !lookup_insert_ne by done. apply HG.
Qed.

Lemma add_node_neighbours n (attrs : gmap pystr pystr) G w :
  consistent G -> neighbours (add_node n attrs G) w = neighbours G w.
Proof.
  intros HG. unfold add_node, neighbours.
  destruct (_node G !! n) eqn:Hn; simpl; [done|].
  destruct (decide (n = w)) as [->|Hne].
  - by rewrite lookup_insert_eq, (HG w Hn).
  - by rewrite lookup_insert_ne.
Qed.

Lemma touch_consistent n G : consistent G -> consistent (touch n G).
Proof.
  intros HG m. unfold touch.
  destruct (_node G !! n) eqn:Hn; simpl; [apply HG|].
  destruct (decide (n = m)) as [->|Hne].
  - by rewrite lookup_insert_eq.
  - rewrite !lookup_insert_ne by done. apply HG.
Qed.

Lemma touch_neighbours n G w :
  consistent G -> neighbours (touch n G) w = neighbours G w.
Proof.
  intros HG. unfold touch, neighbours.
  destruct (_node G !! n) eqn:Hn; simpl; [done|].
  destruct (decide (n = w)) as [->|Hne].
  - by rewrite lookup_insert_eq, (HG w Hn).
  - by rewrite lookup_insert_ne.
Qed.

Lemma touch_node n G m :
  is_Some (_node G !! m) -> is_Some (_node (touch n G) !! m).
Proof.
  unfold touch. destruct (_node G !! n) eqn:Hn; simpl; [done|].
  intros Hm. destruct (decide (n = m)) as [->|Hne].
  - by rewrite lookup_insert_eq.
  - by rewrite lookup_insert_ne.
Qed.

Lemma touch_is_node n G : is_Some (_node (touch n G) !! n).
Proof.
  unfold touch. destruct (_node G !! n) eqn:Hn; simpl.
  - by rewrite Hn.
  - by rewrite lookup_insert_eq.
Qed.

Lemma add_edge_consistent u v G :
  consistent G -> consistent (add_edge u v G).
Proof.
  intros HG m. unfold add_edge. cbn [_node _adj]. intros Hm.
  pose proof (touch_consistent v _ (touch_consistent u G HG)) as HG'.
  destruct (decide (v = m)) as [->|Hv].
  { destruct (touch_is_node m (touch u G)) as [? Hsome]. congruence. }
  rewrite lookup_insert_ne by done.
  destruct (decide (u = m)) as [->|Hu].
  { destruct (touch_node v (touch m G) m (touch_is_node m G)) as [? Hsome].
    congruence. }
  rewrite lookup_insert_ne by done. by apply HG'.
Qed.

(** An edge adds each end point to the neighbours of the other, and
    changes nothing else. *)
Lemma add_edge_neighbours u v G w :
  consistent G ->
  neighbours (add_edge u v G) w
  = neighbours G w
    ∪ (if decide (w = u) then {[v]} else ∅)
    ∪ (if decide (w = v) then {[u]} else ∅).
Proof.
  intros HG.
  assert (forall m, neighbours (touch v (touch u G)) m = neighbours G m)
    as Htouch.
  { intros m. rewrite touch_neighbours by by apply touch_consistent.
    by apply touch_neighbours. }
  unfold add_edge. unfold neighbours at 1. cbn [_adj].
  rewrite Htouch.
  destruct (decide (w = v)) as [->|Hwv].
  - rewrite lookup_insert_eq. cbn [default].
    destruct (decide (v = u)) as [->|Hvu].
    + rewrite lookup_insert_eq. cbn [default]. clear; set_cases.
    + rewrite lookup_insert_ne by done.
      change (default ∅ (_adj (touch v (touch u G)) !! v))
        with (neighbours (touch v (touch u G)) v).
      rewrite Htouch. clear; set_cases.
  - rewrite lookup_insert_ne by done.
    destruct (decide (w = u)) as [->|Hwu].
    + rewrite lookup_insert_eq. cbn [default]. clear; set_cases.
    + rewrite lookup_insert_ne by done.
      change (default ∅ (_adj (touch v (touch u G)) !! w))
        with (neighbours (touch v (touch u G)) w).
      rewrite Htouch. clear; set_cases.
Qed.

(** ** The nodes and their attributes *)

Lemma add_node_lookup n (attrs : gmap pystr pystr) G w :
  _node (add_node n attrs G) !! w
  = if decide (w = n) then Some (attrs ∪ default ∅ (_node G !! n))
    else _node G !! w.
Proof.
  unfold add_node. destruct (_node G !! n) as [old|] eqn:Hn; cbn [_node].
  - destruct (decide (w = n)) as [->|Hne].
    + by rewrite lookup_insert_eq.
    + by rewrite lookup_insert_ne.
  - destruct (decide (w = n)) as [->|Hne].
    + rewrite lookup_insert_eq. cbn [default]. by rewrite (right_id_L ∅ (∪)).
    + by rewrite lookup_insert_ne.
Qed.

Lemma touch_known n G : is_Some (_node G !! n) -> touch n G = G.
Proof. unfold touch. by intros [attrs ->]. Qed.

(** An edge between two nodes leaves the nodes as they are. *)
Lemma add_edge_node u v G :
  is_Some (_node G !! u) -> is_Some (_node G !! v) ->
  _node (add_edge u v G) = _node G.
Proof.
  intros Hu Hv. unfold add_edge. cbn [_node].
  by rewrite (touch_known u G Hu), (touch_known v G Hv).
Qed.

End GraphFacts.

Section BuilderFacts.
Import Networkx Topology.
Variable lower : pystr -> pystr.
Variable local_ips : list pystr.
Implicit Types (G : Graph) (device : Device) (w : pystr).

Lemma add_device_consistent (gateway_ip : pystr) G device :
  consistent G -> consistent (add_device lower local_ips gateway_ip G device).
Proof.
  intros HG. unfold add_device.
  by apply add_edge_consistent, add_node_consistent.
Qed.

(** One turn of the loop: an edge between the gateway and the device. *)
Lemma add_device_neighbours (gateway_ip : pystr) G device w :
  consistent G ->
  neighbours (add_device lower local_ips gateway_ip G device) w
  = neighbours G w
    ∪ (if decide (w = gateway_ip) then {[ip device]} else ∅)
    ∪ (if decide (w = ip device) then {[gateway_ip]} else ∅).
Proof.
  intros HG. unfold add_device.
  rewrite add_edge_neighbours by by apply add_node_consistent.
  by rewrite add_node_neighbours.
Qed.

(** The whole loop: the gateway gets every device as a neighbour, and
    every device gets the gateway. *)
Lemma add_devices_neighbours (gateway_ip : pystr) (devices : list Device) G :
  consistent G ->
  consistent (fold_left (add_device lower local_ips gateway_ip) devices G)
  /\ forall w,
       neighbours
         (fold_left (add_device lower local_ips gateway_ip) devices G) w
       = neighbours G w
         ∪ (if decide (w = gateway_ip)
            then list_to_set (List.map ip devices) else ∅)
         ∪ (if decide (w ∈ List.map ip devices) then {[gateway_ip]} else ∅).
Proof.
  revert G. induction devices as [|device devices IH]; intros G HG.
  - split; [done|]. intros w. cbn [fold_left List.map list_to_set].
    destruct (decide (w = gateway_ip)),
             (decide (w ∈ [])) as [[]%elem_of_nil|]; clear; set_cases.
  - destruct (IH _ (add_device_consistent gateway_ip G device HG))
      as [Hconsistent Hneighbours].
    split; [done|]. intros w. cbn [fold_left List.map list_to_set].
    rewrite Hneighbours, add_device_neighbours by done.
    destruct (decide (w = gateway_ip)), (decide (w = ip device)),
             (decide (w ∈ List.map ip devices)),
             (decide (w ∈ ip device :: List.map ip devices)) as [Hc|Hc];
      try (exfalso; apply Hc, elem_of_cons; tauto);
      try (apply elem_of_cons in Hc; exfalso; tauto);
      clear; set_cases.
Qed.

(** ** The nodes of the graph *)

Lemma classify_device_gateway (ip mac vendor gateway_ip : pystr) :
  classify_device lower ip mac vendor gateway_ip local_ips = py "gateway"
  <-> ip = gateway_ip.
Proof.
  unfold classify_device. case_bool_decide as Hip; [done|].
  split; [|done]. intros Htype. exfalso.
  repeat (case_bool_decide || destruct (existsb _ _));
    by vm_compute in Htype.
Qed.

(** The type among the attributes a device's node is given. *)
Lemma device_attrs_type (ip mac vendor node_type label : pystr)
    (old : gmap pystr pystr) :
  ((list_to_map [(py "ip", ip); (py "mac", mac); (py "vendor", vendor);
                 (py "node_type", node_type); (py "label", label)]
    : gmap pystr pystr) ∪ old) !! py "node_type" = Some node_type.
Proof.
  apply lookup_union_Some_l. cbn [list_to_map foldr uncurry fst snd].
  rewrite !lookup_insert_ne by (intros Hkey; by vm_compute in Hkey).
  apply lookup_insert_eq.
Qed.

Lemma add_device_lookup (gateway_ip : pystr) G device w :
  is_Some (_node G !! gateway_ip) ->
  exists attrs,
    attrs !! py "node_type"
    = Some (classify_device lower (ip device) (mac device)
              (default (py "Unknown") (vendor device)) gateway_ip local_ips)
    /\ _node (add_device lower local_ips gateway_ip G device) !! w
       = if decide (w = ip device) then Some attrs else _node G !! w.
Proof.
  intros Hgw. unfold add_device. eexists. split; [apply device_attrs_type|].
  rewrite add_edge_node.
  - by rewrite add_node_lookup.
  - rewrite add_node_lookup. by destruct (decide _).
  - rewrite add_node_lookup. by rewrite decide_True.
Qed.

(** The loop adds the devices to the nodes, and types the gateway, and no
    other node, as the gateway. *)
Lemma add_devices_nodes (gateway_ip : pystr) (devices : list Device) G :
  is_Some (_node G !! gateway_ip) ->
  (forall w attrs, _node G !! w = Some attrs ->
     attrs !! py "node_type" = Some (py "gateway") <-> w = gateway_ip) ->
  let G' := fold_left (add_device lower local_ips gateway_ip) devices G in
  (forall w, is_Some (_node G' !! w)
             <-> is_Some (_node G !! w) \/ w ∈ List.map ip devices)
  /\ (forall w attrs, _node G' !! w = Some attrs ->
        attrs !! py "node_type" = Some (py "gateway") <-> w = gateway_ip).
Proof.
  revert G. induction devices as [|device devices IH]; intros G Hgw Htypes.
  - cbn [fold_left List.map]. split; [|done]. intros w.
    rewrite elem_of_nil. tauto.
  - cbn [fold_left List.map].
    set (G1 := add_device lower local_ips gateway_ip G device) in *.
    assert (forall w,
              exists attrs,
                attrs !! py "node_type"
                = Some (classify_device lower (ip device) (mac device)
                          (default (py "Unknown") (vendor device))
                          gateway_ip local_ips)
                /\ _node G1 !! w
                   = if decide (w = ip device) then Some attrs
                     else _node G !! w) as Hlookup.
    { intros w. by apply add_device_lookup. }
    destruct (IH G1) as [Hnodes Htypes'].
    + destruct (Hlookup gateway_ip) as (attrs & _ & ->).
      by destruct (decide _).
    + intros w attrs. destruct (Hlookup w) as (attrs' & Htype & ->).
      destruct (decide (w = ip device)) as [->|Hne]; [|apply Htypes].
      intros [= <-]. rewrite Htype.
      split.
      * intros [= Hgateway]. symmetry. by apply classify_device_gateway in Hgateway.
      * intros Heq. f_equal. by apply classify_device_gateway.
    + split; [|done]. intros w. rewrite Hnodes.
      destruct (Hlookup w) as (attrs' & _ & ->).
      rewrite elem_of_cons.
      destruct (decide (w = ip device)) as [->|Hne]; [|tauto].
      split; [tauto|]. intros _. left. by eexists.
Qed.

(** The graph of a list of devices that is not empty: the neighbours of
    every node, the nodes, and the node typed as the gateway. *)
Lemma create_graph_shape (first : Device) (others : list Device) :
  exists gateway_ip G,
    detect_gateway (first :: others) = Ok gateway_ip
    /\ gateway_ip ∈ List.map ip (first :: others)
    /\ create_graph_from_scan_data lower local_ips (first :: others) = Ok G
    /\ (forall w,
          neighbours G w
          = (if decide (w = gateway_ip)
             then list_to_set (List.map ip (first :: others)) else ∅)
            ∪ (if decide (w ∈ List.map ip (first :: others))
               then {[gateway_ip]} else ∅))
    /\ (forall w, has_node G w = true <-> w ∈ List.map ip (first :: others))
    /\ (forall w, node_attr G w (py "node_type") = Some (py "gateway")
                  <-> w = gateway_ip).
Proof.
  destruct (detect_gateway_elem first others) as (gateway_ip & Hgw & Hin).
  unfold create_graph_from_scan_data. rewrite Hgw.
  unfold mbind, result_bind, bind, mret, result_ret. cbv zeta.
  match goal with |- context [fold_left _ _ ?G0] => set (start := G0) end.
  exists gateway_ip. eexists. do 3 (split; [done|]).
  assert (forall w,
            _node start !! w
            = if decide (w = gateway_ip)
              then Some (list_to_map
                           [(py "node_type", py "gateway");
                            (py "ip", gateway_ip); (py "mac", py "Gateway");
                            (py "label", py "Gateway" ++ [10%N] ++ gateway_ip)]
                         ∪ ∅)
              else None) as Hstart.
  { intros w. unfold start. rewrite add_node_lookup.
    cbn [_node Networkx.empty]. by rewrite !lookup_empty. }
  destruct (add_devices_neighbours gateway_ip (first :: others) start)
    as [_ Hneighbours].
  { by apply add_node_consistent, consistent_empty. }
  destruct (add_devices_nodes gateway_ip (first :: others) start)
    as [Hnodes Htypes].
  { rewrite Hstart, decide_True by done. by eexists. }
  { intros w attrs. rewrite Hstart.
    destruct (decide (w = gateway_ip)) as [->|Hne]; [|done].
    intros [= <-]. split; [done|]. intros _.
    apply lookup_union_Some_l. cbn [list_to_map foldr uncurry fst snd].
    apply lookup_insert_eq. }
  split; [|split].
  - intros w. rewrite Hneighbours. unfold start.
    rewrite add_node_neighbours by apply consistent_empty.
    unfold neighbours at 1. cbn [_adj Networkx.empty].
    rewrite lookup_empty. cbn [default].
    destruct (decide (w = gateway_ip)), (decide (w ∈ _)); clear; set_cases.
  - intros w. unfold has_node. rewrite bool_decide_eq_true, Hnodes, Hstart.
    destruct (decide (w = gateway_ip)) as [->|Hne].
    + split; [done|]. intros _. left. by eexists.
    + split; [|tauto]. by intros [[? ?]|?].
  - intros w. unfold node_attr. split.
    + destruct (_node _ !! w) as [attrs|] eqn:Hw; [|done]. cbn.
      by apply Htypes.
    + intros ->.
      destruct (proj2 (Hnodes gateway_ip)) as [attrs Hattrs].
      { left. rewrite Hstart, decide_True by done. by eexists. }
      rewrite Hattrs. cbn. by apply (Htypes gateway_ip).
Qed.

(** Claim C3, where the code departs from it.  The gateway is always one
    of the devices, and the loop joins every device to the gateway, the
    gateway itself included: for every list of devices that is not empty
    the graph has an edge from the gateway to the gateway.  The rest is as
    the claim has it: the nodes are the devices, the gateway is the one
    node typed as the gateway, every other node has the gateway as its
    only neighbour, and the neighbours of the gateway are the devices. *)
Theorem gateway_has_self_loop (scan_data : list Device) :
  scan_data <> [] ->
  exists gateway_ip G,
    detect_gateway scan_data = Ok gateway_ip
    /\ create_graph_from_scan_data lower local_ips scan_data = Ok G
    /\ has_edge G gateway_ip gateway_ip = true
    /\ (forall w, has_node G w = true <-> w ∈ List.map ip scan_data)
    /\ (forall w, node_attr G w (py "node_type") = Some (py "gateway")
                  <-> w = gateway_ip)
    /\ (forall w, w <> gateway_ip ->
          neighbours G w
          = if decide (w ∈ List.map ip scan_data) then {[gateway_ip]} else ∅)
    /\ neighbours G gateway_ip = list_to_set (List.map ip scan_data).
Proof.
  destruct scan_data as [|first others]; [done|]. intros _.
  destruct (create_graph_shape first others)
    as (gateway_ip & G & Hgw & Hin & HG & Hneighbours & Hnodes & Htypes).
  assert (neighbours G gateway_ip
          = list_to_set (List.map ip (first :: others))) as Hgateway.
  { rewrite Hneighbours, !decide_True by done.
    apply (elem_of_list_to_set (C := gset pystr)) in Hin.
    revert Hin. generalize (list_to_set (List.map ip (first :: others))
                            : gset pystr).
    clear. intros ips Hin. apply set_eq. intros w.
    rewrite elem_of_union, elem_of_singleton. split; [|tauto].
    by intros [?| ->]. }
  exists gateway_ip, G. do 2 (split; [done|]). split.
  { unfold has_edge. apply bool_decide_eq_true_2. rewrite Hgateway.
    by apply elem_of_list_to_set. }
  do 2 (split; [done|]). split; [|done].
  intros w Hw. rewrite Hneighbours, decide_False by done.
  destruct (decide (w ∈ _)); clear; set_cases.
Qed.

End BuilderFacts.

(** The two devices of the example: the gateway [192.168.1.1] is its own
    neighbour. *)
Lemma gateway_has_self_loop_witness :
  Scenario.devices <> []
  /\ exists gateway_ip G,
       Topology.detect_gateway Scenario.devices = Ok gateway_ip
       /\ Topology.create_graph_from_scan_data (fun vendor => vendor) []
            Scenario.devices = Ok G
       /\ Networkx.has_edge G gateway_ip gateway_ip = true
       /\ (forall w, Networkx.has_node G w = true
                     <-> w ∈ List.map ip Scenario.devices)
       /\ (forall w, Networkx.node_attr G w (py "node_type")
                     = Some (py "gateway") <-> w = gateway_ip)
       /\ (forall w, w <> gateway_ip ->
             Networkx.neighbours G w
             = if decide (w ∈ List.map ip Scenario.devices)
               then {[gateway_ip]} else ∅)
       /\ Networkx.neighbours G gateway_ip
          = list_to_set (List.map ip Scenario.devices).
Proof.
  split; [done|].
  apply (gateway_has_self_loop (fun vendor => vendor) [] Scenario.devices).
  done.
Defined.

Example self_loop_at_192_168_1_1 :
  exists G,
    Topology.create_graph_from_scan_data (fun vendor => vendor) []
      Scenario.devices = Ok G
    /\ Networkx.has_edge G (py "192.168.1.1") (py "192.168.1.1") = true
    /\ Networkx.has_edge G (py "192.168.1.1") (py "192.168.1.50") = true
    /\ Networkx.has_edge G (py "192.168.1.50") (py "192.168.1.1") = true
    /\ Networkx.has_edge G (py "192.168.1.50") (py "192.168.1.50") = false
    /\ Networkx.node_attr G (py "192.168.1.1") (py "node_type")
       = Some (py "gateway")
    /\ Networkx.node_attr G (py "192.168.1.1") (py "mac")
       = Some (py "11:22:33:44:55:66")
    /\ Networkx.node_attr G (py "192.168.1.50") (py "node_type")
       = Some (py "unknown").
Proof. eexists. split; [reflexivity|]. by vm_compute. Qed.

Section TopologyFacts.
Import Networkx Topology.
Variable lower : pystr -> pystr.
Variable local_ips : list pystr.
Variable now : pystr.
Variable pyplot : Graph -> pystr -> bool -> bool -> pystr -> option pystr.

(** Claim C8.  [create_topology] on an empty list of devices raises the
    [ValueError] "No scan data provided!" and leaves the object as it was,
    without a graph built; and that error is raised for no other list. *)
Theorem create_topology_empty_input (scan_data : list Device)
    (output_filename : option pystr) (export_svg export_pdf : bool)
    (theme : pystr) (self : TopologyVisualizer) :
  create_topology lower local_ips now pyplot [] output_filename
    export_svg export_pdf theme self
  = (Raise (ValueError (py "No scan data provided!")), self)
  /\ (fst (create_topology lower local_ips now pyplot scan_data
             output_filename export_svg export_pdf theme self)
      = Raise (ValueError (py "No scan data provided!"))
      <-> scan_data = []).
Proof.
  split; [reflexivity|]. split; [|by intros ->].
  destruct scan_data as [|first others]; [done|]. intros Hraise. exfalso.
  destruct (create_graph_shape lower local_ips first others)
    as (gateway_ip & G & _ & _ & HG & _).
  revert Hraise. unfold create_topology.
  rewrite bool_decide_eq_false_2 by done.
  unfold print, draw_network_topology.
  rewrite !bind_run. unfold assign at 1. cbn beta iota.
  rewrite bind_run, HG. unfold lift at 1. cbn beta iota.
  rewrite !bind_run. unfold assign at 1, attr at 1. cbn beta iota.
  destruct (pyplot _ _ _ _ _); unfold lift, assign, mret, method_ret;
    cbn beta iota; discriminate.
Qed.

End TopologyFacts.

(* ===================================================================== *)
(** * More about the sniffer                                              *)
(* ===================================================================== *)

(** One step of a method of the sniffer. *)
Ltac step_method :=
  repeat first
    [ rewrite bind_run
    | rewrite count_protocol_run by (done || (apply tags_elem; tauto))
    | progress unfold lift, attr, assign, mret, method_ret
    | progress cbn beta iota ].

Section ClassifierFacts.
Import Sniffer PyDict.
Implicit Types (self : PacketSniffer) (packet : Packet) (key : pystr).

(** What the handler does with the result of the classifier: the count,
    the one counter, and the record and the snapshot it writes. *)
Lemma handler_of_classify packet self (proto summary : pystr) :
  well_formed self ->
  proto ∈ tags ->
  classify packet (set_packet_count (packet_count self + 1) self)
  = (Ok (proto, summary),
     counted proto (set_packet_count (packet_count self + 1) self)) ->
  exists self',
    packet_handler packet self = (Ok (proto, summary), self')
    /\ packet_count self' = packet_count self + 1
    /\ (forall key,
          find key (protocol_stats self')
          = (fun c => if decide (key = proto) then c + 1 else c)
              <$> find key (protocol_stats self))
    /\ captured_packets self' = captured_packets self ++ [packet]
    /\ emitted self'
       = emitted self
         ++ [LogInfo (py "Packet #" ++ str_of_int (packet_count self + 1)
                      ++ py ": " ++ summary)]
         ++ (if (packet_count self + 1) `mod` 10 =? 0
             then [Stdout ([10%N] ++ py "Packet Statistics (Total: "
                           ++ str_of_int (packet_count self + 1) ++ py ")");
                   Stdout (times (py "-") 40)]
                  ++ List.map (fun '(proto, count) =>
                                 StdoutStat proto count
                                   (inject_Z count
                                    / inject_Z
                                        (if packet_count self + 1 >? 0
                                         then packet_count self + 1 else 1)
                                    * 100)%Q)
                              (protocol_stats self')
                  ++ [Stdout (times (py "-") 40)]
             else []).
Proof.
  intros Hwf Htag Hclassify. unfold packet_handler. step_method.
  rewrite Hclassify. step_method. rewrite emit_run. step_method.
  cbn [packet_count counted set_protocol_stats set_packet_count].
  assert (forall key,
            find key (setitem proto
                        (default 0 (find proto (protocol_stats self)) + 1)
                        (protocol_stats self))
            = (fun c => if decide (key = proto) then c + 1 else c)
                <$> find key (protocol_stats self)) as Hfind.
  { intros key. exact (counted_find proto key self Hwf Htag). }
  destruct ((packet_count self + 1) `mod` 10 =? 0) eqn:Hten.
  - rewrite print_stats_run. step_method. eexists. split; [reflexivity|].
    cbn [packet_count protocol_stats captured_packets emitted emits
         set_emitted set_captured_packets set_protocol_stats
         set_packet_count counted].
    split; [done|]. split; [done|]. split; [done|].
    by rewrite <- !app_assoc.
  - eexists. split; [reflexivity|].
    cbn [packet_count protocol_stats captured_packets emitted emits
         set_emitted set_captured_packets set_protocol_stats
         set_packet_count counted].
    by rewrite app_nil_r.
Qed.

(** ** The branches of the classifier *)

Lemma classify_tag packet :
  let proto :=
    if haslayer as_IP packet then
      if haslayer as_TCP packet then py "TCP"
      else if haslayer as_UDP packet then py "UDP"
      else if haslayer as_ICMP packet then py "ICMP"
      else py "Other"
    else py "Other" in
  proto ∈ tags
  /\ exists summary,
       forall self, well_formed self ->
         classify packet self = (Ok (proto, summary), counted proto self).
Proof.
  unfold classify.
  destruct (haslayer as_IP packet) eqn:Hip.
  - destruct (haslayer_getlayer _ _ Hip) as ([src dst] & _ & ->).
    destruct (haslayer as_TCP packet) eqn:Htcp;
      [|destruct (haslayer as_UDP packet) eqn:Hudp;
        [|destruct (haslayer as_ICMP packet) eqn:Hicmp]].
    + destruct (haslayer_getlayer _ _ Htcp) as ([sport dport] & _ & ->).
      destruct (http_guard packet
                  (py "TCP " ++ src ++ py ":" ++ str_of_int sport
                   ++ py " -> " ++ dst ++ py ":" ++ str_of_int dport))
        as (summary' & Hguard & _).
      split; [apply tags_elem; tauto|].
      destruct ((dport =? 80) || (sport =? 80)) eqn:H80,
               (haslayer as_Raw packet) eqn:Hraw;
        (eexists; intros self Hwf; step_method; rewrite H80; step_method;
         rewrite ?Hguard; step_method; reflexivity).
    + destruct (haslayer_getlayer _ _ Hudp) as ([sport dport] & _ & ->).
      split; [apply tags_elem; tauto|].
      eexists. intros self Hwf. step_method. reflexivity.
    + destruct (haslayer_getlayer _ _ Hicmp) as (type & _ & ->).
      split; [apply tags_elem; tauto|].
      eexists. intros self Hwf. step_method. reflexivity.
    + split; [apply tags_elem; tauto|].
      eexists. intros self Hwf. step_method. reflexivity.
  - split; [apply tags_elem; tauto|].
    eexists. intros self Hwf. step_method. reflexivity.
Qed.

(** A TCP segment without an HTTP request line to show. *)
Lemma classify_tcp_plain packet self (src_ip dst_ip : pystr)
    (sport dport : Z) :
  well_formed self ->
  first_layer as_IP (layers packet) = Some (src_ip, dst_ip) ->
  first_layer as_TCP (layers packet) = Some (sport, dport) ->
  (sport <> 80 /\ dport <> 80)
  \/ first_layer as_Raw (layers packet) = None
  \/ (exists load,
        first_layer as_Raw (layers packet) = Some load
        /\ contains (py "GET") (decode_ignore load) = false
        /\ contains (py "POST") (decode_ignore load) = false
        /\ contains (py "HTTP") (decode_ignore load) = false) ->
  classify packet self
  = (Ok (py "TCP",
         py "TCP " ++ src_ip ++ py ":" ++ str_of_int sport ++ py " -> "
         ++ dst_ip ++ py ":" ++ str_of_int dport
         ++ (if (dport =? 443) || (sport =? 443)
             then py " [HTTPS]" else [])),
     counted (py "TCP") self).
Proof.
  intros Hwf Hip Htcp Hplain.
  set (base := py "TCP " ++ src_ip ++ py ":" ++ str_of_int sport
               ++ py " -> " ++ dst_ip ++ py ":" ++ str_of_int dport).
  assert ((dport =? 80) || (sport =? 80) = true ->
          haslayer as_Raw packet = true ->
          try_except (http_request_line packet base) (fun _ => Ok base)
          = Ok base) as Hguard.
  { intros H80. unfold haslayer, http_request_line, getlayer.
    destruct Hplain as [[Hs Hd]|[Hraw|(load & Hraw & Hget & Hpost & Hhttp)]].
    - apply orb_true_iff in H80 as [?%Z.eqb_eq|?%Z.eqb_eq]; lia.
    - by rewrite Hraw.
    - rewrite Hraw. unfold mbind, result_bind, bind. cbn [existsb].
      by rewrite Hget, Hpost, Hhttp. }
  assert (base ++ (if (dport =? 443) || (sport =? 443)
                   then py " [HTTPS]" else [])
          = if (dport =? 443) || (sport =? 443)
            then base ++ py " [HTTPS]" else base) as Hhttps.
  { destruct ((dport =? 443) || (sport =? 443)); [done|apply app_nil_r]. }
  replace (py "TCP " ++ src_ip ++ py ":" ++ str_of_int sport ++ py " -> "
           ++ dst_ip ++ py ":" ++ str_of_int dport
           ++ (if (dport =? 443) || (sport =? 443)
               then py " [HTTPS]" else []))
    with (base ++ (if (dport =? 443) || (sport =? 443)
                   then py " [HTTPS]" else []))
    by (unfold base; by rewrite <- !app_assoc).
  rewrite Hhttps. unfold classify.
  destruct (haslayer_first _ _ _ Hip) as [-> ->].
  destruct (haslayer_first _ _ _ Htcp) as [-> ->].
  destruct ((dport =? 80) || (sport =? 80)) eqn:H80,
           (haslayer as_Raw packet) eqn:Hraw;
    step_method; fold base; rewrite H80; step_method;
    rewrite ?Hguard by done; step_method; reflexivity.
Qed.

Lemma classify_udp packet self (src_ip dst_ip : pystr) (sport dport : Z) :
  well_formed self ->
  first_layer as_IP (layers packet) = Some (src_ip, dst_ip) ->
  haslayer as_TCP packet = false ->
  first_layer as_UDP (layers packet) = Some (sport, dport) ->
  classify packet self
  = (Ok (py "UDP",
         py "UDP " ++ src_ip ++ py ":" ++ str_of_int sport ++ py " -> "
         ++ dst_ip ++ py ":" ++ str_of_int dport
         ++ (if haslayer as_DNS packet then py " [DNS Query]" else [])),
     counted (py "UDP") self).
Proof.
  intros Hwf Hip Htcp Hudp. unfold classify.
  destruct (haslayer_first _ _ _ Hip) as [-> ->]. rewrite Htcp.
  destruct (haslayer_first _ _ _ Hudp) as [-> ->].
  step_method. do 3 f_equal.
  destruct (haslayer as_DNS packet);
    rewrite <- ?app_assoc, ?app_nil_r; reflexivity.
Qed.

Lemma classify_icmp packet self (src_ip dst_ip : pystr) (type : Z) :
  well_formed self ->
  first_layer as_IP (layers packet) = Some (src_ip, dst_ip) ->
  haslayer as_TCP packet = false ->
  haslayer as_UDP packet = false ->
  first_layer as_ICMP (layers packet) = Some type ->
  classify packet self
  = (Ok (py "ICMP",
         py "ICMP " ++ src_ip ++ py " -> " ++ dst_ip ++ py " Type: "
         ++ str_of_int type ++ py " ("
         ++ (if type =? 0 then py "Echo Reply"
             else if type =? 3 then py "Dest Unreachable"
             else if type =? 8 then py "Echo Request"
             else if type =? 11 then py "Time Exceeded"
             else [])
         ++ py ")"),
     counted (py "ICMP") self).
Proof.
  intros Hwf Hip Htcp Hudp Hicmp. unfold classify.
  destruct (haslayer_first _ _ _ Hip) as [-> ->]. rewrite Htcp, Hudp.
  destruct (haslayer_first _ _ _ Hicmp) as [-> ->].
  step_method. do 9 f_equal. unfold icmp_types.
  destruct (Z.eqb_spec type 0) as [->|H0]; [done|].
  rewrite lookup_insert_ne by done.
  destruct (Z.eqb_spec type 3) as [->|H3]; [done|].
  rewrite lookup_insert_ne by done.
  destruct (Z.eqb_spec type 8) as [->|H8]; [done|].
  rewrite lookup_insert_ne by done.
  destruct (Z.eqb_spec type 11) as [->|H11]; [done|].
  by rewrite lookup_singleton_ne.
Qed.

Lemma classify_other_ip packet self (src_ip dst_ip : pystr) :
  well_formed self ->
  first_layer as_IP (layers packet) = Some (src_ip, dst_ip) ->
  haslayer as_TCP packet = false ->
  haslayer as_UDP packet = false ->
  haslayer as_ICMP packet = false ->
  classify packet self
  = (Ok (py "Other", src_ip ++ py " -> " ++ dst_ip ++ py " (Other Protocol)"),
     counted (py "Other") self).
Proof.
  intros Hwf Hip Htcp Hudp Hicmp. unfold classify.
  destruct (haslayer_first _ _ _ Hip) as [-> ->].
  rewrite Htcp, Hudp, Hicmp. by step_method.
Qed.

(** ** What the handler yields, branch by branch *)

(** Extra X1.  The tag is chosen by the first of these tests that holds:
    no IP layer, a TCP layer, a UDP layer, an ICMP layer.  So a frame with
    an IP layer and a TCP layer is counted as TCP whatever else it
    carries (a UDP tunnel around it, say), UDP goes before ICMP, and the
    counter that goes up is the one of the tag. *)
Theorem tag_follows_layer_precedence packet self :
  well_formed self ->
  let proto :=
    if haslayer as_IP packet then
      if haslayer as_TCP packet then py "TCP"
      else if haslayer as_UDP packet then py "UDP"
      else if haslayer as_ICMP packet then py "ICMP"
      else py "Other"
    else py "Other" in
  exists summary self',
    packet_handler packet self = (Ok (proto, summary), self')
    /\ forall key,
         find key (protocol_stats self')
         = (fun c => if decide (key = proto) then c + 1 else c)
             <$> find key (protocol_stats self).
Proof.
  intros Hwf proto.
  destruct (classify_tag packet) as (Htag & summary & Hrun).
  destruct (handler_of_classify packet self _ summary Hwf Htag
              (Hrun (set_packet_count (packet_count self + 1) self) Hwf))
    as (self' & Hhandler & _ & Hfind & _).
  by exists summary, self'.
Qed.

Lemma tag_follows_layer_precedence_witness :
  well_formed Scenario.sniffer
  /\ exists summary self',
       packet_handler Sample.tunnelled Scenario.sniffer
       = (Ok (py "TCP", summary), self')
       /\ forall key,
            find key (protocol_stats self')
            = (fun c => if decide (key = py "TCP") then c + 1 else c)
                <$> find key (protocol_stats Scenario.sniffer).
Proof.
  split; [reflexivity|].
  apply (tag_follows_layer_precedence Sample.tunnelled Scenario.sniffer).
  reflexivity.
Defined.

(** Extra X2.  A TCP segment gets no [[HTTP]] part unless a port is 80, a
    payload is there and its text names a method: when neither port is
    80, or the frame has no payload, or the text of the payload contains
    none of [GET], [POST] and [HTTP], the summary is
    ["TCP <src>:<sport> -> <dst>:<dport>"], followed by [" [HTTPS]"]
    exactly when one of the ports is 443. *)
Theorem tcp_summary_without_request_line packet self
    (src_ip dst_ip : pystr) (sport dport : Z) :
  well_formed self ->
  first_layer as_IP (layers packet) = Some (src_ip, dst_ip) ->
  first_layer as_TCP (layers packet) = Some (sport, dport) ->
  (sport <> 80 /\ dport <> 80)
  \/ first_layer as_Raw (layers packet) = None
  \/ (exists load,
        first_layer as_Raw (layers packet) = Some load
        /\ contains (py "GET") (decode_ignore load) = false
        /\ contains (py "POST") (decode_ignore load) = false
        /\ contains (py "HTTP") (decode_ignore load) = false) ->
  exists self',
    packet_handler packet self
    = (Ok (py "TCP",
           py "TCP " ++ src_ip ++ py ":" ++ str_of_int sport ++ py " -> "
           ++ dst_ip ++ py ":" ++ str_of_int dport
           ++ (if (dport =? 443) || (sport =? 443)
               then py " [HTTPS]" else [])),
       self').
Proof.
  intros Hwf Hip Htcp Hplain.
  destruct (handler_of_classify packet self (py "TCP")
              (py "TCP " ++ src_ip ++ py ":" ++ str_of_int sport ++ py " -> "
               ++ dst_ip ++ py ":" ++ str_of_int dport
               ++ (if (dport =? 443) || (sport =? 443)
                   then py " [HTTPS]" else [])) Hwf)
    as (self' & Hhandler & _).
  - apply tags_elem. tauto.
  - by apply classify_tcp_plain.
  - by exists self'.
Qed.

Lemma tcp_summary_without_request_line_witness :
  well_formed Scenario.sniffer
  /\ exists self',
       packet_handler Sample.https Scenario.sniffer
       = (Ok (py "TCP", py "TCP 10.0.0.5:51000 -> 93.184.216.34:443 [HTTPS]"),
          self').
Proof.
  split; [reflexivity|].
  apply (tcp_summary_without_request_line Sample.https Scenario.sniffer
           (py "10.0.0.5") (py "93.184.216.34") 51000 443);
    [reflexivity..|].
  left. split; discriminate.
Defined.

(** Extra X3.  A frame with an IP layer, no TCP layer and a UDP layer is
    tagged [UDP], with the summary ["UDP <src>:<sport> -> <dst>:<dport>"],
    followed by [" [DNS Query]"] exactly when the frame has a DNS layer,
    query or answer, on whatever port. *)
Theorem udp_summary_and_dns_tag packet self (src_ip dst_ip : pystr)
    (sport dport : Z) :
  well_formed self ->
  first_layer as_IP (layers packet) = Some (src_ip, dst_ip) ->
  haslayer as_TCP packet = false ->
  first_layer as_UDP (layers packet) = Some (sport, dport) ->
  exists self',
    packet_handler packet self
    = (Ok (py "UDP",
           py "UDP " ++ src_ip ++ py ":" ++ str_of_int sport ++ py " -> "
           ++ dst_ip ++ py ":" ++ str_of_int dport
           ++ (if haslayer as_DNS packet then py " [DNS Query]" else [])),
       self').
Proof.
  intros Hwf Hip Htcp Hudp.
  destruct (handler_of_classify packet self (py "UDP")
              (py "UDP " ++ src_ip ++ py ":" ++ str_of_int sport ++ py " -> "
               ++ dst_ip ++ py ":" ++ str_of_int dport
               ++ (if haslayer as_DNS packet then py " [DNS Query]" else []))
              Hwf)
    as (self' & Hhandler & _).
  - apply tags_elem. tauto.
  - by apply classify_udp.
  - by exists self'.
Qed.

Lemma udp_summary_and_dns_tag_witness :
  well_formed Scenario.sniffer
  /\ exists self',
       packet_handler Sample.dns_query Scenario.sniffer
       = (Ok (py "UDP", py "UDP 10.0.0.5:53000 -> 8.8.8.8:53 [DNS Query]"),
          self').
Proof.
  split; [reflexivity|].
  apply (udp_summary_and_dns_tag Sample.dns_query Scenario.sniffer
           (py "10.0.0.5") (py "8.8.8.8") 53000 53); reflexivity.
Defined.

(** Extra X4.  A frame with an IP layer, no TCP and no UDP layer and an
    ICMP layer is tagged [ICMP]; its summary is
    ["ICMP <src> -> <dst> Type: <type> (<name>)"], where the name is
    [Echo Reply], [Dest Unreachable], [Echo Request] or [Time Exceeded]
    for the types 0, 3, 8 and 11 and empty for every other type. *)
Theorem icmp_summary_names_type packet self (src_ip dst_ip : pystr)
    (type : Z) :
  well_formed self ->
  first_layer as_IP (layers packet) = Some (src_ip, dst_ip) ->
  haslayer as_TCP packet = false ->
  haslayer as_UDP packet = false ->
  first_layer as_ICMP (layers packet) = Some type ->
  exists self',
    packet_handler packet self
    = (Ok (py "ICMP",
           py "ICMP " ++ src_ip ++ py " -> " ++ dst_ip ++ py " Type: "
           ++ str_of_int type ++ py " ("
           ++ (if type =? 0 then py "Echo Reply"
               else if type =? 3 then py "Dest Unreachable"
               else if type =? 8 then py "Echo Request"
               else if type =? 11 then py "Time Exceeded"
               else [])
           ++ py ")"),
       self').
Proof.
  intros Hwf Hip Htcp Hudp Hicmp.
  destruct (handler_of_classify packet self (py "ICMP")
              (py "ICMP " ++ src_ip ++ py " -> " ++ dst_ip ++ py " Type: "
               ++ str_of_int type ++ py " ("
               ++ (if type =? 0 then py "Echo Reply"
                   else if type =? 3 then py "Dest Unreachable"
                   else if type =? 8 then py "Echo Request"
                   else if type =? 11 then py "Time Exceeded"
                   else [])
               ++ py ")") Hwf)
    as (self' & Hhandler & _).
  - apply tags_elem. tauto.
  - by apply classify_icmp.
  - by exists self'.
Qed.

Lemma icmp_summary_names_type_witness :
  well_formed Scenario.sniffer
  /\ exists self',
       packet_handler Sample.timestamp_request Scenario.sniffer
       = (Ok (py "ICMP", py "ICMP 10.0.0.2 -> 10.0.0.1 Type: 13 ()"), self').
Proof.
  split; [reflexivity|].
  apply (icmp_summary_names_type Sample.timestamp_request Scenario.sniffer
           (py "10.0.0.2") (py "10.0.0.1") 13); reflexivity.
Defined.

(** Extra X5.  A frame with an IP layer and none of the three transports
    is tagged [Other], with the summary
    ["<src> -> <dst> (Other Protocol)"]. *)
Theorem ip_without_transport_is_other packet self (src_ip dst_ip : pystr) :
  well_formed self ->
  first_layer as_IP (layers packet) = Some (src_ip, dst_ip) ->
  haslayer as_TCP packet = false ->
  haslayer as_UDP packet = false ->
  haslayer as_ICMP packet = false ->
  exists self',
    packet_handler packet self
    = (Ok (py "Other",
           src_ip ++ py " -> " ++ dst_ip ++ py " (Other Protocol)"), self')
    /\ forall key,
         find key (protocol_stats self')
         = (fun c => if decide (key = py "Other") then c + 1 else c)
             <$> find key (protocol_stats self).
Proof.
  intros Hwf Hip Htcp Hudp Hicmp.
  destruct (handler_of_classify packet self (py "Other")
              (src_ip ++ py " -> " ++ dst_ip ++ py " (Other Protocol)") Hwf)
    as (self' & Hhandler & _ & Hfind & _).
  - apply tags_elem. tauto.
  - by apply classify_other_ip.
  - by exists self'.
Qed.

Lemma ip_without_transport_is_other_witness :
  well_formed Scenario.sniffer
  /\ exists self',
       packet_handler Sample.gre Scenario.sniffer
       = (Ok (py "Other", py "10.0.0.2 -> 10.0.0.1 (Other Protocol)"), self')
       /\ forall key,
            find key (protocol_stats self')
            = (fun c => if decide (key = py "Other") then c + 1 else c)
                <$> find key (protocol_stats Scenario.sniffer).
Proof.
  split; [reflexivity|].
  apply (ip_without_transport_is_other Sample.gre Scenario.sniffer
           (py "10.0.0.2") (py "10.0.0.1")); reflexivity.
Defined.

End ClassifierFacts.

(** ** The log, the snapshots and the buffer *)

Section SessionFacts.
Import Sniffer PyDict.
Implicit Types (self : PacketSniffer) (packet : Packet) (key : pystr).

(** Extra X6.  Every call of the handler logs one record,
    ["Packet #<n>: <summary>"] with the new packet count [n], and prints
    nothing, except when [n] is a multiple of ten: then it prints a
    statistics snapshot as well, with the counters as they are after this
    packet and each percentage taken of [n]. *)
Theorem snapshot_every_tenth_packet packet self :
  well_formed self ->
  0 <= packet_count self ->
  let n := packet_count self + 1 in
  exists proto summary self',
    packet_handler packet self = (Ok (proto, summary), self')
    /\ emitted self'
       = emitted self
         ++ [LogInfo (py "Packet #" ++ str_of_int n ++ py ": " ++ summary)]
         ++ (if n `mod` 10 =? 0
             then [Stdout ([10%N] ++ py "Packet Statistics (Total: "
                           ++ str_of_int n ++ py ")");
                   Stdout (times (py "-") 40)]
                  ++ List.map (fun '(proto, count) =>
                                 StdoutStat proto count
                                   (inject_Z count / inject_Z n * 100)%Q)
                              (protocol_stats self')
                  ++ [Stdout (times (py "-") 40)]
             else []).
Proof.
  intros Hwf Hcount n.
  destruct (classify_tag packet) as (Htag & summary & Hrun).
  destruct (handler_of_classify packet self _ summary Hwf Htag
              (Hrun (set_packet_count (packet_count self + 1) self) Hwf))
    as (self' & Hhandler & _ & _ & _ & Hemitted).
  eexists _, summary, self'. split; [done|]. rewrite Hemitted.
  fold n. destruct (Z.gtb_spec n 0) as [_|Hle]; [done|]. unfold n in Hle. lia.
Qed.

Lemma snapshot_every_tenth_packet_witness :
  well_formed Sample.after_nine
  /\ 0 <= packet_count Sample.after_nine
  /\ exists proto summary self',
       packet_handler Scenario.ping Sample.after_nine
       = (Ok (proto, summary), self')
       /\ emitted self'
          = emitted Sample.after_nine
            ++ [LogInfo (py "Packet #" ++ str_of_int 10 ++ py ": " ++ summary)]
            ++ (if 10 `mod` 10 =? 0
                then [Stdout ([10%N] ++ py "Packet Statistics (Total: "
                              ++ str_of_int 10 ++ py ")");
                      Stdout (times (py "-") 40)]
                     ++ List.map (fun '(proto, count) =>
                                    StdoutStat proto count
                                      (inject_Z count / inject_Z 10 * 100)%Q)
                                 (protocol_stats self')
                     ++ [Stdout (times (py "-") 40)]
                else []).
Proof.
  split; [reflexivity|]. split; [by vm_compute|].
  apply (snapshot_every_tenth_packet Scenario.ping Sample.after_nine).
  - reflexivity.
  - by vm_compute.
Defined.

Lemma deliver_buffer (packets : list Packet) self :
  well_formed self ->
  exists self',
    deliver packets self = (Ok tt, self')
    /\ well_formed self'
    /\ running self' = running self
    /\ captured_packets self' = captured_packets self ++ packets
    /\ packet_count self' = packet_count self + Z.of_nat (length packets)
    /\ sum_values (protocol_stats self')
       = sum_values (protocol_stats self) + Z.of_nat (length packets).
Proof.
  revert self. induction packets as [|packet packets IH]; intros self Hwf.
  - exists self. cbn [deliver length Z.of_nat]. rewrite app_nil_r.
    repeat split; [done|lia|lia].
  - destruct (classify_run packet) as (proto & summary & Htag & Hrun).
    destruct (packet_handler_run packet self proto summary _
                (Hrun (set_packet_count (packet_count self + 1) self) Hwf))
      as [out Hhandler].
    match type of Hhandler with _ = (_, ?s) => set (self1 := s) in * end.
    assert (well_formed self1) as Hwf1.
    { by apply (counted_well_formed proto
                  (set_packet_count (packet_count self + 1) self)). }
    destruct (IH self1 Hwf1)
      as (self' & Hdeliver & Hwf' & Hrunning & Hbuffer & Hcount & Hsum).
    exists self'. cbn [deliver]. rewrite bind_run, Hhandler.
    split; [done|]. split; [done|]. split; [by rewrite Hrunning|].
    split; [|split].
    + rewrite Hbuffer. unfold self1.
      cbn [captured_packets emits set_emitted set_captured_packets counted
           set_protocol_stats set_packet_count].
      by rewrite <- app_assoc.
    + rewrite Hcount. unfold self1.
      cbn [packet_count emits set_emitted set_captured_packets counted
           set_protocol_stats set_packet_count].
      rewrite length_cons. lia.
    + rewrite Hsum.
      assert (sum_values (protocol_stats self1)
              = sum_values (protocol_stats self) + 1) as ->.
      { exact (counted_sum proto
                 (set_packet_count (packet_count self + 1) self) Hwf Htag). }
      rewrite length_cons. lia.
Qed.


(** ** How a session ends *)

(** The frames [scapy.sniff] hands to the callback for the [count] that
    [start_sniffing] was called with. *)
Lemma sniff_run (count : Z) (capture : Capture) self :
  well_formed self ->
  let limited := (0 <? count) && (count <=? Z.of_nat (length (frames capture))) in
  let handled :=
    if limited then take (Z.to_nat count) (frames capture)
    else frames capture in
  exists self1,
    deliver handled self = (Ok tt, self1)
    /\ sniff (if 0 <? count then count else 0) capture self
       = ((if limited then Ok tt
           else match ended capture with
                | Finished => Ok tt
                | Interrupted => Raise KeyboardInterrupt
                | Failed e => Raise e
                end), self1).
Proof.
  intros Hwf limited handled.
  assert ((0 <? (if 0 <? count then count else 0))
          && ((if 0 <? count then count else 0)
              <=? Z.of_nat (length (frames capture))) = limited) as Hlimited.
  { unfold limited. destruct (0 <? count) eqn:Hpos; [by rewrite Hpos|done]. }
  destruct (deliver_buffer handled self Hwf) as (self1 & Hdeliver & _).
  exists self1. split; [done|]. unfold sniff. rewrite Hlimited.
  unfold handled in Hdeliver. destruct limited eqn:Hcase.
  - assert ((0 <? count) = true) as ->.
    { unfold limited in Hcase. by apply andb_true_iff in Hcase as [-> _]. }
    exact Hdeliver.
  - rewrite bind_run, Hdeliver. cbn beta iota.
    by destruct (ended capture).
Qed.

Lemma stop_sniffing_result (now : pystr)
    (wrpcap : pystr -> list Packet -> result unit) (save_pcap : bool) self :
  exists r tail,
    stop_sniffing now wrpcap save_pcap self
    = (r, emits tail (set_running false self))
    /\ (r = Ok tt
        \/ r = Raise KeyboardInterrupt
           /\ save_pcap = true
           /\ captured_packets self <> []
           /\ wrpcap (py "output/sniffed_" ++ now ++ py ".pcap")
                (captured_packets self) = Raise KeyboardInterrupt).
Proof.
  unfold stop_sniffing. step_method.
  repeat (rewrite emit_run; step_method).
  cbn [packet_count protocol_stats emits set_emitted set_running].
  rewrite (for_each_emit _
             (fun '(protocol, count) =>
                LogInfoStat protocol count
                  (if packet_count self =? 0 then inject_Z 0
                   else inject_Z count / inject_Z (packet_count self) * 100)%Q)).
  2:{ intros [protocol count] self'.
      destruct (Z.eqb_spec (packet_count self) 0) as [Hn|Hn];
        cbn [negb]; step_method.
      - by rewrite emit_run.
      - rewrite truediv_nonzero by done. step_method. by rewrite emit_run. }
  step_method. repeat (rewrite emit_run; step_method).
  rewrite print_stats_run. step_method. rewrite emit_run. step_method.
  rewrite !emits_emits.
  cbn [captured_packets emits set_emitted set_running].
  destruct (save_pcap && negb (bool_decide (_ = []))) eqn:Hsave.
  - apply andb_true_iff in Hsave as [-> Hpackets].
    apply negb_true_iff, bool_decide_eq_false in Hpackets.
    unfold save_to_pcap. step_method.
    cbn [captured_packets emits set_emitted set_running].
    destruct (wrpcap _ _) as [[]|e] eqn:Hwrite.
    + rewrite emit_run, emits_emits. eexists _, _.
      split; [reflexivity|]. by left.
    + destruct e; cbn [is_Exception];
        try (rewrite emit_run, emits_emits; eexists _, _;
             split; [reflexivity|]; by left).
      unfold lift. eexists _, _. split; [reflexivity|]. by right.
  - eexists _, _. split; [reflexivity|]. by left.
Qed.

(** The end of a session, however the capture ends. *)
Lemma session_end (now : pystr)
    (wrpcap : pystr -> list Packet -> result unit)
    (count : Z) (timeout : option Z) (filter_str : option pystr)
    (save_pcap : bool) (capture : Capture) (self0 : PacketSniffer) :
  let handled :=
    if (0 <? count) && (count <=? Z.of_nat (length (frames capture)))
    then take (Z.to_nat count) (frames capture)
    else frames capture in
  exists r self',
    start_sniffing now wrpcap count timeout filter_str save_pcap capture self0
    = (r, self')
    /\ running self' = false
    /\ captured_packets self' = handled
    /\ packet_count self' = Z.of_nat (length handled)
    /\ sum_values (protocol_stats self') = packet_count self'
    /\ (r = Ok tt
        \/ r = Raise KeyboardInterrupt
           /\ save_pcap = true
           /\ handled <> []
           /\ wrpcap (py "output/sniffed_" ++ now ++ py ".pcap") handled
              = Raise KeyboardInterrupt).
Proof.
  intros handled.
  destruct (begin_session_run count timeout filter_str self0) as [out Hbegin].
  match type of Hbegin with _ = (_, ?s) => set (started := s) in * end.
  assert (well_formed started) as Hwf by done.
  destruct (sniff_run count capture started Hwf) as (self1 & Hdeliver & Hsniff).
  fold handled in Hdeliver.
  destruct (deliver_buffer handled started Hwf)
    as (self1' & Hdeliver' & _ & _ & Hbuffer & Hcount & Hsum).
  rewrite Hdeliver in Hdeliver'. injection Hdeliver' as <-.
  assert (captured_packets self1 = handled) as Hbuffer1 by done.
  assert (packet_count self1 = Z.of_nat (length handled)) as Hcount1 by done.
  assert (sum_values (protocol_stats self1) = Z.of_nat (length handled))
    as Hsum1 by done.
  assert (exists caught,
            catch (sniff (if 0 <? count then count else 0) capture)
              (fun e =>
                 match e with
                 | KeyboardInterrupt =>
                     emit (Stdout ([10%N] ++ py "Sniffing stopped by user"))
                 | _ => emit (LogError (py "Error during packet sniffing: ") e)
                 end) started
            = (Ok tt, emits caught self1)) as [caught Hcatch].
  { unfold catch. rewrite Hsniff.
    destruct ((0 <? count) && (count <=? Z.of_nat (length (frames capture)))).
    - exists []. by rewrite emits_nil.
    - destruct (ended capture) as [| |e].
      + exists []. by rewrite emits_nil.
      + rewrite emit_run. by eexists.
      + destruct e; rewrite emit_run; by eexists. }
  destruct (stop_sniffing_result now wrpcap save_pcap (emits caught self1))
    as (r & tail & Hstop & Hr).
  exists r, (emits tail (set_running false (emits caught self1))).
  split.
  { unfold start_sniffing. rewrite bind_run, Hbegin. cbn beta iota.
    unfold finally. rewrite Hcatch, Hstop.
    destruct Hr as [->|(-> & _)]; reflexivity. }
  cbn [running captured_packets packet_count protocol_stats emits
       set_emitted set_running].
  do 3 (split; [done|]).
  split; [by rewrite Hsum1, Hcount1|].
  destruct Hr as [->|(-> & -> & Hpackets & Hwrite)]; [by left|right].
  cbn [captured_packets emits set_emitted] in Hpackets, Hwrite.
  rewrite Hbuffer1 in Hpackets, Hwrite. done.
Qed.

(** ** An interrupt inside the callback *)

Lemma cut_handler_run (place : Interrupt.point) packet self :
  well_formed self ->
  exists self',
    Interrupt.cut_handler place packet self = (Raise KeyboardInterrupt, self')
    /\ packet_count self'
       = packet_count self
         + match place with Interrupt.Entered => 0 | _ => 1 end
    /\ sum_values (protocol_stats self')
       = sum_values (protocol_stats self)
         + match place with
           | Interrupt.Entered | Interrupt.Counted => 0
           | _ => 1
           end
    /\ captured_packets self'
       = captured_packets self
         ++ match place with
            | Interrupt.Stored | Interrupt.Printing _ => [packet]
            | _ => []
            end.
Proof.
  intros Hwf.
  destruct (classify_run packet) as (proto & summary & Htag & Hrun).
  assert (well_formed (set_packet_count (packet_count self + 1) self))
    as Hwf' by done.
  pose proof (Hrun _ Hwf') as Hclassify.
  pose proof (counted_sum proto _ Hwf' Htag) as Hsum.
  cbn [protocol_stats set_packet_count] in Hsum.
  unfold Interrupt.cut_handler. destruct place as [| | | | |lines].
  - exists self. unfold lift. split; [done|].
    rewrite app_nil_r. repeat split; lia.
  - step_method. eexists. split; [reflexivity|].
    cbn [packet_count protocol_stats captured_packets set_packet_count].
    rewrite app_nil_r. repeat split; lia.
  - step_method. rewrite Hclassify. step_method.
    eexists. split; [reflexivity|]. split; [done|]. split; [exact Hsum|].
    cbn [captured_packets counted set_protocol_stats set_packet_count].
    by rewrite app_nil_r.
  - step_method. rewrite Hclassify. step_method. rewrite emit_run.
    step_method. eexists. split; [reflexivity|].
    split; [done|]. split; [exact Hsum|].
    cbn [captured_packets emits set_emitted counted set_protocol_stats
         set_packet_count].
    by rewrite app_nil_r.
  - step_method. rewrite Hclassify. step_method. rewrite emit_run.
    step_method. eexists. split; [reflexivity|].
    split; [done|]. split; [exact Hsum|]. done.
  - step_method. rewrite Hclassify. step_method. rewrite emit_run.
    step_method.
    cbn [packet_count counted set_protocol_stats set_packet_count].
    destruct ((packet_count self + 1) `mod` 10 =? 0).
    + unfold Interrupt.cut_print. rewrite print_stats_run. step_method.
      eexists. split; [reflexivity|].
      split; [done|]. split; [exact Hsum|]. done.
    + step_method. eexists. split; [reflexivity|].
      split; [done|]. split; [exact Hsum|]. done.
Qed.

(** The end of a session that Ctrl-C cuts inside the callback. *)
Lemma session_cut_end (now : pystr)
    (wrpcap : pystr -> list Packet -> result unit)
    (count : Z) (timeout : option Z) (filter_str : option pystr)
    (save_pcap : bool) (cut : Interrupt.Cut) (self0 : PacketSniffer) :
  let whole := Z.of_nat (length (Interrupt.handled cut)) in
  exists r self',
    Interrupt.start_sniffing_on now wrpcap count timeout filter_str save_pcap
      (Interrupt.sniff_cut cut) self0
    = (r, self')
    /\ running self' = false
    /\ packet_count self'
       = whole + match Interrupt.place cut with
                 | Interrupt.Entered => 0
                 | _ => 1
                 end
    /\ sum_values (protocol_stats self')
       = whole + match Interrupt.place cut with
                 | Interrupt.Entered | Interrupt.Counted => 0
                 | _ => 1
                 end
    /\ captured_packets self'
       = Interrupt.handled cut
         ++ match Interrupt.place cut with
            | Interrupt.Stored | Interrupt.Printing _ =>
                [Interrupt.in_hand cut]
            | _ => []
            end
    /\ (r = Ok tt
        \/ r = Raise KeyboardInterrupt
           /\ save_pcap = true
           /\ captured_packets self' <> []
           /\ wrpcap (py "output/sniffed_" ++ now ++ py ".pcap")
                (captured_packets self')
              = Raise KeyboardInterrupt).
Proof.
  intros whole.
  destruct (begin_session_run count timeout filter_str self0) as [out Hbegin].
  match type of Hbegin with _ = (_, ?s) => set (started := s) in * end.
  assert (well_formed started) as Hwf by done.
  destruct (deliver_buffer (Interrupt.handled cut) started Hwf)
    as (self1 & Hdeliver & Hwf1 & _ & Hbuffer & Hcount & Hsum).
  destruct (cut_handler_run (Interrupt.place cut) (Interrupt.in_hand cut)
              self1 Hwf1)
    as (self2 & Hcut & Hcount2 & Hsum2 & Hbuffer2).
  assert (exists caught,
            catch (Interrupt.sniff_cut cut)
              (fun e =>
                 match e with
                 | KeyboardInterrupt =>
                     emit (Stdout ([10%N] ++ py "Sniffing stopped by user"))
                 | _ => emit (LogError (py "Error during packet sniffing: ") e)
                 end) started
            = (Ok tt, emits caught self2)) as [caught Hcatch].
  { unfold catch at 1, Interrupt.sniff_cut.
    rewrite bind_run, Hdeliver. cbn beta iota.
    unfold catch. rewrite Hcut. cbn beta iota.
    destruct (Interrupt.passed_on cut); unfold lift, mret, method_ret.
    - rewrite emit_run. by eexists.
    - exists []. by rewrite emits_nil. }
  destruct (stop_sniffing_result now wrpcap save_pcap (emits caught self2))
    as (r & tail & Hstop & Hr).
  exists r, (emits tail (set_running false (emits caught self2))).
  split.
  { unfold Interrupt.start_sniffing_on. rewrite bind_run, Hbegin.
    cbn beta iota. unfold finally. rewrite Hcatch, Hstop.
    destruct Hr as [->|(-> & _)]; reflexivity. }
  cbn [running captured_packets packet_count protocol_stats emits
       set_emitted set_running].
  split; [done|].
  split; [rewrite Hcount2, Hcount; reflexivity|].
  split; [rewrite Hsum2, Hsum; reflexivity|].
  split; [rewrite Hbuffer2, Hbuffer; reflexivity|].
  destruct Hr as [->|(-> & -> & Hpackets & Hwrite)]; [by left|right].
  cbn [captured_packets emits set_emitted] in Hpackets, Hwrite. done.
Qed.


(** Ctrl-C while the fourth echo request is in hand, right after line 59:
    the session ends with a packet count of 4 and counters that add up
    to 3. *)
Example count_ahead_of_counters :
  let '(r, self') :=
    Interrupt.start_sniffing_on (py "20240101_000000") (fun _ _ => Ok tt)
      0 None None false (Interrupt.sniff_cut Sample.cut_after_count)
      Scenario.sniffer in
  r = Ok tt
  /\ running self' = false
  /\ packet_count self' = 4
  /\ protocol_stats self'
     = [(py "TCP", 0); (py "UDP", 0); (py "ICMP", 3); (py "Other", 0)]
  /\ length (captured_packets self') = 3%nat.
Proof. by vm_compute. Qed.

(** A session of three TCP segments cut short by the user, with the
    capture file asked for and written. *)
Example interrupted_session_is_saved :
  let capture :=
    {| frames := [Sample.https; Sample.https; Sample.https];
       ended := Interrupted |} in
  let '(r, self') :=
    start_sniffing (py "20240101_000000") (fun _ _ => Ok tt) 0 None None true
      capture Scenario.sniffer in
  r = Ok tt
  /\ running self' = false
  /\ packet_count self' = 3
  /\ protocol_stats self'
     = [(py "TCP", 3); (py "UDP", 0); (py "ICMP", 0); (py "Other", 0)]
  /\ last (emitted self')
     = Some (Stdout (py "Captured packets saved to output/sniffed_20240101_000000.pcap")).
Proof. by vm_compute. Qed.

(** ** The summary of a session *)

(** Extra X23.  [save_session_summary] writes the packet count as
    [total_packets] and the counters as [protocol_statistics], and leaves
    them alone; it returns the name of the file when the summary could be
    written and [None], with the failure logged, when writing raised an
    [Exception].  After a session whose capture ended between two calls
    of the callback the summary agrees with itself: [total_packets] is
    the number of frames handled and the sum of [protocol_statistics].
    After a session that Ctrl-C cut inside the callback right after line
    59, [total_packets] is one above that sum. *)
Theorem summary_agrees_with_counters (now isoformat : pystr)
    (wrpcap : pystr -> list Packet -> result unit)
    (dump : pystr -> Summary.SessionSummary -> result unit)
    (count : Z) (timeout : option Z) (filter_str : option pystr)
    (save_pcap : bool) (self0 : PacketSniffer) :
  let summary_file := py "output/sniff_summary_" ++ now ++ py ".json" in
  let total self :=
    Summary.total_packets
      (Summary.session_info (Summary.summary_of isoformat self)) in
  let counted self :=
    sum_values
      (Summary.protocol_statistics (Summary.summary_of isoformat self)) in
  (forall self,
     match dump summary_file (Summary.summary_of isoformat self) with
     | Ok _ =>
         Summary.save_session_summary now isoformat dump self
         = (Ok (Some summary_file),
            emits [Stdout (py "Session summary saved to: " ++ summary_file)]
              self)
     | Raise e =>
         is_Exception e = true ->
         Summary.save_session_summary now isoformat dump self
         = (Ok None,
            emits [LogError (py "Error saving session summary: ") e] self)
     end)
  /\ (forall capture : Capture,
        let handled :=
          if (0 <? count) && (count <=? Z.of_nat (length (frames capture)))
          then take (Z.to_nat count) (frames capture)
          else frames capture in
        exists r self',
          start_sniffing now wrpcap count timeout filter_str save_pcap
            capture self0
          = (r, self')
          /\ total self' = Z.of_nat (length handled)
          /\ counted self' = Z.of_nat (length handled))
  /\ (forall cut : Interrupt.Cut,
        exists r self',
          Interrupt.start_sniffing_on now wrpcap count timeout filter_str
            save_pcap (Interrupt.sniff_cut cut) self0
          = (r, self')
          /\ total self'
             = counted self'
               + match Interrupt.place cut with
                 | Interrupt.Counted => 1
                 | _ => 0
                 end).
Proof.
  intros summary_file total counted. split; [|split].
  - intros self.
    destruct (dump summary_file (Summary.summary_of isoformat self))
      as [[]|e] eqn:Hdump; [|intros He];
      unfold Summary.save_session_summary; cbv zeta;
      rewrite bind_run; unfold attr at 1; cbn beta iota;
      fold summary_file; rewrite Hdump, ?He, bind_run, emit_run;
      reflexivity.
  - intros capture handled.
    destruct (session_end now wrpcap count timeout filter_str save_pcap
                capture self0)
      as (r & self' & Hrun & _ & _ & Hcount & Hsum & _).
    fold handled in Hcount. exists r, self'. split; [exact Hrun|].
    unfold total, counted.
    cbn [Summary.summary_of Summary.session_info Summary.total_packets
         Summary.protocol_statistics].
    split; [exact Hcount|]. by rewrite Hsum.
  - intros cut.
    destruct (session_cut_end now wrpcap count timeout filter_str save_pcap
                cut self0)
      as (r & self' & Hrun & _ & Hcount & Hsum & _).
    exists r, self'. split; [exact Hrun|].
    unfold total, counted.
    cbn [Summary.summary_of Summary.session_info Summary.total_packets
         Summary.protocol_statistics].
    rewrite Hcount, Hsum. destruct (Interrupt.place cut); lia.
Qed.

End SessionFacts.

(* ===================================================================== *)
(** * More about the topology                                             *)
(* ===================================================================== *)

Section NodeFacts.
Import PyDict Networkx Topology Report.
Variable lower : pystr -> pystr.
Variable local_ips : list pystr.
Implicit Types (G : Graph) (device : Device) (w key : pystr).

(** ** The attributes of a node *)

(** The five attributes a device's node is given hide older ones. *)
Lemma device_attrs (ip mac vendor node_type label : pystr)
    (old : gmap pystr pystr) :
  let attrs : gmap pystr pystr :=
    list_to_map [(py "ip", ip); (py "mac", mac); (py "vendor", vendor);
                 (py "node_type", node_type); (py "label", label)] ∪ old in
  attrs !! py "ip" = Some ip
  /\ attrs !! py "mac" = Some mac
  /\ attrs !! py "vendor" = Some vendor
  /\ attrs !! py "node_type" = Some node_type
  /\ attrs !! py "label" = Some label.
Proof.
  intros attrs. unfold attrs.
  repeat split; apply lookup_union_Some_l;
    cbn [list_to_map foldr uncurry fst snd];
    rewrite ?lookup_insert_ne by (intros Hkey; by vm_compute in Hkey);
    apply lookup_insert_eq.
Qed.

(** One turn of the loop: the node of the device is rewritten, the other
    nodes stay. *)
Lemma add_device_node (gateway_ip : pystr) G device w :
  is_Some (_node G !! gateway_ip) ->
  _node (add_device lower local_ips gateway_ip G device) !! w
  = if decide (w = ip device)
    then Some (list_to_map
                 [(py "ip", ip device); (py "mac", mac device);
                  (py "vendor", default (py "Unknown") (vendor device));
                  (py "node_type",
                   classify_device lower (ip device) (mac device)
                     (default (py "Unknown") (vendor device))
                     gateway_ip local_ips);
                  (py "label",
                   strip (ip device ++ [10%N]
                          ++ default (py "Unknown") (vendor device) ++ [10%N]
                          ++ take 8 (mac device) ++ py "..."))]
               ∪ default ∅ (_node G !! ip device))
    else _node G !! w.
Proof.
  intros Hgw. unfold add_device. rewrite add_edge_node.
  - by rewrite add_node_lookup.
  - rewrite add_node_lookup. by destruct (decide _).
  - rewrite add_node_lookup. by rewrite decide_True.
Qed.

Lemma add_device_gateway (gateway_ip : pystr) G device :
  is_Some (_node G !! gateway_ip) ->
  is_Some (_node (add_device lower local_ips gateway_ip G device)
           !! gateway_ip).
Proof.
  intros Hgw. rewrite add_device_node by done. by destruct (decide _).
Qed.

Lemma add_devices_gateway (gateway_ip : pystr) (devices : list Device) G :
  is_Some (_node G !! gateway_ip) ->
  is_Some (_node (fold_left (add_device lower local_ips gateway_ip) devices G)
           !! gateway_ip).
Proof.
  revert G. induction devices as [|device devices IH]; intros G Hgw; [done|].
  cbn [fold_left]. by apply IH, add_device_gateway.
Qed.

(** The later turns leave the node of a device with another address. *)
Lemma add_devices_keep (gateway_ip : pystr) (devices : list Device) G w :
  is_Some (_node G !! gateway_ip) ->
  w ∉ List.map ip devices ->
  _node (fold_left (add_device lower local_ips gateway_ip) devices G) !! w
  = _node G !! w.
Proof.
  revert G. induction devices as [|device devices IH]; intros G Hgw Hw;
    [done|].
  cbn [fold_left List.map] in *. apply not_elem_of_cons in Hw as [Hne Hw].
  rewrite IH by (by apply add_device_gateway || done).
  rewrite add_device_node by done. by rewrite decide_False.
Qed.

(** The last device of a list with a given address. *)
Lemma last_with_address (devices : list Device) w :
  w ∈ List.map ip devices ->
  exists before device after,
    devices = before ++ device :: after
    /\ ip device = w
    /\ w ∉ List.map ip after.
Proof.
  induction devices as [|d devices IH]; cbn [List.map].
  - by intros ?%elem_of_nil.
  - intros Hw. destruct (decide (w ∈ List.map ip devices)) as [Hlater|Hlater].
    + destruct (IH Hlater) as (before & device & after & -> & Hip & Hlast).
      by exists (d :: before), device, after.
    + apply elem_of_cons in Hw as [->|Hw]; [|done].
      by exists [], d, devices.
Qed.

(** The node of an address in the finished graph is the node its last
    device was given. *)
Lemma graph_node_of_last (before after : list Device) device
    (gateway_ip : pystr) :
  ip device ∉ List.map ip after ->
  detect_gateway (before ++ device :: after) = Ok gateway_ip ->
  exists G old,
    create_graph_from_scan_data lower local_ips (before ++ device :: after)
    = Ok G
    /\ _node G !! ip device
       = Some (list_to_map
                 [(py "ip", ip device); (py "mac", mac device);
                  (py "vendor", default (py "Unknown") (vendor device));
                  (py "node_type",
                   classify_device lower (ip device) (mac device)
                     (default (py "Unknown") (vendor device))
                     gateway_ip local_ips);
                  (py "label",
                   strip (ip device ++ [10%N]
                          ++ default (py "Unknown") (vendor device) ++ [10%N]
                          ++ take 8 (mac device) ++ py "..."))]
               ∪ old).
Proof.
  intros Hlast Hgw. unfold create_graph_from_scan_data. rewrite Hgw.
  unfold mbind, result_bind, bind, mret, result_ret. cbv zeta.
  match goal with |- context [fold_left _ _ ?G0] => set (start := G0) end.
  assert (is_Some (_node start !! gateway_ip)) as Hstart.
  { unfold start. rewrite add_node_lookup, decide_True by done. by eexists. }
  eexists _, _. split; [reflexivity|].
  rewrite fold_left_app. cbn [fold_left].
  rewrite add_devices_keep;
    [|by apply add_device_gateway, add_devices_gateway|done].
  rewrite add_device_node by by apply add_devices_gateway.
  rewrite decide_True by done. reflexivity.
Qed.

(** Extra X9.  When several devices of a scan carry the same address the
    graph has one node for them, and the node describes the last of them:
    its [ip], [mac], [vendor] (['Unknown'] when the device has none),
    [node_type] and [label] are those of the last device of the list with
    that address. *)
Theorem node_describes_last_device (before after : list Device) device :
  ip device ∉ List.map ip after ->
  let seen := default (py "Unknown") (vendor device) in
  exists gateway_ip G,
    detect_gateway (before ++ device :: after) = Ok gateway_ip
    /\ create_graph_from_scan_data lower local_ips (before ++ device :: after)
       = Ok G
    /\ node_attr G (ip device) (py "ip") = Some (ip device)
    /\ node_attr G (ip device) (py "mac") = Some (mac device)
    /\ node_attr G (ip device) (py "vendor") = Some seen
    /\ node_attr G (ip device) (py "node_type")
       = Some (classify_device lower (ip device) (mac device) seen
                 gateway_ip local_ips)
    /\ node_attr G (ip device) (py "label")
       = Some (strip (ip device ++ [10%N] ++ seen ++ [10%N]
                      ++ take 8 (mac device) ++ py "...")).
Proof.
  intros Hlast seen.
  destruct (before ++ device :: after) as [|first others] eqn:Hdata.
  { by destruct before. }
  destruct (detect_gateway_elem first others) as (gateway_ip & Hgw & _).
  rewrite <- Hdata in *.
  destruct (graph_node_of_last before after device gateway_ip Hlast Hgw)
    as (G & old & HG & Hnode).
  exists gateway_ip, G. do 2 (split; [done|]).
  unfold node_attr. rewrite Hnode. cbn [mbind option_bind].
  apply (device_attrs (ip device) (mac device) seen).
Qed.

(** ** The node of the gateway *)

(** Extra X10.  The gateway is one of the devices, so the attributes
    its node is created with, [mac='Gateway'] and the label
    ['Gateway\n<ip>'], are always replaced: in the graph of a scan that
    is not empty the node of the gateway carries the [mac] and the label
    of a scanned device with that address, and is still typed as the
    gateway. *)
Theorem gateway_placeholder_is_replaced (scan_data : list Device) :
  scan_data <> [] ->
  exists gateway_ip G device,
    detect_gateway scan_data = Ok gateway_ip
    /\ create_graph_from_scan_data lower local_ips scan_data = Ok G
    /\ device ∈ scan_data
    /\ ip device = gateway_ip
    /\ node_attr G gateway_ip (py "mac") = Some (mac device)
    /\ node_attr G gateway_ip (py "label")
       = Some (strip (ip device ++ [10%N]
                      ++ default (py "Unknown") (vendor device) ++ [10%N]
                      ++ take 8 (mac device) ++ py "..."))
    /\ node_attr G gateway_ip (py "node_type") = Some (py "gateway").
Proof.
  destruct scan_data as [|first others]; [done|]. intros _.
  destruct (detect_gateway_elem first others) as (gateway_ip & Hgw & Hin).
  destruct (last_with_address _ _ Hin)
    as (before & device & after & Hdata & Hip & Hlast).
  rewrite Hdata in *. subst gateway_ip.
  destruct (graph_node_of_last before after device (ip device) Hlast Hgw)
    as (G & old & HG & Hnode).
  exists (ip device), G, device. do 2 (split; [done|]).
  split; [apply elem_of_app; right; apply elem_of_cons; by left|].
  split; [done|]. unfold node_attr. rewrite Hnode.
  cbn [mbind option_bind].
  destruct (device_attrs (ip device) (mac device)
              (default (py "Unknown") (vendor device))
              (classify_device lower (ip device) (mac device)
                 (default (py "Unknown") (vendor device))
                 (ip device) local_ips)
              (strip (ip device ++ [10%N]
                      ++ default (py "Unknown") (vendor device) ++ [10%N]
                      ++ take 8 (mac device) ++ py "...")) old)
    as (_ & Hmac & _ & Htype & Hlabel).
  split; [exact Hmac|]. split; [exact Hlabel|].
  rewrite Htype. f_equal.
  unfold classify_device. by rewrite bool_decide_eq_true_2.
Qed.

(** ** Colours and sizes *)

Lemma classify_device_colour (ip mac vendor gateway_ip : pystr) :
  let node_type := classify_device lower ip mac vendor gateway_ip local_ips in
  exists colour,
    find node_type node_colors = Some colour
    /\ colour ∈ values node_colors
    /\ (colour = py "#D7263D" <-> node_type = py "gateway").
Proof.
  intros node_type. unfold node_type, classify_device.
  repeat (case_bool_decide || destruct (existsb _ _));
    (eexists; split; [by vm_compute|];
     split; [vm_compute; set_cases|];
     split; intros Heq; by vm_compute in Heq).
Qed.

(** Extra X11.  Every node of the graph of a scan has one of the five
    colours of the palette; the fallback colour ['#888'] is never used.
    The gateway is the one red node, and the one node of size 2600. *)
Theorem node_colour_is_from_palette (scan_data : list Device) :
  scan_data <> [] ->
  exists gateway_ip G,
    detect_gateway scan_data = Ok gateway_ip
    /\ create_graph_from_scan_data lower local_ips scan_data = Ok G
    /\ forall w, has_node G w = true ->
         node_color G w ∈ values node_colors
         /\ node_color G w <> py "#888"
         /\ (node_color G w = py "#D7263D" <-> w = gateway_ip)
         /\ node_size G w = (if decide (w = gateway_ip) then 2600 else 1500).
Proof.
  destruct scan_data as [|first others]; [done|]. intros _.
  destruct (create_graph_shape lower local_ips first others)
    as (gateway_ip & G & Hgw & _ & HG & _ & Hnodes & Htypes).
  exists gateway_ip, G. do 2 (split; [done|]). intros w Hw.
  apply Hnodes in Hw.
  destruct (last_with_address _ _ Hw)
    as (before & device & after & Hdata & Hip & Hlast).
  rewrite Hdata in *. rewrite <- Hip in Hlast.
  destruct (graph_node_of_last before after device gateway_ip Hlast Hgw)
    as (G' & old & HG' & Hnode).
  rewrite HG in HG'. injection HG' as <-.
  assert (node_attr G w (py "node_type")
          = Some (classify_device lower (ip device) (mac device)
                    (default (py "Unknown") (vendor device))
                    gateway_ip local_ips)) as Htype.
  { unfold node_attr. rewrite <- Hip, Hnode. cbn [mbind option_bind].
    apply (device_attrs (ip device) (mac device)
             (default (py "Unknown") (vendor device))). }
  destruct (classify_device_colour (ip device) (mac device)
              (default (py "Unknown") (vendor device)) gateway_ip)
    as (colour & Hfind & Hpalette & Hred).
  assert (node_color G w = colour) as ->.
  { unfold node_color. rewrite Htype. cbn [default from_option id].
    by rewrite Hfind. }
  split; [done|]. split.
  { intros ->.
    assert (bool_decide (py "#888" ∈ values node_colors) = false) as Hno
      by (by vm_compute).
    by apply bool_decide_eq_false_1 in Hno. }
  split.
  - split.
    + intros Hcolour. apply Htypes. rewrite Htype. f_equal. by apply Hred.
    + intros Hgateway. apply Hred. apply Htypes in Hgateway.
      rewrite Htype in Hgateway. by injection Hgateway.
  - unfold node_size. destruct (decide (w = gateway_ip)) as [Hgateway|Hother].
    + apply Htypes in Hgateway. by rewrite bool_decide_eq_true_2.
    + rewrite bool_decide_eq_false_2; [done|].
      intros Hgateway. by apply Htypes in Hgateway.
Qed.

(** ** The graph of an empty scan *)

(** Extra X12.  Called with an empty list, [create_graph_from_scan_data]
    does not fail: it returns the graph of the one node [192.168.1.1],
    typed as the gateway, with the attributes the node was created with
    and without an edge. *)
Theorem graph_of_empty_scan :
  exists G,
    create_graph_from_scan_data lower local_ips [] = Ok G
    /\ (forall w, has_node G w = true <-> w = py "192.168.1.1")
    /\ (forall w, neighbours G w = ∅)
    /\ node_attr G (py "192.168.1.1") (py "node_type") = Some (py "gateway")
    /\ node_attr G (py "192.168.1.1") (py "mac") = Some (py "Gateway")
    /\ node_attr G (py "192.168.1.1") (py "label")
       = Some (py "Gateway" ++ [10%N] ++ py "192.168.1.1").
Proof.
  eexists. split; [reflexivity|].
  cbn [fold_left]. split; [|split].
  - intros w. unfold has_node. rewrite bool_decide_eq_true, add_node_lookup.
    cbn [_node Networkx.empty]. destruct (decide _) as [->|Hne].
    + split; [done|]. by eexists.
    + rewrite lookup_empty. split; [by intros [? ?]|done].
  - intros w. rewrite add_node_neighbours by apply consistent_empty.
    unfold neighbours. cbn [_adj Networkx.empty]. by rewrite lookup_empty.
  - unfold node_attr. rewrite add_node_lookup, decide_True by done.
    cbn [mbind option_bind list_to_map foldr uncurry fst snd].
    repeat split; apply lookup_union_Some_l;
      rewrite ?lookup_insert_ne by (intros Hkey; by vm_compute in Hkey);
      apply lookup_insert_eq.
Qed.

End NodeFacts.

Lemma node_describes_last_device_witness :
  (py "192.168.1.7" ∉ List.map ip ([] : list Device))
  /\ exists gateway_ip G,
       Topology.detect_gateway Sample.readdressed = Ok gateway_ip
       /\ Topology.create_graph_from_scan_data (fun s => s) []
            Sample.readdressed
          = Ok G
       /\ Networkx.node_attr G (py "192.168.1.7") (py "mac")
          = Some (py "bb:bb:bb:bb:bb:bb").
Proof.
  split; [apply not_elem_of_nil|].
  destruct (node_describes_last_device (fun s => s) []
              (take 2 Sample.readdressed) []
              {| ip := py "192.168.1.7"; mac := py "bb:bb:bb:bb:bb:bb";
                 vendor := None |})
    as (gateway_ip & G & Hgw & HG & _ & Hmac & _).
  - apply not_elem_of_nil.
  - by exists gateway_ip, G.
Defined.

Lemma gateway_placeholder_is_replaced_witness :
  Sample.readdressed <> []
  /\ exists gateway_ip G device,
       Topology.detect_gateway Sample.readdressed = Ok gateway_ip
       /\ Topology.create_graph_from_scan_data (fun s => s) []
            Sample.readdressed
          = Ok G
       /\ ip device = gateway_ip
       /\ Networkx.node_attr G gateway_ip (py "mac") = Some (mac device).
Proof.
  split; [done|].
  destruct (gateway_placeholder_is_replaced (fun s => s) []
              Sample.readdressed)
    as (gateway_ip & G & device & Hgw & HG & _ & Hip & Hmac & _); [done|].
  by exists gateway_ip, G, device.
Defined.

Lemma node_colour_is_from_palette_witness :
  Scenario.devices <> []
  /\ exists gateway_ip G,
       Topology.detect_gateway Scenario.devices = Ok gateway_ip
       /\ Topology.create_graph_from_scan_data (fun s => s) []
            Scenario.devices
          = Ok G
       /\ forall w, Networkx.has_node G w = true ->
            Report.node_color G w <> py "#888".
Proof.
  split; [done|].
  destruct (node_colour_is_from_palette (fun s => s) [] Scenario.devices)
    as (gateway_ip & G & Hgw & HG & Hcolour); [done|].
  exists gateway_ip, G. do 2 (split; [done|]).
  intros w Hw. by destruct (Hcolour w Hw) as (_ & Hfallback & _).
Defined.

(* ===================================================================== *)
(** * The statistics and the report                                       *)
(* ===================================================================== *)

Section OrderFacts.
Import Report.
Implicit Types (a b c x : pystr) (l : list pystr).

Lemma str_lt_irrefl a : str_lt a a = false.
Proof.
  induction a as [|x a IH]; [done|]. cbn [str_lt].
  by rewrite N.ltb_irrefl, N.eqb_refl, IH.
Qed.

Lemma str_lt_trans a b c :
  str_lt a b = true -> str_lt b c = true -> str_lt a c = true.
Proof.
  revert b c. induction a as [|x a IH]; intros [|y b] [|z c]; cbn [str_lt];
    try done.
  rewrite !orb_true_iff, !andb_true_iff, !N.ltb_lt, !N.eqb_eq.
  intros [Hxy|[-> Hab]] [Hyz|[-> Hbc]].
  - left. lia.
  - by left.
  - by left.
  - right. split; [done|]. by apply (IH b).
Qed.

Lemma str_lt_total a b :
  str_lt a b = false -> str_lt b a = false -> a = b.
Proof.
  revert b. induction a as [|x a IH]; intros [|y b]; cbn [str_lt];
    try done.
  rewrite !orb_false_iff, !andb_false_iff, !N.ltb_ge, !N.eqb_neq.
  intros [Hxy Hab] [Hyx Hba].
  assert (x = y) as -> by lia.
  f_equal. apply IH; tauto.
Qed.

(** [a <= b] is [not (b < a)]; it is transitive. *)
Lemma str_le_trans a b c :
  str_lt b a = false -> str_lt c b = false -> str_lt c a = false.
Proof.
  intros Hab Hbc. destruct (str_lt c a) eqn:Hca; [|done].
  destruct (str_lt a b) eqn:Hlt.
  - by rewrite (str_lt_trans c a b Hca Hlt) in Hbc.
  - rewrite (str_lt_total a b Hlt Hab) in Hca. congruence.
Qed.

Lemma insort_perm x l : insort x l ≡ₚ x :: l.
Proof.
  induction l as [|y l IH]; cbn [insort]; [done|].
  destruct (str_lt x y); [done|]. rewrite IH. apply Permutation_swap.
Qed.

Lemma insort_sorted x l :
  StronglySorted (fun a b => str_lt b a = false) l ->
  StronglySorted (fun a b => str_lt b a = false) (insort x l).
Proof.
  induction l as [|y l IH]; cbn [insort]; intros Hl.
  - by repeat constructor.
  - apply StronglySorted_inv in Hl as [Hl Hy].
    destruct (str_lt x y) eqn:Hxy.
    + constructor; [by constructor|].
      assert (str_lt y x = false) as Hyx.
      { destruct (str_lt y x) eqn:Hyx; [|done].
        by rewrite <- (str_lt_irrefl x), (str_lt_trans x y x Hxy Hyx). }
      constructor; [done|].
      eapply Forall_impl; [exact Hy|]. intros z Hz.
      by apply (str_le_trans x y z).
    + constructor; [by apply IH|].
      rewrite insort_perm. by constructor.
Qed.

Lemma sorted_spec l :
  sorted l ≡ₚ l /\ StronglySorted (fun a b => str_lt b a = false) (sorted l).
Proof.
  unfold sorted.
  assert (forall ready,
            StronglySorted (fun a b => str_lt b a = false) ready ->
            fold_left (fun ready x => insort x ready) l ready ≡ₚ ready ++ l
            /\ StronglySorted (fun a b => str_lt b a = false)
                 (fold_left (fun ready x => insort x ready) l ready)) as Hfold.
  { induction l as [|x l IH]; intros ready Hready; cbn [fold_left].
    - by rewrite app_nil_r.
    - destruct (IH (insort x ready) (insort_sorted x ready Hready))
        as [Hperm Hsorted].
      split; [|done]. rewrite Hperm, insort_perm.
      by rewrite <- Permutation_middle. }
  destruct (Hfold [] (SSorted_nil _)) as [Hperm Hsorted]. by split.
Qed.

(** The ends of a sorted list. *)
Lemma sorted_ends first rest d :
  StronglySorted (fun a b => str_lt b a = false) (first :: rest) ->
  List.last (first :: rest) d ∈ first :: rest
  /\ forall x, x ∈ first :: rest ->
       str_lt x first = false
       /\ str_lt (List.last (first :: rest) d) x = false.
Proof.
  revert first. induction rest as [|y rest IH]; intros first Hsorted.
  - cbn [List.last]. split; [by apply elem_of_cons; left|].
    intros x [->|[]%elem_of_nil]%elem_of_cons. by rewrite str_lt_irrefl.
  - apply StronglySorted_inv in Hsorted as [Hrest Hfirst].
    destruct (IH y Hrest) as [Hin Hlast].
    change (List.last (first :: y :: rest) d) with (List.last (y :: rest) d).
    split; [apply elem_of_cons; by right|].
    intros x [->|Hx]%elem_of_cons.
    + split; [apply str_lt_irrefl|].
      apply Forall_cons in Hfirst as [Hfy _].
      destruct (Hlast y) as [_ Hylast]; [apply elem_of_cons; by left|].
      by apply (str_le_trans first y).
    + destruct (Hlast x Hx) as [_ Hxlast]. split; [|done].
      rewrite Forall_forall in Hfirst. by apply Hfirst.
Qed.

End OrderFacts.

Section StatsFacts.
Import PyDict Topology Report.
Implicit Types (scan_data : list Device) (vendor_count : pydict Z).

(** ** The vendor counts *)

Lemma sum_values_setitem_new key (v : Z) (d : pydict Z) :
  find key d = None -> sum_values (setitem key v d) = sum_values d + v.
Proof.
  unfold sum_values, values.
  induction d as [|[k u] d IH]; cbn [find setitem List.map fold_right snd].
  - intros _. lia.
  - destruct (decide (k = key)) as [->|Hk]; [done|].
    intros Hnone. cbn [List.map fold_right snd]. rewrite (IH Hnone). lia.
Qed.

Lemma count_vendor_sum vendor_count device :
  sum_values (count_vendor vendor_count device) = sum_values vendor_count + 1.
Proof.
  unfold count_vendor.
  destruct (find (default (py "Unknown") (vendor device)) vendor_count)
    as [n|] eqn:Hfind.
  - rewrite (sum_values_setitem _ _ n) by done. cbn [default from_option id].
    lia.
  - rewrite sum_values_setitem_new by done. cbn [default from_option id]. lia.
Qed.

Lemma count_vendors_sum scan_data vendor_count :
  sum_values (fold_left count_vendor scan_data vendor_count)
  = sum_values vendor_count + Z.of_nat (length scan_data).
Proof.
  revert vendor_count.
  induction scan_data as [|device scan_data IH]; intros vendor_count;
    cbn [fold_left length].
  - lia.
  - rewrite IH, count_vendor_sum. lia.
Qed.

Lemma count_vendors_find scan_data vendor_count (v : pystr) :
  let n := Z.of_nat (length (filter
                               (fun d => default (py "Unknown") (vendor d) = v)
                               scan_data)) in
  find v (fold_left count_vendor scan_data vendor_count)
  = if decide (n = 0) then find v vendor_count
    else Some (default 0 (find v vendor_count) + n).
Proof.
  revert vendor_count.
  induction scan_data as [|device scan_data IH]; intros vendor_count;
    cbn [fold_left]; [done|].
  rewrite IH. rewrite filter_cons. unfold count_vendor.
  destruct (decide (default (py "Unknown") (vendor device) = v)) as [Hv|Hv].
  - rewrite Hv, find_setitem_eq. cbn [length default from_option id].
    repeat destruct (decide _); try lia; f_equal; lia.
  - rewrite find_setitem_ne by done. reflexivity.
Qed.

(** ** The dictionary of statistics *)

Lemma generate_network_stats_run scan_data :
  scan_data <> [] ->
  exists first last,
    generate_network_stats scan_data
    = Some {| total_devices := Z.of_nat (length scan_data);
              vendor_distribution := fold_left count_vendor scan_data [];
              ip_range := [(py "first", first); (py "last", last)] |}
    /\ first ∈ List.map ip scan_data
    /\ last ∈ List.map ip scan_data
    /\ forall d, d ∈ scan_data ->
         str_lt (ip d) first = false /\ str_lt last (ip d) = false.
Proof.
  intros Hdata. unfold generate_network_stats.
  rewrite bool_decide_eq_false_2 by done. cbv zeta.
  destruct (sorted_spec (List.map ip scan_data)) as [Hperm Hsorted].
  destruct (sorted (List.map ip scan_data)) as [|first rest] eqn:Hips.
  { apply Permutation_nil_l in Hperm.
    destruct scan_data; [done|discriminate Hperm]. }
  destruct (sorted_ends first rest first Hsorted) as [Hlast Hends].
  exists first, (List.last (first :: rest) first).
  split; [done|]. split; [|split].
  - rewrite <- Hperm. apply elem_of_cons. by left.
  - by rewrite <- Hperm.
  - intros d Hd. apply Hends. rewrite Hperm. by apply elem_of_map.
Qed.

(** Extra X13.  For a scan that is not empty the statistics count every
    device once: [total_devices] is the length of the list, the counts of
    [vendor_distribution] add up to it, and the count of a vendor is the
    number of devices with that vendor, a device without one counting
    under ['Unknown']; a vendor no device has is no key. *)
Theorem vendor_distribution_counts scan_data :
  scan_data <> [] ->
  exists stats,
    generate_network_stats scan_data = Some stats
    /\ total_devices stats = Z.of_nat (length scan_data)
    /\ sum_values (vendor_distribution stats) = total_devices stats
    /\ forall v,
         let n := Z.of_nat (length (filter
                                      (fun d =>
                                         default (py "Unknown") (vendor d) = v)
                                      scan_data)) in
         find v (vendor_distribution stats)
         = if decide (n = 0) then None else Some n.
Proof.
  intros Hdata.
  destruct (generate_network_stats_run scan_data Hdata)
    as (first & last & Hstats & _).
  eexists. split; [exact Hstats|].
  cbn [total_devices vendor_distribution]. split; [done|]. split.
  - rewrite count_vendors_sum. reflexivity.
  - intros v. cbv zeta. rewrite count_vendors_find.
    cbn [find default from_option id]. by destruct (decide _).
Qed.

(** Extra X14.  The ends of [ip_range] are the least and the greatest
    address of the scan in the order of strings, which compares code
    points and not numbers: both are addresses of the scan, no address
    is less than [first] and none is greater than [last]. *)
Theorem ip_range_is_in_text_order scan_data :
  scan_data <> [] ->
  exists stats first last,
    generate_network_stats scan_data = Some stats
    /\ ip_range stats = [(py "first", first); (py "last", last)]
    /\ first ∈ List.map ip scan_data
    /\ last ∈ List.map ip scan_data
    /\ forall d, d ∈ scan_data ->
         str_lt (ip d) first = false /\ str_lt last (ip d) = false.
Proof.
  intros Hdata.
  destruct (generate_network_stats_run scan_data Hdata)
    as (first & last & Hstats & Hends).
  eexists _, first, last. split; [exact Hstats|]. by split.
Qed.

(** Of the addresses [192.168.1.9] and [192.168.1.10] the second is the
    first of the range. *)
Example ip_range_of_nine_and_ten :
  ip_range <$> generate_network_stats Sample.numbered
  = Some [(py "first", py "192.168.1.10"); (py "last", py "192.168.1.9")].
Proof. by vm_compute. Qed.

End StatsFacts.

Lemma vendor_distribution_counts_witness :
  Sample.readdressed <> []
  /\ exists stats,
       Report.generate_network_stats Sample.readdressed = Some stats
       /\ Report.total_devices stats = 3
       /\ PyDict.sum_values (Report.vendor_distribution stats) = 3.
Proof.
  split; [done|].
  destruct (vendor_distribution_counts Sample.readdressed)
    as (stats & Hstats & Htotal & Hsum & _); [done|].
  exists stats. split; [done|]. rewrite Hsum, Htotal. by split.
Defined.

Lemma ip_range_is_in_text_order_witness :
  Sample.numbered <> []
  /\ exists stats first last,
       Report.generate_network_stats Sample.numbered = Some stats
       /\ Report.ip_range stats = [(py "first", first); (py "last", last)]
       /\ Report.str_lt (py "192.168.1.9") first = false
       /\ Report.str_lt last (py "192.168.1.10") = false.
Proof.
  split; [done|].
  destruct (ip_range_is_in_text_order Sample.numbered)
    as (stats & first & last & Hstats & Hrange & _ & _ & Hends); [done|].
  exists stats, first, last. do 2 (split; [done|]). split.
  - apply (Hends {| ip := py "192.168.1.9"; mac := py "00:11:22:33:44:55";
                    vendor := Some (py "Apple") |}).
    apply elem_of_cons. by left.
  - apply (Hends {| ip := py "192.168.1.10"; mac := py "00:aa:bb:cc:dd:ee";
                    vendor := Some (py "Apple") |}).
    apply elem_of_cons. right. apply elem_of_cons. by left.
Defined.

(** ** The report *)

Section ReportFacts.
Import PyDict Topology Report.
Variable now : pystr.
Variable today : pystr.
Variable open : pystr -> result unit.
Implicit Types (scan_data : list Device) (out : Output).

Lemma write_run (text : pystr) out :
  write text out
  = (Ok tt, {| written := written out ++ [text]; stdout := stdout out |}).
Proof. reflexivity. Qed.

Lemma for_each_write {A} (xs : list A) (row : A -> pystr)
    (body : A -> Method Output unit) out :
  (forall x out', body x out' = write (row x) out') ->
  for_each xs body out
  = (Ok tt, {| written := written out ++ List.map row xs;
               stdout := stdout out |}).
Proof.
  intros Hbody. revert out.
  induction xs as [|x xs IH]; intros out; cbn [for_each List.map].
  - rewrite app_nil_r. by destruct out.
  - rewrite bind_run, Hbody, write_run. cbn beta iota. rewrite IH.
    cbn [written stdout]. by rewrite <- app_assoc.
Qed.

(** Extra X15.  For an empty scan [create_detailed_report] fails with
    [KeyError('total_devices')]: the statistics of an empty scan are the
    empty dictionary.  By then the file has been opened and holds the
    title and the date; nothing is printed. *)
Theorem report_of_empty_scan_raises (self : TopologyVisualizer)
    (extra_stats : option (pydict pystr)) out :
  open (path_join (output_dir self)
          (py "network_report_" ++ now ++ py ".txt")) = Ok tt ->
  create_detailed_report now today open self [] extra_stats out
  = (Raise (KeyError (py "total_devices")),
     {| written := written out
                   ++ [py "NETWORK TOPOLOGY REPORT" ++ [10%N]
                       ++ Sniffer.times (py "=") 27 ++ [10%N];
                       py "Generated: " ++ today ++ [10%N]];
        stdout := stdout out |}).
Proof.
  intros Hopen. unfold create_detailed_report. cbv zeta.
  change (generate_network_stats []) with (@None NetworkStats).
  rewrite bind_run. unfold lift at 1. rewrite Hopen. cbn beta iota.
  rewrite bind_run, write_run. cbn beta iota.
  rewrite bind_run, write_run. cbn beta iota.
  rewrite bind_run. unfold lift at 1. cbn [stats_item]. cbn beta iota.
  cbn [written stdout]. by rewrite <- app_assoc.
Qed.

(** Extra X16.  For a scan that is not empty the report is written and
    its path returned: after the title and the date come the number of
    devices, the range of addresses, one line for every device of the
    scan in the order of the scan, one line for every vendor with its
    count, and the extra statistics when there are any; the path is
    printed at the end. *)
Theorem report_lists_every_device (self : TopologyVisualizer) scan_data
    (extra_stats : option (pydict pystr)) out :
  let report_file :=
    path_join (output_dir self) (py "network_report_" ++ now ++ py ".txt") in
  scan_data <> [] ->
  open report_file = Ok tt ->
  exists stats first last,
    generate_network_stats scan_data = Some stats
    /\ ip_range stats = [(py "first", first); (py "last", last)]
    /\ create_detailed_report now today open self scan_data extra_stats out
       = (Ok report_file,
          {| written :=
               written out
               ++ [py "NETWORK TOPOLOGY REPORT" ++ [10%N]
                   ++ Sniffer.times (py "=") 27 ++ [10%N];
                   py "Generated: " ++ today ++ [10%N];
                   py "Total Devices: "
                   ++ str_of_int (Z.of_nat (length scan_data)) ++ [10%N];
                   py "IP Range: " ++ first ++ py " - " ++ last ++ [10%N];
                   [10%N] ++ py "DEVICE DETAILS:" ++ [10%N]
                   ++ Sniffer.times (py "-") 17 ++ [10%N]]
               ++ List.map (fun d =>
                              py "IP: " ++ ip d ++ py " | MAC: " ++ mac d
                              ++ py " | Vendor: "
                              ++ default (py "Unknown") (vendor d) ++ [10%N])
                           scan_data
               ++ [[10%N] ++ py "VENDOR DISTRIBUTION:" ++ [10%N]
                   ++ Sniffer.times (py "-") 22 ++ [10%N]]
               ++ List.map (fun '(v, c) =>
                              v ++ py ": " ++ str_of_int c
                              ++ py " device(s)" ++ [10%N])
                           (vendor_distribution stats)
               ++ match extra_stats with
                  | Some ((k, val) :: rest) =>
                      ([10%N] ++ py "EXTRA STATS:" ++ [10%N]
                       ++ Sniffer.times (py "-") 15 ++ [10%N])
                      :: List.map (fun '(k, val) =>
                                     k ++ py ": " ++ val ++ [10%N])
                                  ((k, val) :: rest)
                  | _ => []
                  end;
             stdout := stdout out
                       ++ [py "Detailed report saved as: " ++ report_file] |}).
Proof.
  intros report_file Hdata Hopen.
  destruct (generate_network_stats_run scan_data Hdata)
    as (first & last & Hstats & _).
  eexists _, first, last. split; [exact Hstats|]. split; [reflexivity|].
  unfold create_detailed_report. cbv zeta. rewrite Hstats. fold report_file.
  rewrite bind_run. unfold lift at 1. rewrite Hopen. cbn beta iota.
  rewrite bind_run, write_run. cbn beta iota.
  rewrite bind_run, write_run. cbn beta iota.
  rewrite bind_run. unfold lift at 1. cbn [stats_item total_devices].
  cbn beta iota.
  rewrite bind_run, write_run. cbn beta iota.
  rewrite bind_run, bind_run. unfold lift at 1. cbn [stats_item ip_range].
  cbn beta iota. rewrite write_run. cbn beta iota.
  cbn [find]. rewrite decide_True by done.
  rewrite decide_False by (intros Hkey; by vm_compute in Hkey).
  rewrite decide_True by done. cbn [default from_option id].
  rewrite bind_run, write_run. cbn beta iota.
  rewrite bind_run.
  rewrite (for_each_write scan_data
             (fun d =>
                py "IP: " ++ ip d ++ py " | MAC: " ++ mac d
                ++ py " | Vendor: "
                ++ default (py "Unknown") (vendor d) ++ [10%N]))
    by done.
  cbn beta iota.
  rewrite bind_run. unfold lift at 1.
  cbn [stats_item vendor_distribution]. cbn beta iota.
  rewrite bind_run, write_run. cbn beta iota.
  rewrite bind_run.
  rewrite (for_each_write _
             (fun '(v, c) =>
                v ++ py ": " ++ str_of_int c ++ py " device(s)" ++ [10%N]))
    by (by intros [v c] ?).
  cbn beta iota. cbn [written stdout].
  destruct extra_stats as [[|[k val] rest]|].
  - rewrite bind_run. unfold mret, method_ret. cbn beta iota.
    rewrite bind_run. unfold say, assign, mret, method_ret. cbn beta iota.
    cbn [written stdout]. rewrite app_nil_r, <- !app_assoc. reflexivity.
  - rewrite !bind_run, write_run. cbn beta iota.
    rewrite (for_each_write _
               (fun '(k, val) => k ++ py ": " ++ val ++ [10%N]))
      by (by intros [? ?] ?).
    cbn beta iota.
    rewrite bind_run. unfold say, assign, mret, method_ret. cbn beta iota.
    cbn [written stdout]. rewrite <- !app_assoc. reflexivity.
  - rewrite bind_run. unfold mret, method_ret. cbn beta iota.
    rewrite bind_run. unfold say, assign, mret, method_ret. cbn beta iota.
    cbn [written stdout]. rewrite app_nil_r, <- !app_assoc. reflexivity.
Qed.

End ReportFacts.

Lemma report_of_empty_scan_raises_witness :
  (fun _ : pystr => Ok tt)
    (Topology.path_join (Topology.output_dir Topology.init)
       (py "network_report_" ++ py "20240101_000000" ++ py ".txt"))
  = Ok tt
  /\ fst (Report.create_detailed_report (py "20240101_000000")
            (py "2024-01-01 00:00:00.000000") (fun _ => Ok tt)
            Topology.init [] None
            {| Report.written := []; Report.stdout := [] |})
     = Raise (KeyError (py "total_devices")).
Proof.
  split; [reflexivity|].
  by rewrite (report_of_empty_scan_raises (py "20240101_000000")
                (py "2024-01-01 00:00:00.000000") (fun _ => Ok tt)
                Topology.init None
                {| Report.written := []; Report.stdout := [] |} eq_refl).
Defined.

Lemma report_lists_every_device_witness :
  Sample.readdressed <> []
  /\ (fun _ : pystr => Ok tt)
       (Topology.path_join (Topology.output_dir Topology.init)
          (py "network_report_" ++ py "20240101_000000" ++ py ".txt"))
     = Ok tt
  /\ fst (Report.create_detailed_report (py "20240101_000000")
            (py "2024-01-01 00:00:00.000000") (fun _ => Ok tt)
            Topology.init Sample.readdressed None
            {| Report.written := []; Report.stdout := [] |})
     = Ok (py "output/network_report_20240101_000000.txt").
Proof.
  split; [done|]. split; [reflexivity|].
  destruct (report_lists_every_device (py "20240101_000000")
              (py "2024-01-01 00:00:00.000000") (fun _ => Ok tt)
              Topology.init Sample.readdressed None
              {| Report.written := []; Report.stdout := [] |})
    as (stats & first & last & _ & _ & ->); [done|reflexivity|].
  by vm_compute.
Defined.

(* ===================================================================== *)
(** * More about the scanner                                              *)
(* ===================================================================== *)

Section ScanMenuFacts.
Import Scanner ScanMenu.
Variable int : pystr -> result Z.
Variable gateways : option (pystr * pystr).
Variable ifaddresses : pystr -> result (option (list Address)).
Variable gethostbyname_ex : pystr -> result (list pystr).
Variable srp : pystr -> Z -> Z -> list (pystr * ARP).
Variable now : pystr.
Variable dump : pystr -> list Device -> result unit.
Implicit Types (console : Console) (target : pystr).

Lemma print_run (line : pystr) console :
  print line console
  = (Ok tt, {| stdin := stdin console; stdout := stdout console ++ [line];
               files := files console |}).
Proof. reflexivity. Qed.

(** ** The loop over the targets *)

Lemma scan_all_run (scan_targets : list pystr) (all_devices : list Device)
    console :
  let cidr target :=
    if contains (py "/") target then target else target ++ py "/32" in
  scan_all srp scan_targets all_devices console
  = (Ok (all_devices
         ++ concat (List.map (fun target => perform_arp_scan srp (cidr target))
                      scan_targets)),
     {| stdin := stdin console;
        stdout := stdout console
                  ++ List.map (fun target =>
                                 py "Scanning subnet: " ++ cidr target)
                       scan_targets;
        files := files console |}).
Proof.
  intros cidr. revert all_devices console.
  induction scan_targets as [|target scan_targets IH];
    intros all_devices console; cbn [scan_all List.map concat].
  - rewrite !app_nil_r. by destruct console.
  - rewrite bind_run.
    assert ((if contains (py "/") target then scan srp target
             else scan srp (target ++ py "/32")) console
            = (Ok (perform_arp_scan srp (cidr target)),
               {| stdin := stdin console;
                  stdout := stdout console
                            ++ [py "Scanning subnet: " ++ cidr target];
                  files := files console |})) as ->.
    { unfold cidr, scan. destruct (contains (py "/") target);
        by rewrite bind_run, print_run. }
    cbn beta iota. rewrite IH. cbn [stdin stdout files].
    by rewrite <- !app_assoc.
Qed.

(** Extra X17.  Once the targets are chosen the menu scans each of them
    in turn, a target without a slash as the single host [target/32], and
    saves the answers of all the scans one after the other, nothing
    merged and nothing dropped; the number it prints is the number of
    entries saved.  It returns [None]. *)
Theorem menu_saves_every_answer console (scan_targets : list pystr)
    console1 :
  let cidr target :=
    if contains (py "/") target then target else target ++ py "/32" in
  let all_devices :=
    concat (List.map (fun target => perform_arp_scan srp (cidr target))
              scan_targets) in
  let result_file := py "output/scan_results_" ++ now ++ py ".json" in
  choose_targets int gateways ifaddresses gethostbyname_ex console
  = (Ok (Some scan_targets), console1) ->
  dump result_file all_devices = Ok tt ->
  scan_network_menu int gateways ifaddresses gethostbyname_ex srp now dump
    console
  = (Ok None,
     {| stdin := stdin console1;
        stdout := stdout console1
                  ++ List.map (fun target =>
                                 py "Scanning subnet: " ++ cidr target)
                       scan_targets
                  ++ [py "Scan completed. "
                      ++ str_of_int (Z.of_nat (length all_devices))
                      ++ py " device(s) found.";
                      py "Results saved to " ++ result_file];
        files := files console1 ++ [(result_file, all_devices)] |}).
Proof.
  intros cidr all_devices result_file Hchosen Hdump.
  subst cidr all_devices result_file. cbv beta zeta in Hdump |- *.
  unfold scan_network_menu. rewrite bind_run, Hchosen. cbn beta iota.
  rewrite bind_run, scan_all_run. cbv beta iota zeta.
  rewrite app_nil_l.
  rewrite bind_run. unfold save. rewrite bind_run. unfold lift at 1.
  rewrite Hdump. cbn beta iota. unfold assign at 1. cbn beta iota.
  rewrite bind_run, print_run. cbn beta iota.
  rewrite bind_run, print_run. cbn beta iota.
  cbn [stdin stdout files]. by rewrite <- !app_assoc.
Qed.

(** ** What the menu returns *)

Lemma scan_network_menu_none console :
  exists r console',
    scan_network_menu int gateways ifaddresses gethostbyname_ex srp now dump
      console
    = (r, console')
    /\ (r = Ok None \/ exists e, r = Raise e).
Proof.
  unfold scan_network_menu. rewrite bind_run.
  destruct (choose_targets _ _ _ _ console) as [[[scan_targets|]|e] console1];
    cbn beta iota.
  - rewrite bind_run, scan_all_run. cbn beta iota. cbv zeta.
    rewrite bind_run. unfold save. rewrite bind_run. unfold lift at 1.
    destruct (dump _ _) as [[]|e]; cbn beta iota.
    + unfold assign at 1. cbn beta iota.
      rewrite bind_run, print_run. cbn beta iota.
      rewrite bind_run, print_run. cbn beta iota.
      eexists _, _. split; [reflexivity|]. by left.
    + eexists _, _. split; [reflexivity|]. right. by eexists.
  - eexists _, _. split; [reflexivity|]. by left.
  - eexists _, _. split; [reflexivity|]. right. by eexists.
Qed.

Section Suite.
Variables CYAN RED LIGHTRED_EX LIGHTGREEN_EX LIGHTWHITE_EX BRIGHT : pystr.
Variable describe : exn -> pystr.

(** Extra X18.  [scan_network] of the suite never reports scanned
    devices: the menu of the scanner returns [None] on every path, so the
    suite takes every scan for an aborted one.  Its result is
    ['Scan aborted'], or ['Scan error'] when the menu raised, and never
    ['Network scan (n found)']; only an interrupt can leave it. *)
Theorem suite_never_reports_devices console :
  exists r console',
    scan_network int gateways ifaddresses gethostbyname_ex srp now dump
      CYAN RED LIGHTRED_EX LIGHTGREEN_EX LIGHTWHITE_EX BRIGHT describe console
    = (r, console')
    /\ (r = Ok (py "Scan aborted") \/ r = Ok (py "Scan error")
        \/ r = Raise KeyboardInterrupt).
Proof.
  unfold scan_network. rewrite bind_run, print_run. cbn beta iota.
  unfold catch. rewrite bind_run.
  match goal with |- context [scan_network_menu _ _ _ _ _ _ _ ?c] =>
    destruct (scan_network_menu_none c) as (r & console' & -> & Hr) end.
  destruct Hr as [->|[e ->]]; cbn beta iota.
  - rewrite bind_run, print_run. cbn beta iota.
    eexists _, _. split; [reflexivity|]. by left.
  - destruct e; cbn [is_Exception];
      try (rewrite bind_run, print_run; cbn beta iota;
           eexists _, _; split; [reflexivity|]; right; by left).
    eexists _, _. split; [reflexivity|]. right. by right.
Qed.

End Suite.

End ScanMenuFacts.

(** ** The subnet of the default gateway *)

Section SubnetFacts.
Import ScanMenu.
Variable int : pystr -> result Z.
Variable gateways : option (pystr * pystr).
Variable ifaddresses : pystr -> result (option (list Address)).

Lemma rsplit_at_none (sep : N) (s : pystr) :
  sep ∉ s -> rsplit_at sep s = None.
Proof.
  induction s as [|c s IH]; [done|].
  intros [Hc Hs]%not_elem_of_cons. cbn [rsplit_at]. rewrite (IH Hs).
  by destruct (N.eqb_spec c sep) as [->|_].
Qed.

(** The string is cut at its last separator. *)
Lemma rsplit_at_last (sep : N) (before behind : pystr) :
  sep ∉ behind ->
  rsplit_at sep (before ++ sep :: behind) = Some (before, behind).
Proof.
  intros Hbehind. induction before as [|c before IH].
  - cbn [app rsplit_at]. rewrite (rsplit_at_none _ _ Hbehind).
    by rewrite N.eqb_refl.
  - cbn [app rsplit_at]. by rewrite IH.
Qed.

(** [str] of an [int] is made of digits and, for a negative one, a sign in
    front: there is no dot in it. *)
Lemma digits_without_dot (u : Decimal.uint) :
  46%N ∉ py (NilEmpty.string_of_uint u).
Proof.
  unfold py.
  induction u; cbn [NilEmpty.string_of_uint list_ascii_of_string List.map];
    [apply not_elem_of_nil|..];
    (apply not_elem_of_cons; split; [by vm_compute|done]).
Qed.

Lemma str_of_int_without_dot (i : Z) : 46%N ∉ str_of_int i.
Proof.
  unfold str_of_int, NilZero.string_of_int, NilZero.string_of_uint.
  destruct (Z.to_int i) as [u|u].
  - destruct u; try apply digits_without_dot.
    unfold py. cbn [list_ascii_of_string List.map].
    apply not_elem_of_cons. split; [by vm_compute|apply not_elem_of_nil].
  - unfold py. cbn [list_ascii_of_string List.map].
    apply not_elem_of_cons. split; [by vm_compute|].
    destruct u; try apply digits_without_dot.
    cbn [list_ascii_of_string List.map].
    apply not_elem_of_cons. split; [by vm_compute|apply not_elem_of_nil].
Qed.

Lemma result_bind_ok {A B} (a : A) (k : A -> result B) : Ok a ≫= k = k a.
Proof. reflexivity. Qed.

Lemma count_ones (pieces : list pystr) (octets : list Z) :
  Forall2 (fun x n => int x = Ok n) pieces octets ->
  mapM (fun x => n ← int x; mret (bit_count n)) pieces
  = Ok (List.map bit_count octets).
Proof.
  induction 1 as [|x n pieces octets Hx _ IH]; [done|].
  cbn [mapM List.map]. by rewrite Hx, result_bind_ok, IH.
Qed.

(** Extra X19.  The subnet [get_default_gateway_subnet] returns for the
    address [a.d] of the default interface ([d] the part behind the last
    dot) is [a.0/m], where [m] is the number of one bits in the octets of
    the netmask: whatever the netmask is, the address is cut at its last
    dot and only what follows it is replaced by zero. *)
Theorem default_subnet_zeroes_last_octet (gateway iface before last : pystr)
    (mask_text : pystr) (others : list Address) (octets : list Z) :
  gateways = Some (gateway, iface) ->
  ifaddresses iface
  = Ok (Some ({| addr := Some (before ++ py "." ++ last);
                 netmask := Some mask_text |} :: others)) ->
  mask_text <> [] ->
  46%N ∉ last ->
  Forall2 (fun x n => int x = Ok n) (split 46 mask_text) octets ->
  get_default_gateway_subnet int gateways ifaddresses
  = Ok (Some (before ++ py ".0/"
              ++ str_of_int (fold_right Z.add 0
                               (List.map bit_count octets)))).
Proof.
  intros Hgateway Hiface Hmask Hlast Hoctets.
  unfold get_default_gateway_subnet. rewrite Hgateway. cbn [snd].
  rewrite Hiface, result_bind_ok.
  cbn [default from_option id index nth_error].
  rewrite result_bind_ok. cbn [addr netmask].
  destruct mask_text as [|m mask_text]; [done|].
  assert (exists c ip', before ++ py "." ++ last = c :: ip')
    as (c & ip' & Hip).
  { destruct before; [by eexists _, _|by eexists _, _]. }
  rewrite Hip. cbv zeta. rewrite (count_ones _ _ Hoctets), result_bind_ok.
  rewrite <- Hip. unfold rsplit_once.
  change (py ".") with [46%N]. rewrite <- !app_assoc. cbn [app].
  rewrite rsplit_at_last.
  - reflexivity.
  - intros [Hin|Hin]%elem_of_app; [done|].
    change (py "/") with [47%N] in Hin. cbn [app] in Hin.
    apply elem_of_cons in Hin as [Hslash|Hin]; [done|].
    by apply str_of_int_without_dot in Hin.
Qed.

End SubnetFacts.

(** The host 10.1.2.3 with the netmask 255.255.0.0. *)
Lemma default_subnet_zeroes_last_octet_witness :
  ScanMenu.get_default_gateway_subnet Sample.int_of_digits
    (Some (py "10.1.0.1", py "eth0"))
    (fun _ => Ok (Some [{| ScanMenu.addr := Some (py "10.1.2.3");
                           ScanMenu.netmask := Some (py "255.255.0.0") |}]))
  = Ok (Some (py "10.1.2.0/16")).
Proof.
  rewrite (default_subnet_zeroes_last_octet Sample.int_of_digits
             (Some (py "10.1.0.1", py "eth0"))
             (fun _ => Ok (Some [{| ScanMenu.addr := Some (py "10.1.2.3");
                                    ScanMenu.netmask :=
                                      Some (py "255.255.0.0") |}]))
             (py "10.1.0.1") (py "eth0") (py "10.1.2") (py "3")
             (py "255.255.0.0") [] [255; 255; 0; 0]).
  - by vm_compute.
  - reflexivity.
  - by vm_compute.
  - by vm_compute.
  - apply (bool_decide_unpack _). by vm_compute.
  - vm_compute. repeat constructor.
Defined.

Lemma menu_saves_every_answer_witness :
  exists console1,
    ScanMenu.choose_targets Sample.int_of_digits None (fun _ => Ok None)
      (fun _ => Ok [py "192.168.1.7"; py "93.184.216.34"])
      Sample.asks_for_domain
    = (Ok (Some [py "192.168.1.7"; py "93.184.216.34"]), console1)
    /\ ScanMenu.files
         (snd (ScanMenu.scan_network_menu Sample.int_of_digits None
                 (fun _ => Ok None)
                 (fun _ => Ok [py "192.168.1.7"; py "93.184.216.34"])
                 (fun _ _ _ => Scenario.repeated_answers)
                 (py "20240101_000000") (fun _ _ => Ok tt)
                 Sample.asks_for_domain))
       = [(py "output/scan_results_20240101_000000.json",
           List.map (fun hw => {| ip := py "192.168.1.7"; mac := py hw;
                                  vendor := None |})
             ["aa:aa:aa:aa:aa:aa"; "bb:bb:bb:bb:bb:bb";
              "aa:aa:aa:aa:aa:aa"; "bb:bb:bb:bb:bb:bb"]%string)].
Proof.
  eexists. split; [by vm_compute|].
  rewrite (menu_saves_every_answer Sample.int_of_digits None
             (fun _ => Ok None)
             (fun _ => Ok [py "192.168.1.7"; py "93.184.216.34"])
             (fun _ _ _ => Scenario.repeated_answers)
             (py "20240101_000000") (fun _ _ => Ok tt)
             Sample.asks_for_domain
             [py "192.168.1.7"; py "93.184.216.34"] _
             ltac:(by vm_compute) eq_refl).
  by vm_compute.
Defined.

(* ===================================================================== *)
(** * The helpers                                                         *)
(* ===================================================================== *)

Section SeparatorFacts.
Import Helpers.

Lemma length_repeated (char : pystr) (n : Z) :
  length char = 1%nat ->
  Z.of_nat (length (repeated char n)) = Z.max 0 n.
Proof.
  intros Hchar. unfold repeated, Sniffer.times.
  assert (forall k : nat, length (concat (List.repeat char k)) = k) as Hk.
  { induction k as [|k IH]; [done|].
    cbn [List.repeat concat]. rewrite length_app, Hchar, IH. lia. }
  rewrite Hk. lia.
Qed.

(** Extra X20.  For a filling character the line of [print_separator]
    is [width] characters long only when the title fits: with a title its
    length is the greater of [width] and the length of the title with
    its two spaces, and the title stands between two runs of the filling
    character of which the right one is as long as the left one or one
    longer; without a title the line is [width] filling characters, none
    when [width] is negative. *)
Theorem separator_width (title char : pystr) (width : Z) :
  length char = 1%nat ->
  match title with
  | [] =>
      Z.of_nat (length (print_separator title char width)) = Z.max 0 width
  | _ =>
      Z.of_nat (length (print_separator title char width))
      = Z.max width (Z.of_nat (length title) + 2)
      /\ exists left right,
           print_separator title char width
           = repeated char left ++ py " " ++ title ++ py " "
             ++ repeated char right
           /\ (right = left \/ right = left + 1)
  end.
Proof.
  intros Hchar. destruct title as [|t title].
  { cbn [print_separator]. by apply length_repeated. }
  unfold print_separator. cbv zeta.
  set (titled := py " " ++ (t :: title) ++ py " ").
  assert (Z.of_nat (length titled) = Z.of_nat (length (t :: title)) + 2)
    as Htitled.
  { unfold titled. rewrite !length_app. change (length (py " ")) with 1%nat.
    lia. }
  set (padding := (width - Z.of_nat (length titled)) `div` 2).
  assert (Z.of_nat (length (repeated char padding ++ titled
                            ++ repeated char padding))
          = 2 * Z.max 0 padding + Z.of_nat (length titled)) as Hline.
  { rewrite !length_app, !Nat2Z.inj_add, !length_repeated by done. lia. }
  assert (2 * padding <= width - Z.of_nat (length titled)
          <= 2 * padding + 1) as Hpadding.
  { unfold padding.
    pose proof (Z.div_mod (width - Z.of_nat (length titled)) 2).
    pose proof (Z.mod_pos_bound (width - Z.of_nat (length titled)) 2). lia. }
  destruct (Z.ltb_spec
              (Z.of_nat (length (repeated char padding ++ titled
                                 ++ repeated char padding))) width)
    as [Hshort|Hlong].
  - split.
    + rewrite length_app, Nat2Z.inj_add, length_repeated, Hline by done. lia.
    + assert (width - Z.of_nat (length (repeated char padding ++ titled
                                        ++ repeated char padding)) = 1)
        as Hrest by lia.
      rewrite Hrest.
      destruct (Z.le_gt_cases padding 0) as [Hnone|Hsome].
      * exists 0, 1. split; [|by right].
        unfold repeated at 1 2. replace (Z.to_nat padding) with 0%nat by lia.
        cbn [Sniffer.times List.repeat concat app]. unfold titled.
        unfold repeated at 2. cbn [Z.to_nat Sniffer.times List.repeat concat].
        by rewrite <- !app_assoc.
      * exists padding, (padding + 1). split; [|by right].
        unfold titled. rewrite <- !app_assoc. do 4 f_equal.
        unfold repeated, Sniffer.times.
        replace (Z.to_nat (padding + 1)) with (Z.to_nat padding + 1)%nat
          by lia.
        rewrite repeat_app, concat_app. done.
  - split; [rewrite Hline; lia|].
    exists padding, padding. split; [|by left].
    unfold titled. by rewrite <- !app_assoc.
Qed.

End SeparatorFacts.

Lemma separator_width_witness :
  Z.of_nat (length (Helpers.print_separator (py "SCAN") (py "=") 11)) = 11
  /\ Z.of_nat (length (Helpers.print_separator (py "NETWORK REPORT")
                         (py "=") 10)) = 16.
Proof.
  split.
  - destruct (separator_width (py "SCAN") (py "=") 11 eq_refl) as [-> _].
    reflexivity.
  - destruct (separator_width (py "NETWORK REPORT") (py "=") 10 eq_refl)
      as [-> _].
    reflexivity.
Defined.

Section PortFacts.
Import Helpers.
Variable is_socket_error : exn -> bool.
Variable bind : pystr -> Z -> result unit.

Lemma probe_run (host : pystr) (ports available_ports : list Z) :
  Forall (fun port =>
            match bind host port with
            | Ok _ => True
            | Raise e => is_socket_error e = true
            end) ports ->
  (length available_ports < 10)%nat ->
  probe is_socket_error bind host ports available_ports
  = Ok (available_ports
        ++ take (10 - length available_ports)
             (List.filter (fun port =>
                             match bind host port with
                             | Ok _ => true
                             | Raise _ => false
                             end) ports)).
Proof.
  intros Hports. revert available_ports.
  induction Hports as [|port ports Hport _ IH]; intros available_ports Hfew;
    cbn [probe List.filter].
  - by rewrite take_nil, app_nil_r.
  - destruct (bind host port) as [[]|e].
    + cbv zeta. rewrite length_app. cbn [length].
      destruct (Z.leb_spec 10 (Z.of_nat (length available_ports + 1)))
        as [Hfull|Hroom].
      * replace (10 - length available_ports)%nat with 1%nat by lia.
        cbn [take]. by rewrite take_0.
      * rewrite IH by (rewrite length_app; cbn [length]; lia).
        rewrite length_app. cbn [length]. rewrite <- app_assoc.
        replace (10 - length available_ports)%nat
          with (S (10 - (length available_ports + 1))) by lia.
        done.
    + rewrite Hport. by apply IH.
Qed.

Lemma probe_raises (host : pystr) (before after available_ports : list Z)
    (port : Z) (e : exn) :
  Forall (fun port =>
            match bind host port with
            | Ok _ => True
            | Raise e => is_socket_error e = true
            end) before ->
  bind host port = Raise e ->
  is_socket_error e = false ->
  (length available_ports
   + length (List.filter (fun port =>
                            match bind host port with
                            | Ok _ => true
                            | Raise _ => false
                            end) before) < 10)%nat ->
  probe is_socket_error bind host (before ++ port :: after) available_ports
  = Raise e.
Proof.
  intros Hbefore Hport He. revert available_ports.
  induction Hbefore as [|first before Hfirst _ IH]; intros available_ports;
    cbn [app probe List.filter].
  - intros _. by rewrite Hport, He.
  - destruct (bind host first) as [[]|e'].
    + cbn [length]. intros Hfew. cbv zeta. rewrite length_app. cbn [length].
      destruct (Z.leb_spec 10 (Z.of_nat (length available_ports + 1)))
        as [Hfull|Hroom]; [lia|].
      apply IH. rewrite length_app. cbn [length]. lia.
    + rewrite Hfirst. apply IH.
Qed.

(** Extra X21.  [get_available_ports] tries the ports from [start_port]
    up to but not including the lesser of [start_port + 100] and
    [end_port], in ascending order.  When every attempt binds or raises an
    [OSError], it returns the first ten ports that bind, fewer when fewer
    do.  An attempt that raises anything else, as [bind] does with an
    [OverflowError] for a port outside 0..65535, ends the function with
    that exception, unless ten ports were found before. *)
Theorem available_ports_are_the_first_ten (start_port end_port : Z)
    (host : pystr) :
  let ports := range start_port (Z.min (start_port + 100) end_port) in
  let fine port :=
    match bind host port with
    | Ok _ => True
    | Raise e => is_socket_error e = true
    end in
  let bound port :=
    match bind host port with Ok _ => true | Raise _ => false end in
  (Forall fine ports ->
   get_available_ports is_socket_error bind start_port end_port host
   = Ok (take 10 (List.filter bound ports)))
  /\ (forall before port after e,
        ports = before ++ port :: after ->
        Forall fine before ->
        bind host port = Raise e ->
        is_socket_error e = false ->
        (length (List.filter bound before) < 10)%nat ->
        get_available_ports is_socket_error bind start_port end_port host
        = Raise e).
Proof.
  intros ports fine bound. unfold get_available_ports. fold ports. split.
  - intros Hfine. rewrite probe_run by (done || (cbn [length]; lia)).
    reflexivity.
  - intros before port after e -> Hfine Hport He Hfew.
    by apply probe_raises.
Qed.

End PortFacts.

(** On a host where every port can be bound: the ten ports from 1024 on;
    and from 65530 on the six ports up to 65535, after which the attempt
    at 65536 raises. *)
Lemma available_ports_are_the_first_ten_witness :
  Helpers.get_available_ports Sample.is_OSError Sample.bind_any 1024 65535
    (py "localhost")
  = Ok [1024; 1025; 1026; 1027; 1028; 1029; 1030; 1031; 1032; 1033]
  /\ Helpers.get_available_ports Sample.is_OSError Sample.bind_any
       65530 65540 (py "localhost")
     = Raise (LibraryError (py "OverflowError")).
Proof.
  split.
  - rewrite (proj1 (available_ports_are_the_first_ten Sample.is_OSError
                      Sample.bind_any 1024 65535 (py "localhost"))).
    + by vm_compute.
    + apply (Forall_forall _ _). intros port Hport.
      assert (1024 <= port < 1124) as Hrange.
      { revert Hport. unfold Helpers.range.
        change (Z.min (1024 + 100) 65535 - 1024) with 100.
        intros Hport%elem_of_seqZ. lia. }
      unfold Sample.bind_any.
      destruct (Z.leb_spec 0 port); [|lia].
      destruct (Z.leb_spec port 65535); [done|lia].
  - apply (proj2 (available_ports_are_the_first_ten Sample.is_OSError
                    Sample.bind_any 65530 65540 (py "localhost"))
             [65530; 65531; 65532; 65533; 65534; 65535] 65536
             [65537; 65538; 65539]).
    + by vm_compute.
    + repeat constructor.
    + reflexivity.
    + by vm_compute.
    + vm_compute. lia.
Defined.


Section RangeFacts.
Import Helpers.
Variable inet_aton : pystr -> result unit.
Variable is_socket_error : exn -> bool.
Variable int : pystr -> result Z.

Lemma split_none (sep : N) (s : pystr) : sep ∉ s -> split sep s = [s].
Proof.
  induction s as [|c s IH]; [done|].
  intros [Hc Hs]%not_elem_of_cons. cbn [split].
  destruct (N.eqb_spec c sep) as [->|_]; [done|]. by rewrite (IH Hs).
Qed.

(** Joining the pieces gives the string back. *)
Lemma split_join (sep : N) (s : pystr) : join [sep] (split sep s) = s.
Proof.
  induction s as [|c s IH]; [done|]. cbn [split].
  destruct (split_cons sep s) as (piece & pieces & Hsplit).
  rewrite Hsplit in *. destruct (c =? sep)%N eqn:Hc.
  - apply N.eqb_eq in Hc as ->.
    change (join [sep] ([] :: piece :: pieces))
      with ([] ++ [sep] ++ join [sep] (piece :: pieces)).
    by rewrite IH.
  - rewrite <- IH. by destruct pieces.
Qed.

Lemma split_pieces (sep : N) (s : pystr) :
  Forall (fun piece => sep ∉ piece) (split sep s).
Proof.
  induction s as [|c s IH]; cbn [split].
  - constructor; [apply not_elem_of_nil|constructor].
  - destruct (N.eqb_spec c sep) as [->|Hc].
    + constructor; [apply not_elem_of_nil|done].
    + destruct (split sep s) as [|piece pieces].
      * constructor; [|done]. apply not_elem_of_cons.
        split; [done|apply not_elem_of_nil].
      * apply Forall_cons in IH as [Hpiece Hpieces].
        constructor; [|done]. apply not_elem_of_cons. by split.
Qed.

Lemma contains_char (c : N) (s : pystr) :
  contains [c] s = true <-> c ∈ s.
Proof.
  induction s as [|x s IH]; cbn [contains startswith].
  - split; [done|by intros ?%elem_of_nil].
  - rewrite elem_of_cons, <- IH, orb_true_iff, andb_true_iff, N.eqb_eq.
    destruct s; cbn [startswith]; tauto.
Qed.

(** Extra X22.  [validate_network_range] never raises, and it accepts a
    string exactly when the string is an address and a prefix with one
    slash between them and no other slash, [socket.inet_aton] takes the
    address, and [int] reads the prefix as a number from 0 to 32. *)
Theorem network_range_is_address_and_prefix (network : pystr) :
  (validate_network_range inet_aton is_socket_error int network = Ok true
   \/ validate_network_range inet_aton is_socket_error int network
      = Ok false)
  /\ (validate_network_range inet_aton is_socket_error int network = Ok true
      <-> exists ip prefix n,
            network = ip ++ py "/" ++ prefix
            /\ (47%N ∉ ip) /\ (47%N ∉ prefix)
            /\ inet_aton ip = Ok tt
            /\ int prefix = Ok n
            /\ 0 <= n <= 32).
Proof.
  split.
  { unfold validate_network_range.
    destruct (network_range_checks _ _ _ network) as [[]|e]; tauto. }
  change (py "/") with [47%N]. split.
  - unfold validate_network_range, network_range_checks.
    change (py "/") with [47%N].
    destruct (contains [47%N] network) eqn:Hslash; cbn [negb]; [|done].
    pose proof (split_join 47 network) as Hjoin.
    pose proof (split_pieces 47 network) as Hpieces.
    destruct (split 47 network) as [|ip [|prefix [|more pieces]]]; try done.
    apply Forall_cons in Hpieces as [Hip Hpieces].
    apply Forall_cons in Hpieces as [Hprefix _].
    unfold validate_ip_address.
    destruct (inet_aton ip) as [[]|e] eqn:Haton.
    2:{ by destruct (is_socket_error e). }
    rewrite result_bind_ok. cbn [negb].
    destruct (int prefix) as [n|e] eqn:Hint; [|done].
    rewrite result_bind_ok.
    destruct ((0 <=? n) && (n <=? 32)) eqn:Hn; cbn [negb]; [|done].
    intros _. exists ip, prefix, n.
    apply andb_true_iff in Hn as [?%Z.leb_le ?%Z.leb_le].
    by rewrite <- Hjoin.
  - intros (ip & prefix & n & -> & Hip & Hprefix & Haton & Hint & Hn).
    unfold validate_network_range, network_range_checks.
    change (py "/") with [47%N].
    assert (contains [47%N] (ip ++ [47%N] ++ prefix) = true) as ->.
    { apply contains_char, elem_of_app. right. apply elem_of_cons. by left. }
    cbn [negb app]. rewrite split_app_sep, split_none by done.
    unfold validate_ip_address. rewrite Haton, result_bind_ok. cbn [negb].
    rewrite Hint, result_bind_ok.
    assert ((0 <=? n) && (n <=? 32) = true) as ->.
    { apply andb_true_iff. split; apply Z.leb_le; lia. }
    reflexivity.
Qed.

End RangeFacts.

(* ===================================================================== *)
(** * The whole of [create_topology]                                      *)
(* ===================================================================== *)

Section DrawingFacts.
Import Networkx Topology.
Variable lower : pystr -> pystr.
Variable local_ips : list pystr.
Variable now : pystr.
Variable pyplot : Graph -> pystr -> bool -> bool -> pystr -> option pystr.

(** Extra X24.  For a scan that is not empty [create_topology] builds
    the graph and keeps it in [self.graph] before it draws: when the
    figure is saved it returns the path of the PNG file under the output
    directory and prints two lines, and when drawing fails the exception
    leaves the method with the graph already stored and the first line
    printed.  The file is called [network_topology_<time>.png] when no
    name, or an empty one, is given. *)
Theorem create_topology_keeps_the_graph (scan_data : list Device)
    (output_filename : option pystr) (export_svg export_pdf : bool)
    (theme : pystr) (self : TopologyVisualizer) :
  scan_data <> [] ->
  let filename :=
    match output_filename with
    | Some (c :: name) => c :: name
    | _ => py "network_topology_" ++ now ++ py ".png"
    end in
  let started :=
    py "Creating network topology for "
    ++ str_of_int (Z.of_nat (length scan_data)) ++ py " devices..." in
  exists G,
    create_graph_from_scan_data lower local_ips scan_data = Ok G
    /\ create_topology lower local_ips now pyplot scan_data output_filename
         export_svg export_pdf theme self
       = match pyplot G filename export_svg export_pdf theme with
         | None =>
             (Ok (path_join (output_dir self) filename),
              {| graph := Some G; output_dir := output_dir self;
                 printed := printed self
                            ++ [started;
                                py "Network topology saved as: "
                                ++ path_join (output_dir self) filename] |})
         | Some failure =>
             (Raise (LibraryError failure),
              {| graph := Some G; output_dir := output_dir self;
                 printed := printed self ++ [started] |})
         end.
Proof.
  intros Hdata filename started.
  destruct scan_data as [|first others]; [done|].
  destruct (create_graph_shape lower local_ips first others)
    as (gateway_ip & G & _ & _ & HG & _).
  exists G. split; [exact HG|].
  unfold create_topology. rewrite bool_decide_eq_false_2 by done.
  cbv zeta. fold filename. fold started.
  unfold print, draw_network_topology.
  rewrite !bind_run. unfold assign at 1. cbn beta iota.
  rewrite bind_run, HG. unfold lift at 1. cbn beta iota.
  rewrite !bind_run. unfold assign at 1, attr at 1. cbn beta iota.
  cbn [set_graph graph output_dir printed].
  destruct (pyplot G filename export_svg export_pdf theme) as [failure|];
    unfold mret, method_ret, lift, assign;
    repeat (rewrite bind_run; cbn beta iota);
    unfold set_graph; cbn [graph output_dir printed];
    rewrite <- ?app_assoc; reflexivity.
Qed.

End DrawingFacts.

Lemma create_topology_keeps_the_graph_witness :
  Scenario.devices <> []
  /\ fst (Topology.create_topology (fun s => s) [] (py "20240101_000000")
            (fun _ _ _ _ _ => None) Scenario.devices None false false
            (py "default") Topology.init)
     = Ok (py "output/network_topology_20240101_000000.png").
Proof.
  split; [done|].
  destruct (create_topology_keeps_the_graph (fun s => s) []
              (py "20240101_000000") (fun _ _ _ _ _ => None)
              Scenario.devices None false false (py "default")
              Topology.init)
    as (G & _ & ->); [done|].
  by vm_compute.
Defined.
